(** * WEASEL 2.0 and MUSE 2.0: a shallow embedding of the two dictionary
      classifiers and the properties of their orchestration code.

    The embedded sources are
    [weasel/classification/dictionary_based/_weasel_v2.py] and
    [weasel/classification/dictionary_based/_muse_v2.py].

    What the repository imports but does not define (numpy's random
    generator and transcendental functions, the SFADilation transformer,
    scikit-learn's RidgeClassifierCV) is kept behind two interfaces,
    [NumPy] and [Collaborators]; everything the two files themselves
    compute is a definition below. Floating-point values are the kernel's
    binary64 floats, integers are [Z]. *)

From Stdlib Require Import ZArith List String Bool Lia DecimalString.
From Stdlib Require Import Floats.
Import ListNotations.

Local Open Scope Z_scope.

(* ===================================================================== *)
(** ** Python values, exceptions and the exception/state monad           *)
(* ===================================================================== *)

(** The exceptions the embedded code paths can raise. *)
Inductive exn : Type :=
| ValueError (msg : string)
| IndexError (msg : string)
| OverflowError (msg : string)
| ZeroDivisionError (msg : string)
| AttributeError (msg : string).

Inductive result (A : Type) : Type :=
| Ok (a : A)
| Raise (e : exn).
Arguments Ok {A} a.
Arguments Raise {A} e.

(** A computation over a mutable store [S] that may raise. The store
    survives the exception, as attribute writes on [self] do. *)
Definition M (S A : Type) : Type := S -> result A * S.

Definition ret {S A} (a : A) : M S A := fun s => (Ok a, s).

Definition bind {S A B} (c : M S A) (k : A -> M S B) : M S B :=
  fun s =>
    match c s with
    | (Ok a, s') => k a s'
    | (Raise e, s') => (Raise e, s')
    end.

Definition raise {S A} (e : exn) : M S A := fun s => (Raise e, s).
Definition get {S} : M S S := fun s => (Ok s, s).
Definition modify {S} (f : S -> S) : M S unit := fun s => (Ok tt, f s).

(** A pure step that may raise, run inside a stateful computation. *)
Definition lift {S A} (r : result A) : M S A := fun s => (r, s).

Declare Scope py_scope.
Delimit Scope py_scope with py.
Notation "x <- c ;; k" := (bind c (fun x => k))
  (at level 61, c at next level, right associativity) : py_scope.
Notation "' pat <- c ;; k" := (bind c (fun x => match x with pat => k end))
  (at level 61, pat pattern, c at next level, right associativity) : py_scope.
Notation "c ;;; k" := (bind c (fun _ => k))
  (at level 61, right associativity) : py_scope.
Local Open Scope py_scope.

(** [for x in xs: ...], collecting one value per iteration, in order. *)
Fixpoint for_each {S A B} (xs : list A) (body : A -> M S B) : M S (list B) :=
  match xs with
  | [] => ret []
  | x :: rest =>
      b <- body x ;;
      bs <- for_each rest body ;;
      ret (b :: bs)
  end.

Module Py.

(** [str(n)] on an integer: its decimal digits, with a leading minus. *)
Definition str (n : Z) : string := NilEmpty.string_of_int (Z.to_int n).

(** [range(n)]. *)
Definition range (n : Z) : list Z := map Z.of_nat (seq 0 (Z.to_nat n)).

(** [float(n)] for an integer: the nearest binary64 value. *)
Definition float_of_int (n : Z) : float :=
  SF2Prim (binary_normalize prec emax n 0 false).

(** [a / b] on two integers. Python computes the correctly rounded
    quotient; for operands below 2^53 in magnitude that is the quotient of
    their float conversions, which is what is written here. *)
Definition truediv (a b : Z) : result float :=
  if b =? 0 then Raise (ZeroDivisionError "division by zero")
  else Ok (float_of_int a / float_of_int b)%float.

(** [a // b] on two integers: the floor of the quotient. *)
Definition floordiv (a b : Z) : result Z :=
  if b =? 0
  then Raise (ZeroDivisionError "integer division or modulo by zero")
  else Ok (a / b).

(** [int(x)] on a float: truncation toward zero; NaN and the
    infinities are refused. *)
Definition int (x : float) : result Z :=
  match Prim2SF x with
  | S754_zero _ => Ok 0
  | S754_finite s m e => Ok (cond_Zopp s (Z.shiftl (Z.pos m) e))
  | S754_infinity _ =>
      Raise (OverflowError "cannot convert float infinity to integer")
  | S754_nan => Raise (ValueError "cannot convert float NaN to integer")
  end.

(** [math.isfinite]: neither NaN nor an infinity. *)
Definition isfinite (x : float) : bool :=
  match Prim2SF x with
  | S754_zero _ | S754_finite _ _ _ => true
  | S754_infinity _ | S754_nan => false
  end.

(** [seq[k]] on a Python sequence with a non-negative index. *)
Definition getitem {A} (xs : list A) (k : Z) : result A :=
  if k <? 0 then Raise (IndexError "index out of range")
  else match nth_error xs (Z.to_nat k) with
       | Some x => Ok x
       | None => Raise (IndexError "index out of range")
       end.

End Py.

(* ===================================================================== *)
(** ** numpy and scipy.sparse: arrays, concatenation, integer casts       *)
(* ===================================================================== *)

Module np.

(** A three-dimensional float64 array: its shape and its entries. Entries
    outside the shape are never read by the code below. *)
Record ndarray3 : Type := {
  shape0 : nat;
  shape1 : nat;
  shape2 : nat;
  item3 : nat -> nat -> nat -> float
}.

(** A two-dimensional float64 array. *)
Record ndarray : Type := {
  rows : nat;
  cols : nat;
  item : nat -> nat -> float
}.

(** Nested-list view of an array, as [tolist()] prints it. *)
Definition tolist (a : ndarray) : list (list float) :=
  map (fun i => map (fun j => item a i j) (seq 0 (cols a))) (seq 0 (rows a)).

Definition tolist3 (a : ndarray3) : list (list (list float)) :=
  map (fun i =>
    map (fun j => map (fun k => item3 a i j k) (seq 0 (shape2 a)))
        (seq 0 (shape1 a)))
    (seq 0 (shape0 a)).

(** [np.array(l)] for a rectangular nested list; a missing entry reads 0. *)
Definition array3 (l : list (list (list float))) : ndarray3 :=
  {| shape0 := List.length l;
     shape1 := List.length (nth 0 l []);
     shape2 := List.length (nth 0 (nth 0 l []) []);
     item3 := fun i j k => nth k (nth j (nth i l []) []) 0%float |}.

Definition array (l : list (list float)) : ndarray :=
  {| rows := List.length l;
     cols := List.length (nth 0 l []);
     item := fun i j => nth j (nth i l []) 0%float |}.

(** [np.zeros((n0, n1, n2))]. *)
Definition zeros (n0 n1 n2 : nat) : ndarray3 :=
  {| shape0 := n0; shape1 := n1; shape2 := n2;
     item3 := fun _ _ _ => 0%float |}.

(** [np.diff(X, 1)]: first discrete difference along the last axis. *)
Definition diff (X : ndarray3) : ndarray3 :=
  {| shape0 := shape0 X; shape1 := shape1 X; shape2 := shape2 X - 1;
     item3 := fun i j k => (item3 X i j (k + 1) - item3 X i j k)%float |}.

(** [A[:, lo:hi, :stop] = B], the slice assignment with every instance,
    channels [lo..hi) and positions [0..stop). numpy refuses a source whose
    shape is not the shape of the slice. *)
Definition setslice (A : ndarray3) (lo hi stop : nat) (B : ndarray3)
  : result ndarray3 :=
  let hi' := Nat.min hi (shape1 A) in
  let stop' := Nat.min stop (shape2 A) in
  if ((shape0 B =? shape0 A) && (shape1 B =? hi' - lo)
      && (shape2 B =? stop'))%nat
  then Ok {| shape0 := shape0 A; shape1 := shape1 A; shape2 := shape2 A;
             item3 := fun i j k =>
               if ((lo <=? j) && (j <? hi') && (k <? stop'))%nat
               then item3 B i (j - lo) k
               else item3 A i j k |}
  else Raise (ValueError "could not broadcast input array")%string.

(** [X[:, dim]]: one channel of every instance. *)
Definition channel (X : ndarray3) (dim : nat) : ndarray :=
  {| rows := shape0 X; cols := shape2 X;
     item := fun i k => item3 X i dim k |}.

(** [X.squeeze(1)]: drop the channel axis, which must have size one. *)
Definition squeeze1 (X : ndarray3) : result ndarray :=
  if (shape1 X =? 1)%nat then Ok (channel X 0)
  else Raise (ValueError
    "cannot select an axis to squeeze out which has size not equal to one")%string.

(** [np.arange(start, stop, 1)]. *)
Definition arange (start stop : Z) : list Z :=
  map (fun k => start + Z.of_nat k) (seq 0 (Z.to_nat (stop - start))).

(** [a / b] where an operand is a numpy integer: float64 division, which
    yields an infinity or NaN on a zero divisor instead of raising. *)
Definition true_divide (a b : Z) : float :=
  (Py.float_of_int a / Py.float_of_int b)%float.

(** A feature block as the transformers return it: a dense array or a
    scipy sparse matrix (kept by its entries). *)
Inductive block : Type :=
| Dense (a : ndarray)
| Sparse (a : ndarray).

Definition payload (b : block) : ndarray :=
  match b with Dense a | Sparse a => a end.

(** [type(b) is np.ndarray]. *)
Definition is_ndarray (b : block) : bool :=
  match b with Dense _ => true | Sparse _ => false end.

(** Entries of the column-wise concatenation of a list of arrays. *)
Fixpoint hcat_item (bs : list ndarray) (i j : nat) : float :=
  match bs with
  | [] => 0%float
  | b :: rest =>
      if (j <? cols b)%nat then item b i j
      else hcat_item rest i (j - cols b)
  end.

Definition hcat (bs : list ndarray) : ndarray :=
  {| rows := rows (nth 0 bs (array []));
     cols := fold_right (fun b n => (cols b + n)%nat) 0%nat bs;
     item := hcat_item bs |}.

Definition same_rows (bs : list ndarray) : bool :=
  forallb (fun b => (rows b =? rows (nth 0 bs (array [])))%nat) bs.

(** [np.concatenate(bs, axis=1)]. A scipy sparse matrix among the
    operands is seen as a zero-dimensional object array and refused. *)
Definition concatenate (bs : list block) : result block :=
  match bs with
  | [] => Raise (ValueError "need at least one array to concatenate")%string
  | _ =>
      if negb (forallb is_ndarray bs)
      then Raise (ValueError
             "zero-dimensional arrays cannot be concatenated")%string
      else if same_rows (map payload bs)
      then Ok (Dense (hcat (map payload bs)))
      else Raise (ValueError
             "all the input array dimensions except for the concatenation axis must match exactly")%string
  end.

(** [scipy.sparse.hstack(bs)]: every operand is converted to a sparse
    matrix first, so dense operands are accepted. *)
Definition hstack (bs : list block) : result block :=
  match bs with
  | [] => Raise (ValueError "blocks must be 2-D")%string
  | _ =>
      if same_rows (map payload bs)
      then Ok (Sparse (hcat (map payload bs)))
      else Raise (ValueError
             "blocks[0,:] has incompatible row dimensions")%string
  end.

(** [(scores > 0).astype(np.int)]. *)
Definition positive_as_int (scores : list float) : list Z :=
  map (fun s => if (0 <? s)%float then 1 else 0) scores.

(** The scan behind [argmax] on one row: a later entry replaces the
    running maximum when it is not below or equal to it, and a NaN ends
    the scan. *)
Fixpoint argmax_scan (mp : float) (mi i : Z) (xs : list float) : Z :=
  match xs with
  | [] => mi
  | x :: rest =>
      if negb (x <=? mp)%float
      then if is_nan x then i else argmax_scan x i (i + 1) rest
      else argmax_scan mp mi (i + 1) rest
  end.

Definition argmax_row (xs : list float) : result Z :=
  match xs with
  | [] => Raise (ValueError "attempt to get argmax of an empty sequence")%string
  | x :: rest => Ok (if is_nan x then 0 else argmax_scan x 0 1 rest)
  end.

(** The decision scores of a linear classifier: one value per instance
    for two classes, one row of per-class values otherwise. *)
Inductive scores : Type :=
| Scores1D (v : list float)
| Scores2D (m : list (list float)).

(** [scores.argmax(axis=1)]. *)
Fixpoint argmax_axis1 (m : list (list float)) : result (list Z) :=
  match m with
  | [] => Ok []
  | r :: rest =>
      match argmax_row r, argmax_axis1 rest with
      | Ok k, Ok ks => Ok (k :: ks)
      | Raise e, _ => Raise e
      | _, Raise e => Raise e
      end
  end.

(** [classes[indices]] with an integer index array. *)
Fixpoint take {A} (classes : list A) (indices : list Z) : result (list A) :=
  match indices with
  | [] => Ok []
  | k :: rest =>
      match Py.getitem classes k, take classes rest with
      | Ok c, Ok cs => Ok (c :: cs)
      | Raise e, _ => Raise e
      | _, Raise e => Raise e
      end
  end.

End np.

(* ===================================================================== *)
(** ** Interfaces of what the repository imports                          *)
(* ===================================================================== *)

(** numpy's legacy random generator and the float functions the sampler
    calls. The generator is known by its two primitive draws: a bounded
    integer (behind [choice]) and a float in the unit interval (behind
    [uniform]). *)
Class NumPy : Type := {
  RandomState : Type;
  (** [np.random.RandomState(seed)] for a seed in range. *)
  RandomState_seed : Z -> RandomState;
  (** A draw from [0, n), and the generator after it. *)
  randint : RandomState -> Z -> Z * RandomState;
  randint_range : forall g n, 0 < n -> 0 <= fst (randint g n) < n;
  (** A draw from the unit interval, and the generator after it. *)
  random_sample : RandomState -> float * RandomState;
  (** [np.log2]. *)
  log2 : float -> float;
  (** [2 ** x] for a float exponent. *)
  power2 : float -> float;
  (** What the C cast behind [np.int32] leaves for a value that does not
      fit (it depends on the platform). *)
  int32_out_of_range : float -> Z;
  (** [np.logspace(start, stop, num)]. *)
  logspace : Z -> Z -> Z -> list float
}.

(** [np.int32(x)] on a float: truncation toward zero when the result
    fits in 32 bits. *)
Definition int32 `{NumPy} (x : float) : Z :=
  match Py.int x with
  | Ok z =>
      if (- 2 ^ 31 <=? z) && (z <? 2 ^ 31) then z else int32_out_of_range x
  | Raise _ => int32_out_of_range x
  end.

(** [sklearn.utils.check_random_state(seed)]: [None] is the process-wide
    generator [np.random.mtrand._rand] itself, an integer seeds a new
    generator. *)
Definition check_random_state `{NumPy} (seed : option Z)
  (global : RandomState) : result RandomState :=
  match seed with
  | None => Ok global
  | Some s =>
      if (0 <=? s) && (s <? 2 ^ 32) then Ok (RandomState_seed s)
      else Raise (ValueError "Seed must be between 0 and 2**32 - 1")
  end.

(** [rng.choice(a)] for a one-dimensional sequence. *)
Definition choice `{NumPy} {A} (a : list A) : M RandomState A :=
  fun g =>
    match a with
    | [] =>
        (Raise (ValueError "'a' cannot be empty unless no samples are taken"),
         g)
    | _ :: _ =>
        let (k, g') := randint g (Z.of_nat (List.length a)) in
        (Py.getitem a k, g')
    end.

(** [rng.uniform(low, high)]. *)
Definition uniform `{NumPy} (low high : float) : M RandomState float :=
  fun g =>
    let fscale := (high - low)%float in
    if Py.isfinite fscale
    then let (r, g') := random_sample g in
         (Ok (low + fscale * r)%float, g')
    else (Raise (OverflowError "Range exceeds valid bounds"), g).

(** The keyword arguments of [SFADilation(...)]. An argument a call site
    leaves out is [None] here: the constructor's default applies. *)
Module SFA.

Record SFADilation : Type := {
  variance : bool;
  word_length : Z;
  alphabet_size : Z;
  window_size : Z;
  norm : bool;
  anova : bool;
  binning_method : string;
  remove_repeat_words : option bool;
  bigrams : bool;
  dilation : Z;
  lower_bounding : option bool;
  first_difference : bool;
  feature_selection : string;
  sections : option Z;
  max_feature_count : Z;
  random_state : Z;
  return_sparse : bool;
  n_jobs : Z
}.

End SFA.

(** The SFADilation transformer and the ridge classifier, by the calls
    the two pipelines make on them. *)
Class Collaborators : Type := {
  label : Type;
  (** What a fitted transformer has learned. *)
  vocabulary : Type;
  fit_transform :
    SFA.SFADilation -> np.ndarray -> list label ->
    result (np.block * vocabulary);
  transform :
    SFA.SFADilation -> vocabulary -> np.ndarray -> result np.block;
  (** A fitted [RidgeClassifierCV]. *)
  RidgeClassifierCV : Type;
  RidgeClassifierCV_fit :
    list float -> np.block -> list label -> result RidgeClassifierCV;
  predict : RidgeClassifierCV -> np.block -> result (list label);
  decision_function : RidgeClassifierCV -> np.block -> result np.scores;
  best_score_ : RidgeClassifierCV -> option float
}.

(** A transformer object after [fit_transform]. *)
Record transformer `{Collaborators} : Type := {
  params : SFA.SFADilation;
  learned : vocabulary
}.

(** The part of the process a fit touches besides [self]: the global
    random generator, the tasks handed to the worker pool so far (by
    member index), and the warnings issued. *)
Record process `{NumPy} : Type := {
  np_random : RandomState;
  submitted : list Z;
  warnings : list string
}.

Definition warn `{NumPy} {S} (msg : string) : M (S * process) unit :=
  modify (fun sp =>
    (fst sp,
     {| np_random := np_random (snd sp);
        submitted := submitted (snd sp);
        warnings := (warnings (snd sp) ++ [msg])%list |})).

(** One task of the pool: it is recorded as submitted, then runs on the
    process-wide generator. *)
Definition run_task `{NumPy} {S A} (i : Z) (task : M RandomState A)
  : M (S * process) A :=
  fun sp =>
    let p := snd sp in
    let (r, g) := task (np_random p) in
    (r, (fst sp,
         {| np_random := g;
            submitted := (submitted p ++ [i])%list;
            warnings := warnings p |})).

(** [Parallel(...)(delayed(task)(i, ...) for i in indices)]: results come
    back in the order of [indices]; the tasks are run here in that order. *)
Definition Parallel `{NumPy} {S A} (indices : list Z)
  (task : Z -> M RandomState A) : M (S * process) (list A) :=
  for_each indices (fun i => run_task i (task i)).

Definition self_ `{NumPy} {S} : M (S * process) S :=
  fun sp => (Ok (fst sp), sp).

Definition setattr `{NumPy} {S} (f : S -> S) : M (S * process) unit :=
  modify (fun sp => (f (fst sp), snd sp)).

(** The merge of the per-member feature blocks, as both pipelines write
    it after fitting and after transforming:
    [if type(words[0]) is np.ndarray: np.concatenate(words, axis=1)
     else: hstack(words)]. *)
Definition merge (words : list np.block) : result np.block :=
  match Py.getitem words 0 with
  | Raise e => Raise e
  | Ok first =>
      if np.is_ndarray first then np.concatenate words
      else np.hstack words
  end.

(** [self.clf] when a method is called on it. *)
Definition the_clf `{Collaborators} (c : option RidgeClassifierCV) : result RidgeClassifierCV :=
  match c with
  | Some fitted => Ok fitted
  | None => Raise (AttributeError "'NoneType' object has no attribute")
  end.

(** The labels [_predict_proba] derives from the decision scores (the
    same statements in both files):
    [classes_[indices]] with the sign test for a single column of scores
    and the row-wise argmax otherwise. *)
Definition labels_of_scores {label : Type} (classes : list label) (scores : np.scores)
  : result (list label) :=
  match
    match scores with
    | np.Scores1D v => (* len(scores.shape) == 1 *) Ok (np.positive_as_int v)
    | np.Scores2D m => np.argmax_axis1 m
    end
  with
  | Ok indices => np.take classes indices
  | Raise e => Raise e
  end.

(** The message of the window-bounds error (the same f-string in both
    files). *)
Definition window_error_message (min_window max_window series_length : Z)
  : string :=
  ("Error in WEASEL, min_window =" ++ Py.str min_window ++ " is bigger"
   ++ " than max_window =" ++ Py.str max_window ++ ","
   ++ " series length is " ++ Py.str series_length
   ++ " try set min_window to be smaller than series length in "
   ++ "the constructor, but the classifier may not work at "
   ++ "all with very short series")%string.

(* ===================================================================== *)
(** ** _weasel_v2.py                                                      *)
(* ===================================================================== *)

Module WEASEL_V2.
Section WithCollaborators.
Context {N : NumPy} {C : Collaborators}.

(** The attributes [__init__] sets and no method reassigns. *)
Record hyperparameters : Type := {
  alphabet_sizes : list Z;
  binning_strategies : list string;
  anova : bool;
  variance : bool;
  bigrams : bool;
  lower_bounding : bool;
  remove_repeat_words : bool;
  norm_options : list bool;
  word_lengths : list Z;
  random_state : option Z;
  min_window : Z;
  max_feature_count : Z;
  use_first_differences : list bool;
  feature_selection : string;
  sections : Z;
  n_jobs : Z
}.

(** The object: its hyperparameters and the attributes methods assign. *)
Record instance : Type := {
  hp : hyperparameters;
  max_window : Z;
  ensemble_size : Z;
  window_sizes : list Z;
  series_length : Z;
  n_instances : Z;
  SFA_transformers : list transformer;
  clf : option RidgeClassifierCV;
  total_features_count : option Z;
  cross_val_score : option float;
  classes_ : list label
}.

(** Attribute writes, [self.a = v]. *)
Definition set_max_window (v : Z) (s : instance) : instance :=
  {| hp := hp s; max_window := v; ensemble_size := ensemble_size s;
     window_sizes := window_sizes s; series_length := series_length s;
     n_instances := n_instances s; SFA_transformers := SFA_transformers s;
     clf := clf s; total_features_count := total_features_count s;
     cross_val_score := cross_val_score s; classes_ := classes_ s |}.

Definition set_ensemble_size (v : Z) (s : instance) : instance :=
  {| hp := hp s; max_window := max_window s; ensemble_size := v;
     window_sizes := window_sizes s; series_length := series_length s;
     n_instances := n_instances s; SFA_transformers := SFA_transformers s;
     clf := clf s; total_features_count := total_features_count s;
     cross_val_score := cross_val_score s; classes_ := classes_ s |}.

Definition set_window_sizes (v : list Z) (s : instance) : instance :=
  {| hp := hp s; max_window := max_window s;
     ensemble_size := ensemble_size s; window_sizes := v;
     series_length := series_length s; n_instances := n_instances s;
     SFA_transformers := SFA_transformers s; clf := clf s;
     total_features_count := total_features_count s;
     cross_val_score := cross_val_score s; classes_ := classes_ s |}.

Definition set_series_length (v : Z) (s : instance) : instance :=
  {| hp := hp s; max_window := max_window s;
     ensemble_size := ensemble_size s; window_sizes := window_sizes s;
     series_length := v; n_instances := n_instances s;
     SFA_transformers := SFA_transformers s; clf := clf s;
     total_features_count := total_features_count s;
     cross_val_score := cross_val_score s; classes_ := classes_ s |}.

Definition set_n_instances (v : Z) (s : instance) : instance :=
  {| hp := hp s; max_window := max_window s;
     ensemble_size := ensemble_size s; window_sizes := window_sizes s;
     series_length := series_length s; n_instances := v;
     SFA_transformers := SFA_transformers s; clf := clf s;
     total_features_count := total_features_count s;
     cross_val_score := cross_val_score s; classes_ := classes_ s |}.

Definition set_SFA_transformers (v : list transformer) (s : instance) : instance :=
  {| hp := hp s; max_window := max_window s;
     ensemble_size := ensemble_size s; window_sizes := window_sizes s;
     series_length := series_length s; n_instances := n_instances s;
     SFA_transformers := v; clf := clf s;
     total_features_count := total_features_count s;
     cross_val_score := cross_val_score s; classes_ := classes_ s |}.

Definition set_clf (v : option RidgeClassifierCV) (s : instance) : instance :=
  {| hp := hp s; max_window := max_window s;
     ensemble_size := ensemble_size s; window_sizes := window_sizes s;
     series_length := series_length s; n_instances := n_instances s;
     SFA_transformers := SFA_transformers s; clf := v;
     total_features_count := total_features_count s;
     cross_val_score := cross_val_score s; classes_ := classes_ s |}.

Definition set_total_features_count (v : option Z) (s : instance) : instance :=
  {| hp := hp s; max_window := max_window s;
     ensemble_size := ensemble_size s; window_sizes := window_sizes s;
     series_length := series_length s; n_instances := n_instances s;
     SFA_transformers := SFA_transformers s; clf := clf s;
     total_features_count := v; cross_val_score := cross_val_score s;
     classes_ := classes_ s |}.

Definition set_cross_val_score (v : option float) (s : instance) : instance :=
  {| hp := hp s; max_window := max_window s;
     ensemble_size := ensemble_size s; window_sizes := window_sizes s;
     series_length := series_length s; n_instances := n_instances s;
     SFA_transformers := SFA_transformers s; clf := clf s;
     total_features_count := total_features_count s; cross_val_score := v;
     classes_ := classes_ s |}.

Definition set_classes_ (v : list label) (s : instance) : instance :=
  {| hp := hp s; max_window := max_window s;
     ensemble_size := ensemble_size s; window_sizes := window_sizes s;
     series_length := series_length s; n_instances := n_instances s;
     SFA_transformers := SFA_transformers s; clf := clf s;
     total_features_count := total_features_count s;
     cross_val_score := cross_val_score s; classes_ := v |}.

(** [WEASEL_V2.__init__]. [classes_] is written by the host framework's
    [fit] before it calls [_fit]. *)
Definition __init__ (min_window : Z) (norm_options : list bool)
  (word_lengths : list Z) (use_first_differences : list bool)
  (feature_selection : string) (max_feature_count : Z)
  (random_state : option Z) (n_jobs : Z) : instance :=
  {| hp := {| alphabet_sizes := [2];
              binning_strategies := ["equi-depth"; "equi-width"]%string;
              anova := false;
              variance := true;
              bigrams := false;
              lower_bounding := true;
              remove_repeat_words := false;
              norm_options := norm_options;
              word_lengths := word_lengths;
              random_state := random_state;
              min_window := min_window;
              max_feature_count := max_feature_count;
              use_first_differences := use_first_differences;
              feature_selection := feature_selection;
              sections := 1;
              n_jobs := n_jobs |};
     max_window := 84;
     ensemble_size := 150;
     window_sizes := [];
     series_length := 0;
     n_instances := 0;
     SFA_transformers := [];
     clf := None;
     total_features_count := None;
     cross_val_score := None;
     classes_ := [] |}.

(** [WEASEL_V2()] with the default arguments. *)
Definition default : instance :=
  __init__ 4 [false] [7; 8] [true; false] "chi2_top_k" 30000 None 4.

(** [getSFADilated]: the [SFADilation(...)] call of the univariate
    pipeline. *)
Definition getSFADilated (alphabet_size : Z) (alphabet_sizes : list Z)
  (anova bigrams : bool) (binning_strategy : string) (dilation : Z)
  (ensemble_size : Z) (feature_selection : string) (first_difference : bool)
  (i : Z) (lower_bounding : bool) (max_feature_count : Z) (n_jobs : Z)
  (norm remove_repeat_words : bool) (sections : Z) (variance : bool)
  (window_size word_length : Z) : result SFA.SFADilation :=
  match Py.floordiv max_feature_count ensemble_size with
  | Raise e => Raise e
  | Ok cap =>
      Ok {| SFA.variance := variance;
            SFA.word_length := word_length;
            SFA.alphabet_size := alphabet_size;
            SFA.window_size := window_size;
            SFA.norm := norm;
            SFA.anova := anova;
            SFA.binning_method := binning_strategy;
            SFA.remove_repeat_words := Some remove_repeat_words;
            SFA.bigrams := bigrams;
            SFA.dilation := dilation;
            SFA.lower_bounding := Some lower_bounding;
            SFA.first_difference := first_difference;
            SFA.feature_selection := feature_selection;
            SFA.sections := Some sections;
            SFA.max_feature_count := cap;
            SFA.random_state := i;
            SFA.return_sparse := false;
            SFA.n_jobs := n_jobs |}
  end.

(** What one ensemble member draws. *)
Record configuration : Type := {
  window_size : Z;
  dilation : Z;
  alphabet_size : Z;
  word_length : Z;
  norm : bool;
  binning_strategy : string
}.

(** The exponent drawn for the dilation:
    [rng.uniform(0, np.log2((series_length - 1) / (window_size - 1)))]. *)
Definition dilation_exponent (series_length window_size : Z)
  : M RandomState float :=
  uniform 0%float (log2 (np.true_divide (series_length - 1) (window_size - 1))).

(** The draws of [_parallel_fit], in the order the generator is used. *)
Definition sample (window_sizes alphabet_sizes word_lengths : list Z)
  (series_length : Z) (norm_options : list bool)
  (binning_strategies : list string) : M RandomState configuration :=
  window_size <- choice window_sizes ;;
  u <- dilation_exponent series_length window_size ;;
  let dilation := Z.max 1 (int32 (power2 u)) in
  alphabet_size <- choice alphabet_sizes ;;
  (* maximize word-length *)
  drawn <- choice word_lengths ;;
  let word_length := Z.min (window_size - 2) drawn in
  norm <- choice norm_options ;;
  binning_strategy <- choice binning_strategies ;;
  ret {| window_size := window_size;
         dilation := dilation;
         alphabet_size := alphabet_size;
         word_length := word_length;
         norm := norm;
         binning_strategy := binning_strategy |}.

(** The body of [_parallel_fit] once [rng] is bound. *)
Definition _parallel_fit_with_rng (i : Z) (X : np.ndarray) (y : list label)
  (window_sizes alphabet_sizes word_lengths : list Z) (series_length : Z)
  (norm_options use_first_differences : list bool)
  (binning_strategies : list string) (variance anova bigrams : bool)
  (lower_bounding : bool) (n_jobs max_feature_count ensemble_size : Z)
  (feature_selection : string) (remove_repeat_words : bool) (sections : Z)
  : M RandomState (list np.block * list transformer) :=
  c <- sample window_sizes alphabet_sizes word_lengths series_length
         norm_options binning_strategies ;;
  fitted <- for_each use_first_differences (fun first_difference =>
    transformer <- lift
      (getSFADilated (alphabet_size c) alphabet_sizes anova bigrams
         (binning_strategy c) (dilation c) ensemble_size feature_selection
         first_difference i lower_bounding max_feature_count n_jobs (norm c)
         remove_repeat_words sections variance (window_size c)
         (word_length c)) ;;
    (* generate SFA words on sample *)
    '(words, v) <- lift (fit_transform transformer X y) ;;
    ret (words, {| params := transformer; learned := v |})) ;;
  ret (map fst fitted, map snd fitted).

(** [_parallel_fit]. With [random_state] [None] the generator is the
    process-wide one, so its draws advance it; otherwise the generator is
    private to the task. *)
Definition _parallel_fit (i : Z) (X : np.ndarray) (y : list label)
  (window_sizes alphabet_sizes word_lengths : list Z) (series_length : Z)
  (norm_options use_first_differences : list bool)
  (binning_strategies : list string) (variance anova bigrams : bool)
  (lower_bounding : bool) (n_jobs max_feature_count ensemble_size : Z)
  (feature_selection : string) (remove_repeat_words : bool) (sections : Z)
  (random_state : option Z)
  : M RandomState (list np.block * list transformer) :=
  fun global =>
    let body :=
      _parallel_fit_with_rng i X y window_sizes alphabet_sizes word_lengths
        series_length norm_options use_first_differences binning_strategies
        variance anova bigrams lower_bounding n_jobs max_feature_count
        ensemble_size feature_selection remove_repeat_words sections in
    match random_state with
    | None =>
        match check_random_state None global with
        | Ok rng => body rng
        | Raise e => (Raise e, global)
        end
    | Some s =>
        match check_random_state (Some (s + i)) global with
        | Ok rng => (fst (body rng), global)
        | Raise e => (Raise e, global)
        end
    end.

(** The band that sets the ensemble size and the largest window from the
    size of the training set (the first statements of [_fit] after the
    shape is read). *)
Definition choose_band : M (instance * process) unit :=
  self <- self_ ;;
  (* avoid overfitting with too many features *)
  if n_instances self <? 250 then
    setattr (set_max_window 24) ;;;
    setattr (set_ensemble_size 50)
  else if series_length self <? 100 then
    setattr (set_max_window 44) ;;;
    setattr (set_ensemble_size 100)
  else
    setattr (set_max_window 84) ;;;
    setattr (set_ensemble_size 150).

(** The window-bounds check of [_fit]. *)
Definition check_windows : M (instance * process) unit :=
  self <- self_ ;;
  setattr (set_max_window (Z.min (series_length self) (max_window self))) ;;;
  self <- self_ ;;
  if min_window (hp self) >? max_window self then
    raise (ValueError (window_error_message (min_window (hp self))
                         (max_window self) (series_length self)))
  else ret tt.

(** The ensemble members of [_fit]: the candidate window sizes are
    stored, then the worker pool runs one [_parallel_fit] per member. *)
Definition fit_members (XX : np.ndarray) (y : list label)
  : M (instance * process) (list (list np.block * list transformer)) :=
  (* Randomly choose window sizes *)
  self <- self_ ;;
  setattr (set_window_sizes
             (np.arange (min_window (hp self)) (max_window self + 1))) ;;;
  self <- self_ ;;
  Parallel (Py.range (ensemble_size self)) (fun i =>
    _parallel_fit i XX y (window_sizes self) (alphabet_sizes (hp self))
      (word_lengths (hp self)) (series_length self) (norm_options (hp self))
      (use_first_differences (hp self)) (binning_strategies (hp self))
      (variance (hp self)) (anova (hp self)) (bigrams (hp self))
      (lower_bounding (hp self)) (n_jobs (hp self))
      (max_feature_count (hp self)) (ensemble_size self)
      (feature_selection (hp self)) (remove_repeat_words (hp self))
      (sections (hp self)) (random_state (hp self))).

(** The end of [_fit]: the transformers are kept, the feature blocks are
    merged and the ridge classifier is fitted on the merged matrix. *)
Definition fit_classifier
  (parallel_res : list (list np.block * list transformer)) (y : list label)
  : M (instance * process) unit :=
  setattr (fun s =>
    set_SFA_transformers
      (SFA_transformers s ++ List.concat (map snd parallel_res))%list s) ;;;
  let sfa_words := List.concat (map fst parallel_res) in
  (* merging arrays from different threads *)
  all_words <- lift (merge sfa_words) ;;
  fitted <- lift (RidgeClassifierCV_fit (logspace (-1) 5 10) all_words y) ;;
  setattr (set_clf (Some fitted)) ;;;
  setattr (set_total_features_count
             (Some (Z.of_nat (np.cols (np.payload all_words))))) ;;;
  match best_score_ fitted with
  | Some score => setattr (set_cross_val_score (Some score))
  | None => ret tt
  end.

(** [WEASEL_V2._fit]. *)
Definition _fit (X : np.ndarray3) (y : list label)
  : M (instance * process) unit :=
  (* Window length parameter space dependent on series length *)
  setattr (set_n_instances (Z.of_nat (np.shape0 X))) ;;;
  setattr (set_series_length (Z.of_nat (np.shape2 X))) ;;;
  XX <- lift (np.squeeze1 X) ;;
  choose_band ;;;
  check_windows ;;;
  parallel_res <- fit_members XX y ;;
  fit_classifier parallel_res y.

(** [WEASEL_V2._transform_words]. *)
Definition _transform_words (X : np.ndarray3)
  : M (instance * process) np.block :=
  XX <- lift (np.squeeze1 X) ;;
  self <- self_ ;;
  all_words <- for_each (SFA_transformers self) (fun transformer =>
    lift (transform (params transformer) (learned transformer) XX)) ;;
  lift (merge all_words).

(** [WEASEL_V2._predict]. *)
Definition _predict (X : np.ndarray3) : M (instance * process) (list label) :=
  bag <- _transform_words X ;;
  self <- self_ ;;
  fitted <- lift (the_clf (clf self)) ;;
  lift (predict fitted bag).

(** [WEASEL_V2._predict_proba]. *)
Definition _predict_proba (X : np.ndarray3)
  : M (instance * process) (list label) :=
  bag <- _transform_words X ;;
  self <- self_ ;;
  fitted <- lift (the_clf (clf self)) ;;
  scores <- lift (decision_function fitted bag) ;;
  lift (labels_of_scores (classes_ self) scores).

End WithCollaborators.
End WEASEL_V2.

(* ===================================================================== *)
(** ** _muse_v2.py                                                        *)
(* ===================================================================== *)

Module MUSE_V2.
Section WithCollaborators.
Context {N : NumPy} {C : Collaborators}.

(** The attributes [__init__] sets and no method reassigns. *)
Record hyperparameters : Type := {
  alphabet_sizes : list Z;
  anova : bool;
  variance : bool;
  use_first_differences : bool;
  norm_options : list bool;
  word_lengths : list Z;
  min_window : Z;
  ensemble_size : Z;
  max_feature_count : Z;
  feature_selection : string;
  binning_strategies : list string;
  bigrams : bool;
  random_state : option Z;
  n_jobs : Z
}.

(** The object: its hyperparameters and the attributes methods assign. *)
Record instance : Type := {
  hp : hyperparameters;
  max_window : Z;
  window_sizes : list Z;
  SFA_transformers : list (list transformer);
  clf : option RidgeClassifierCV;
  total_features_count : Z;
  n_dims : option Z;
  highest_dim_bit : option Z;
  series_length : option Z;
  cross_val_score : option float;
  classes_ : list label
}.

(** Attribute writes, [self.a = v]. *)
Definition set_max_window (v : Z) (s : instance) : instance :=
  {| hp := hp s; max_window := v; window_sizes := window_sizes s;
     SFA_transformers := SFA_transformers s; clf := clf s;
     total_features_count := total_features_count s; n_dims := n_dims s;
     highest_dim_bit := highest_dim_bit s;
     series_length := series_length s;
     cross_val_score := cross_val_score s; classes_ := classes_ s |}.

Definition set_window_sizes (v : list Z) (s : instance) : instance :=
  {| hp := hp s; max_window := max_window s; window_sizes := v;
     SFA_transformers := SFA_transformers s; clf := clf s;
     total_features_count := total_features_count s; n_dims := n_dims s;
     highest_dim_bit := highest_dim_bit s;
     series_length := series_length s;
     cross_val_score := cross_val_score s; classes_ := classes_ s |}.

Definition set_SFA_transformers (v : list (list transformer)) (s : instance) : instance :=
  {| hp := hp s; max_window := max_window s;
     window_sizes := window_sizes s; SFA_transformers := v; clf := clf s;
     total_features_count := total_features_count s; n_dims := n_dims s;
     highest_dim_bit := highest_dim_bit s;
     series_length := series_length s;
     cross_val_score := cross_val_score s; classes_ := classes_ s |}.

Definition set_clf (v : option RidgeClassifierCV) (s : instance) : instance :=
  {| hp := hp s; max_window := max_window s;
     window_sizes := window_sizes s;
     SFA_transformers := SFA_transformers s; clf := v;
     total_features_count := total_features_count s; n_dims := n_dims s;
     highest_dim_bit := highest_dim_bit s;
     series_length := series_length s;
     cross_val_score := cross_val_score s; classes_ := classes_ s |}.

Definition set_total_features_count (v : Z) (s : instance) : instance :=
  {| hp := hp s; max_window := max_window s;
     window_sizes := window_sizes s;
     SFA_transformers := SFA_transformers s; clf := clf s;
     total_features_count := v; n_dims := n_dims s;
     highest_dim_bit := highest_dim_bit s;
     series_length := series_length s;
     cross_val_score := cross_val_score s; classes_ := classes_ s |}.

Definition set_n_dims (v : option Z) (s : instance) : instance :=
  {| hp := hp s; max_window := max_window s;
     window_sizes := window_sizes s;
     SFA_transformers := SFA_transformers s; clf := clf s;
     total_features_count := total_features_count s; n_dims := v;
     highest_dim_bit := highest_dim_bit s;
     series_length := series_length s;
     cross_val_score := cross_val_score s; classes_ := classes_ s |}.

Definition set_highest_dim_bit (v : option Z) (s : instance) : instance :=
  {| hp := hp s; max_window := max_window s;
     window_sizes := window_sizes s;
     SFA_transformers := SFA_transformers s; clf := clf s;
     total_features_count := total_features_count s; n_dims := n_dims s;
     highest_dim_bit := v; series_length := series_length s;
     cross_val_score := cross_val_score s; classes_ := classes_ s |}.

Definition set_series_length (v : option Z) (s : instance) : instance :=
  {| hp := hp s; max_window := max_window s;
     window_sizes := window_sizes s;
     SFA_transformers := SFA_transformers s; clf := clf s;
     total_features_count := total_features_count s; n_dims := n_dims s;
     highest_dim_bit := highest_dim_bit s; series_length := v;
     cross_val_score := cross_val_score s; classes_ := classes_ s |}.

Definition set_cross_val_score (v : option float) (s : instance) : instance :=
  {| hp := hp s; max_window := max_window s;
     window_sizes := window_sizes s;
     SFA_transformers := SFA_transformers s; clf := clf s;
     total_features_count := total_features_count s; n_dims := n_dims s;
     highest_dim_bit := highest_dim_bit s;
     series_length := series_length s; cross_val_score := v;
     classes_ := classes_ s |}.

Definition set_classes_ (v : list label) (s : instance) : instance :=
  {| hp := hp s; max_window := max_window s;
     window_sizes := window_sizes s;
     SFA_transformers := SFA_transformers s; clf := clf s;
     total_features_count := total_features_count s; n_dims := n_dims s;
     highest_dim_bit := highest_dim_bit s;
     series_length := series_length s;
     cross_val_score := cross_val_score s; classes_ := v |}.

(** [MUSE_V2.__init__]. *)
Definition __init__ (ensemble_size max_feature_count min_window max_window : Z)
  (binning_strategies : list string) (norm_options : list bool)
  (word_lengths : list Z) (use_first_differences : bool)
  (feature_selection : string) (random_state : option Z) (n_jobs : Z)
  : instance :=
  {| hp := {| alphabet_sizes := [2];
              anova := false;
              variance := true;
              use_first_differences := use_first_differences;
              norm_options := norm_options;
              word_lengths := word_lengths;
              min_window := min_window;
              ensemble_size := ensemble_size;
              max_feature_count := max_feature_count;
              feature_selection := feature_selection;
              binning_strategies := binning_strategies;
              bigrams := false;
              random_state := random_state;
              n_jobs := n_jobs |};
     max_window := max_window;
     window_sizes := [];
     SFA_transformers := [];
     clf := None;
     total_features_count := 0;
     n_dims := None;
     highest_dim_bit := None;
     series_length := None;
     cross_val_score := None;
     classes_ := [] |}.

(** [MUSE_V2()] with the default arguments. *)
Definition default : instance :=
  __init__ 60 20000 4 24 ["equi-depth"%string] [false] [8] true "chi2" None 1.

(** [MUSE_V2._add_first_order_differences]. *)
Definition _add_first_order_differences (X : np.ndarray3)
  : result np.ndarray3 :=
  let X_new := np.zeros (np.shape0 X) (np.shape1 X * 2) (np.shape2 X) in
  match np.setslice X_new 0 (np.shape1 X) (np.shape2 X_new) X with
  | Raise e => Raise e
  | Ok X_new =>
      let diff := np.diff X in
      np.setslice X_new (np.shape1 X) (np.shape1 X_new) (np.shape2 diff) diff
  end.

(** [_parallel_transform_words]. *)
Definition _parallel_transform_words (X : np.ndarray3)
  (SFA_transformers : list transformer) : result (list np.block) :=
  (* On each dimension, perform SFA *)
  fst (for_each (seq 0 (np.shape1 X)) (fun dim =>
         t <- lift (Py.getitem SFA_transformers (Z.of_nat dim)) ;;
         lift (transform (params t) (learned t) (np.channel X dim))) tt).

(** What one ensemble member draws. *)
Record configuration : Type := {
  window_size : Z;
  alphabet_size : Z;
  word_length : Z;
  norm : bool;
  first_difference : bool;
  binning_strategy : string;
  dilation : Z
}.

(** The exponent drawn for the dilation:
    [rng.uniform(0, np.log2((series_length - 1) / (window_size - 1)))]. *)
Definition dilation_exponent (series_length window_size : Z)
  : M RandomState float :=
  uniform 0%float (log2 (np.true_divide (series_length - 1) (window_size - 1))).

(** The draws of [_parallel_fit], in the order the generator is used. *)
Definition sample (X : np.ndarray3)
  (window_sizes alphabet_sizes word_lengths : list Z)
  (norm_options : list bool) (binning_strategies : list string)
  : M RandomState configuration :=
  window_size <- choice window_sizes ;;
  alphabet_size <- choice alphabet_sizes ;;
  drawn <- choice word_lengths ;;
  let word_length := Z.min (window_size - 2) drawn in
  norm <- choice norm_options ;;
  first_difference <- choice [false] ;;
  binning_strategy <- choice binning_strategies ;;
  let series_length := Z.of_nat (np.shape2 X) in
  u <- dilation_exponent series_length window_size ;;
  let dilation := Z.max 1 (int32 (power2 u)) in
  ret {| window_size := window_size;
         alphabet_size := alphabet_size;
         word_length := word_length;
         norm := norm;
         first_difference := first_difference;
         binning_strategy := binning_strategy;
         dilation := dilation |}.

(** The [SFADilation(...)] call inside the loop over the channels. *)
Definition new_transformer (ind : Z) (X : np.ndarray3) (c : configuration)
  (variance anova bigrams : bool) (n_jobs max_feature_count ensemble_size : Z)
  (feature_selection : string) : result SFA.SFADilation :=
  match Py.truediv max_feature_count
          (ensemble_size * Z.of_nat (np.shape1 X)) with
  | Raise e => Raise e
  | Ok q =>
      match Py.int q with
      | Raise e => Raise e
      | Ok cap =>
          Ok {| SFA.variance := variance;
                SFA.word_length := word_length c;
                SFA.alphabet_size := alphabet_size c;
                SFA.window_size := window_size c;
                SFA.norm := norm c;
                SFA.anova := anova;
                SFA.binning_method := binning_strategy c;
                SFA.remove_repeat_words := None;
                SFA.bigrams := bigrams;
                SFA.dilation := dilation c;
                SFA.lower_bounding := None;
                SFA.first_difference := first_difference c;
                SFA.feature_selection := feature_selection;
                SFA.sections := None;
                SFA.max_feature_count := cap;
                SFA.random_state := ind;
                SFA.return_sparse := false;
                SFA.n_jobs := n_jobs |}
      end
  end.

(** The body of [_parallel_fit] once [rng] is bound. *)
Definition _parallel_fit_with_rng (ind : Z) (X : np.ndarray3) (y : list label)
  (window_sizes alphabet_sizes word_lengths : list Z)
  (norm_options : list bool) (use_first_differences : bool)
  (binning_strategies : list string) (variance anova bigrams : bool)
  (n_jobs max_feature_count ensemble_size : Z) (feature_selection : string)
  : M RandomState (list np.block * list transformer) :=
  c <- sample X window_sizes alphabet_sizes word_lengths norm_options
         binning_strategies ;;
  (* On each dimension, perform SFA *)
  fitted <- for_each (seq 0 (np.shape1 X)) (fun dim =>
    let X_dim := np.channel X dim in
    transformer <- lift (new_transformer ind X c variance anova bigrams
                           n_jobs max_feature_count ensemble_size
                           feature_selection) ;;
    '(words, v) <- lift (fit_transform transformer X_dim y) ;;
    ret (words, {| params := transformer; learned := v |})) ;;
  ret (map fst fitted, map snd fitted).

(** [_parallel_fit]. With [random_state] [None] the generator is the
    process-wide one, so its draws advance it; otherwise the generator is
    private to the task. *)
Definition _parallel_fit (ind : Z) (X : np.ndarray3) (y : list label)
  (window_sizes alphabet_sizes word_lengths : list Z)
  (norm_options : list bool) (use_first_differences : bool)
  (binning_strategies : list string) (variance anova bigrams : bool)
  (n_jobs max_feature_count ensemble_size : Z) (feature_selection : string)
  (random_state : option Z)
  : M RandomState (list np.block * list transformer) :=
  fun global =>
    let body :=
      _parallel_fit_with_rng ind X y window_sizes alphabet_sizes word_lengths
        norm_options use_first_differences binning_strategies variance anova
        bigrams n_jobs max_feature_count ensemble_size feature_selection in
    match random_state with
    | Some s =>
        match check_random_state (Some (s + ind)) global with
        | Ok rng => (fst (body rng), global)
        | Raise e => (Raise e, global)
        end
    | None =>
        match check_random_state None global with
        | Ok rng => body rng
        | Raise e => (Raise e, global)
        end
    end.

Definition univariate_warning : string :=
  "MUSE Warning: Input series is univariate; MUSE is designed for multivariate series. It is recommended WEASEL is used instead.".

(** [math.ceil(math.log2(n))] for an integer [n]. *)
Definition ceil_log2 (n : Z) : result Z :=
  if n <=? 0 then Raise (ValueError "math domain error")
  else Ok (Z.log2_up n).

(** The window-bounds check of [_fit]. *)
Definition check_windows (X : np.ndarray3) : M (instance * process) unit :=
  setattr (set_series_length (Some (Z.of_nat (np.shape2 X)))) ;;;
  self <- self_ ;;
  setattr (set_max_window
             (Z.min (Z.of_nat (np.shape2 X)) (max_window self))) ;;;
  self <- self_ ;;
  if min_window (hp self) >? max_window self then
    raise (ValueError (window_error_message (min_window (hp self))
                         (max_window self) (Z.of_nat (np.shape2 X))))
  else ret tt.

(** The channel count of [_fit] and the checks made on it. *)
Definition read_dimensions (X : np.ndarray3) : M (instance * process) unit :=
  self <- self_ ;;
  let n_dims := Z.of_nat (np.shape1 X) in
  setattr (set_n_dims (Some n_dims)) ;;;
  bits <- lift (ceil_log2 n_dims) ;;
  setattr (set_highest_dim_bit (Some (bits + 1))) ;;;
  (if n_dims =? 1 then warn univariate_warning else ret tt) ;;;
  (if variance (hp self) && anova (hp self)
   then raise (ValueError "MUSE Warning: Please set either variance or anova.")
   else ret tt).

(** The ensemble members of [_fit]: the candidate window sizes are
    stored, then the worker pool runs one [_parallel_fit] per member. *)
Definition fit_members (X : np.ndarray3) (y : list label)
  : M (instance * process) (list (list np.block * list transformer)) :=
  self <- self_ ;;
  setattr (set_window_sizes
             (np.arange (min_window (hp self)) (max_window self + 1))) ;;;
  self <- self_ ;;
  Parallel (Py.range (ensemble_size (hp self))) (fun ind =>
    _parallel_fit ind X y (window_sizes self) (alphabet_sizes (hp self))
      (word_lengths (hp self)) (norm_options (hp self))
      (use_first_differences (hp self)) (binning_strategies (hp self))
      (variance (hp self)) (anova (hp self)) (bigrams (hp self))
      (n_jobs (hp self)) (max_feature_count (hp self))
      (ensemble_size (hp self)) (feature_selection (hp self))
      (random_state (hp self))).

(** The end of [_fit]: the transformers are kept member by member, the
    feature blocks are merged and the ridge classifier is fitted. *)
Definition fit_classifier
  (parallel_res : list (list np.block * list transformer)) (y : list label)
  : M (instance * process) unit :=
  (* Append! Not Extent! 2d Array *)
  setattr (set_SFA_transformers (map snd parallel_res)) ;;;
  let all_words := List.concat (map fst parallel_res) in
  all_words <- lift (merge all_words) ;;
  fitted <- lift (RidgeClassifierCV_fit (logspace (-3) 3 10) all_words y) ;;
  setattr (set_clf (Some fitted)) ;;;
  setattr (set_total_features_count
             (Z.of_nat (np.cols (np.payload all_words)))) ;;;
  match best_score_ fitted with
  | Some score => setattr (set_cross_val_score (Some score))
  | None => ret tt
  end.

(** [self._add_first_order_differences(X)] when [use_first_differences]
    is set, [X] itself otherwise. *)
Definition with_first_differences (use_first_differences : bool)
  (X : np.ndarray3) : result np.ndarray3 :=
  if use_first_differences then _add_first_order_differences X else Ok X.

(** [MUSE_V2._fit]. *)
Definition _fit (X : np.ndarray3) (y : list label)
  : M (instance * process) unit :=
  self <- self_ ;;
  (* add first order differences in each dimension to TS *)
  X <- lift (with_first_differences (use_first_differences (hp self)) X) ;;
  read_dimensions X ;;;
  check_windows X ;;;
  parallel_res <- fit_members X y ;;
  fit_classifier parallel_res y.

(** [MUSE_V2._transform_words]. *)
Definition _transform_words (X : np.ndarray3)
  : M (instance * process) np.block :=
  self <- self_ ;;
  X <- lift (with_first_differences (use_first_differences (hp self)) X) ;;
  parallel_res <- for_each (Py.range (ensemble_size (hp self))) (fun ind =>
    member <- lift (Py.getitem (SFA_transformers self) ind) ;;
    lift (_parallel_transform_words X member)) ;;
  lift (merge (List.concat parallel_res)).

(** [MUSE_V2._predict]. *)
Definition _predict (X : np.ndarray3) : M (instance * process) (list label) :=
  bag <- _transform_words X ;;
  self <- self_ ;;
  fitted <- lift (the_clf (clf self)) ;;
  lift (predict fitted bag).

(** [MUSE_V2._predict_proba]. *)
Definition _predict_proba (X : np.ndarray3)
  : M (instance * process) (list label) :=
  bag <- _transform_words X ;;
  self <- self_ ;;
  fitted <- lift (the_clf (clf self)) ;;
  scores <- lift (decision_function fitted bag) ;;
  lift (labels_of_scores (classes_ self) scores).

End WithCollaborators.
End MUSE_V2.

(* ===================================================================== *)
(** ** A reference implementation of the two interfaces                   *)
(* ===================================================================== *)

(** Small executable stand-ins for numpy's generator and for the two
    collaborators, used to run the pipelines on concrete inputs. The
    general theorems below hold for every implementation. *)
Module Reference.

(** A linear congruential generator. *)
Definition step (g : Z) : Z := (1103515245 * g + 12345) mod 2 ^ 31.

Definition draw_below (g n : Z) : Z * Z := ((g / 65536) mod n, step g).

Definition draw_unit (g : Z) : float * Z :=
  ((Py.float_of_int (g mod 1024) / 1024)%float, step g).

(** The integer part of the base-2 logarithm, read off the exponent. *)
Definition floor_log2 (x : float) : float :=
  Py.float_of_int (snd (Z.frexp x) - 1).

(** Two to the integer part of the exponent. *)
Definition power2_trunc (x : float) : float :=
  match Py.int x with
  | Ok z => Z.ldexp 1 z
  | Raise _ => x
  end.

Definition numpy : NumPy :=
  {| RandomState := Z;
     RandomState_seed := step;
     randint := draw_below;
     randint_range := fun g n Hn => Z.mod_pos_bound (g / 65536) n Hn;
     random_sample := draw_unit;
     log2 := floor_log2;
     power2 := power2_trunc;
     int32_out_of_range := fun _ => - 2 ^ 31;
     logspace := fun _ _ num => repeat 1%float (Z.to_nat num) |}.

(** The transformer returns the series themselves as the feature block;
    the classifier scores an instance by its first feature. *)
Definition collaborators : Collaborators :=
  {| label := string;
     vocabulary := nat;
     fit_transform := fun p X _ =>
       Ok (if SFA.return_sparse p then np.Sparse X else np.Dense X,
           np.cols X);
     transform := fun p _ X =>
       Ok (if SFA.return_sparse p then np.Sparse X else np.Dense X);
     RidgeClassifierCV := list string;
     RidgeClassifierCV_fit := fun _ _ y => Ok y;
     predict := fun seen bag =>
       Ok (repeat (hd ""%string seen) (np.rows (np.payload bag)));
     decision_function := fun _ bag =>
       Ok (np.Scores1D
             (map (fun i => np.item (np.payload bag) i 0)
                  (seq 0 (np.rows (np.payload bag)))));
     best_score_ := fun _ => None |}.

(** A process whose global generator is in state [g]. *)
Definition process_at (g : Z) : @process numpy :=
  @Build_process numpy g [] [].

(** A univariate training set: one series of length eight. *)
Definition one_series : np.ndarray3 :=
  np.array3 [[[1; 2; 4; 7; 11; 16; 22; 29]]]%float.

(** Two univariate series whose first values are [-1] and [5]. *)
Definition two_series : np.ndarray3 :=
  np.array3 [[[(-1); 2]]; [[5; 0]]]%float.

(** The arguments of one transformer of the univariate pipeline. *)
Definition one_transformer : SFA.SFADilation :=
  {| SFA.variance := true;
     SFA.word_length := 0;
     SFA.alphabet_size := 2;
     SFA.window_size := 2;
     SFA.norm := false;
     SFA.anova := false;
     SFA.binning_method := "equi-depth";
     SFA.remove_repeat_words := Some false;
     SFA.bigrams := false;
     SFA.dilation := 1;
     SFA.lower_bounding := Some true;
     SFA.first_difference := false;
     SFA.feature_selection := "chi2_top_k";
     SFA.sections := Some 1;
     SFA.max_feature_count := 600;
     SFA.random_state := 0;
     SFA.return_sparse := false;
     SFA.n_jobs := 4 |}.

(** A fitted univariate pipeline with one transformer and the classes
    [A] and [B]. *)
Definition fitted_weasel : @WEASEL_V2.instance collaborators :=
  @WEASEL_V2.set_classes_ collaborators ["A"; "B"]%string
    (@WEASEL_V2.set_clf collaborators (Some ["A"; "B"]%string)
       (@WEASEL_V2.set_SFA_transformers collaborators
          [@Build_transformer collaborators one_transformer 2%nat]
          WEASEL_V2.default)).

End Reference.

(* ===================================================================== *)
(** ** Vocabulary of the statements                                       *)
(* ===================================================================== *)

(** A computation keeps a property of the store, whether it returns or
    raises. *)
Definition preserves {S A} (I : S -> Prop) (c : M S A) : Prop :=
  forall s, I s -> I (snd (c s)).


(** The band of the univariate pipeline: ensemble size and largest window
    for a training set of [n_instances] series of length [series_length]. *)
Definition band (n_instances series_length : Z) : Z * Z :=
  if n_instances <? 250 then (50, 24)
  else if series_length <? 100 then (100, 44)
  else (150, 84).

(** The entries of the augmented array, written out. *)
Definition augmented_item (X : np.ndarray3) (i j k : nat) : float :=
  if ((np.shape1 X <=? j) && (j <? np.shape1 X * 2)
      && (k <? np.shape2 X - 1))%nat
  then (np.item3 X i (j - np.shape1 X) (k + 1)
        - np.item3 X i (j - np.shape1 X) k)%float
  else if ((j <? np.shape1 X) && (k <? np.shape2 X))%nat
  then np.item3 X i j k
  else 0%float.

(** The list of submitted tasks only grows. *)
Definition submitted_from {N : NumPy} {S : Type} (pre : list Z)
  (sp : S * process) : Prop :=
  exists rest, submitted (snd sp) = (pre ++ rest)%list.

(** A property of the process that running a task cannot break. *)
Definition task_stable {N : NumPy} (K : process -> Prop) : Prop :=
  forall p g i,
    K p ->
    K {| np_random := g;
         submitted := (submitted p ++ [i])%list;
         warnings := warnings p |}.

(** The process after one more warning. *)
Definition warned {N : NumPy} (msg : string) (p : process) : process :=
  {| np_random := np_random p;
     submitted := submitted p;
     warnings := (warnings p ++ [msg])%list |}.

(** The state in which the window check of the univariate [_fit] is
    decided. *)
Definition weasel_checked {C : Collaborators} (X : np.ndarray3)
  (self : WEASEL_V2.instance)
  : WEASEL_V2.instance :=
  let n := Z.of_nat (np.shape0 X) in
  let L := Z.of_nat (np.shape2 X) in
  WEASEL_V2.set_max_window (Z.min L (snd (band n L)))
    (WEASEL_V2.set_ensemble_size (fst (band n L))
       (WEASEL_V2.set_max_window (snd (band n L))
          (WEASEL_V2.set_series_length L
             (WEASEL_V2.set_n_instances n self)))).

(** The attributes [read_dimensions] writes. *)
Definition muse_dimensions {C : Collaborators} (X : np.ndarray3)
  (self : MUSE_V2.instance)
  : MUSE_V2.instance :=
  MUSE_V2.set_highest_dim_bit
    (Some (Z.log2_up (Z.of_nat (np.shape1 X)) + 1))
    (MUSE_V2.set_n_dims (Some (Z.of_nat (np.shape1 X))) self).

(** The state in which the window check of the multivariate [_fit] is
    decided, for the series [X] as augmented. *)
Definition muse_checked {C : Collaborators} (X : np.ndarray3)
  (self : MUSE_V2.instance)
  : MUSE_V2.instance :=
  let L := Z.of_nat (np.shape2 X) in
  MUSE_V2.set_max_window (Z.min L (MUSE_V2.max_window self))
    (MUSE_V2.set_series_length (Some L) (muse_dimensions X self)).

(** The window size of the first transformer a task returns (0 when there
    is none); it tells two task results apart. *)
Definition first_window {C : Collaborators}
  (r : result (list np.block * list transformer)) : Z :=
  match r with
  | Ok (_, t :: _) => SFA.window_size (params t)
  | _ => 0
  end.

(** Two merge outcomes that agree: the same error, or arrays of the same
    kind and shape with the same entries. *)
Definition same_outcome (r1 r2 : result np.block) : Prop :=
  match r1, r2 with
  | Ok x, Ok y =>
      np.is_ndarray x = np.is_ndarray y
      /\ np.rows (np.payload x) = np.rows (np.payload y)
      /\ np.cols (np.payload x) = np.cols (np.payload y)
      /\ forall i j, np.item (np.payload x) i j = np.item (np.payload y) i j
  | Raise e1, Raise e2 => e1 = e2
  | _, _ => False
  end.

(** The process with its generator put in state [g]. *)
Definition with_generator {N : NumPy} (g : RandomState) (p : process)
  : process :=
  {| np_random := g; submitted := submitted p; warnings := warnings p |}.

(** On the models that satisfy [J], the computation does the same from
    every state of the process-wide generator and leaves that state as it
    was; it also keeps [J]. *)
Definition generator_blind {N : NumPy} {S A : Type} (J : S -> Prop)
  (c : M (S * process) A) : Prop :=
  forall s p g,
    J s ->
    c (s, with_generator g p) =
      (fst (c (s, p)),
       (fst (snd (c (s, p))), with_generator g (snd (snd (c (s, p))))))
    /\ J (fst (snd (c (s, p)))).

(** What the univariate pipeline passes to the transformer built for the
    first-difference option [fd] by member [i] of an ensemble of size [e],
    with windows drawn between [lo] and [hi]. *)
Definition weasel_built (lo hi e mfc i : Z) (fd : bool) (t : SFA.SFADilation)
  : Prop :=
  SFA.random_state t = i
  /\ SFA.first_difference t = fd
  /\ SFA.return_sparse t = false
  /\ SFA.max_feature_count t = mfc / e
  /\ lo <= SFA.window_size t <= hi
  /\ SFA.word_length t <= SFA.window_size t - 2
  /\ 1 <= SFA.dilation t.

(** What the multivariate pipeline passes to the transformers of member
    [ind]: one configuration, with windows drawn between [lo] and [hi],
    shared by the transformers of all channels. *)
Definition muse_built {C : Collaborators} (lo hi ind : Z) (channels : nat)
  (member : list transformer) : Prop :=
  List.length member = channels
  /\ exists c : MUSE_V2.configuration,
       lo <= MUSE_V2.window_size c <= hi
       /\ MUSE_V2.word_length c <= MUSE_V2.window_size c - 2
       /\ 1 <= MUSE_V2.dilation c
       /\ Forall (fun t =>
            SFA.random_state (params t) = ind
            /\ SFA.window_size (params t) = MUSE_V2.window_size c
            /\ SFA.word_length (params t) = MUSE_V2.word_length c
            /\ SFA.dilation (params t) = MUSE_V2.dilation c
            /\ SFA.alphabet_size (params t) = MUSE_V2.alphabet_size c
            /\ SFA.norm (params t) = MUSE_V2.norm c
            /\ SFA.binning_method (params t) = MUSE_V2.binning_strategy c
            /\ SFA.first_difference (params t) = false
            /\ SFA.return_sparse (params t) = false) member.

(** The sum of the feature caps of a list of transformers. *)
Definition feature_budget {C : Collaborators} (ts : list transformer) : Z :=
  fold_right (fun t total => SFA.max_feature_count (params t) + total) 0 ts.

(** Column [k] holds the first largest value of a row. *)
Definition first_maximum (row : list float) (k : nat) : Prop :=
  exists top,
    nth_error row k = Some top
    /\ (forall j x, nth_error row j = Some x -> (x <=? top)%float = true)
    /\ (forall j x, (j < k)%nat -> nth_error row j = Some x ->
                    (top <=? x)%float = false).

(** Column [k] holds the first NaN of a row. *)
Definition first_nan (row : list float) (k : nat) : Prop :=
  exists x,
    nth_error row k = Some x
    /\ is_nan x = true
    /\ Forall (fun x' => is_nan x' = false) (firstn k row).

(** The column [argmax] picks in a row: the first NaN when there is one,
    the first largest value otherwise. *)
Definition winning_column (row : list float) (k : nat) : Prop :=
  first_nan row k
  \/ (Forall (fun x => is_nan x = false) row /\ first_maximum row k).

(* ===================================================================== *)
(** ** Facts about computations                                           *)
(* ===================================================================== *)

Section Computations.
Context {S : Type}.

Lemma bind_Ok {A B} (c : M S A) (k : A -> M S B) s b s' :
  bind c k s = (Ok b, s') ->
  exists a s1, c s = (Ok a, s1) /\ k a s1 = (Ok b, s').
Proof.
  unfold bind. destruct (c s) as [[a | e] s1]; intros E.
  - exists a, s1. split; [reflexivity | exact E].
  - discriminate E.
Qed.

Lemma lift_Ok {A} (r : result A) (s : S) a s' :
  lift r s = (Ok a, s') -> r = Ok a /\ s' = s.
Proof. unfold lift. intros E. inversion E. split; reflexivity. Qed.

Lemma for_each_Ok {A B} (body : A -> M S B) (xs : list A) :
  forall s bs s',
    for_each xs body s = (Ok bs, s') ->
    Forall2 (fun x b => exists s1 s2, body x s1 = (Ok b, s2)) xs bs.
Proof.
  induction xs as [| x rest IH]; intros s bs s' E; simpl in E.
  - inversion E. constructor.
  - apply bind_Ok in E. destruct E as (b & s1 & Eb & E).
    apply bind_Ok in E. destruct E as (bs' & s2 & Er & E).
    inversion E; subst. constructor.
    + exists s, s1. exact Eb.
    + eapply IH. exact Er.
Qed.

Lemma preserves_ret {A} (I : S -> Prop) (a : A) : preserves I (ret a).
Proof. intros s Hs. exact Hs. Qed.

Lemma preserves_raise {A} (I : S -> Prop) e : preserves I (@raise S A e).
Proof. intros s Hs. exact Hs. Qed.

Lemma preserves_lift {A} (I : S -> Prop) (r : result A) :
  preserves I (lift r).
Proof. intros s Hs. exact Hs. Qed.

Lemma preserves_modify (I : S -> Prop) (f : S -> S) :
  (forall s, I s -> I (f s)) -> preserves I (modify f).
Proof. intros Hf s Hs. simpl. apply Hf, Hs. Qed.

Lemma preserves_bind {A B} (I : S -> Prop) (c : M S A) (k : A -> M S B) :
  preserves I c -> (forall a, preserves I (k a)) -> preserves I (bind c k).
Proof.
  intros Hc Hk s Hs. unfold bind. specialize (Hc s Hs).
  destruct (c s) as [[a | e] s1]; simpl in *.
  - apply Hk, Hc.
  - exact Hc.
Qed.

Lemma preserves_for_each {A B} (I : S -> Prop) (body : A -> M S B) xs :
  (forall x, preserves I (body x)) -> preserves I (for_each xs body).
Proof.
  intros Hb. induction xs as [| x rest IH]; simpl.
  - apply preserves_ret.
  - apply preserves_bind; [apply Hb |]. intros b.
    apply preserves_bind; [exact IH |]. intros bs. apply preserves_ret.
Qed.

End Computations.

Create HintDb frame.
#[local] Hint Resolve preserves_ret preserves_raise preserves_lift
  preserves_bind preserves_for_each : frame.

(* ===================================================================== *)
(** ** The merge of feature blocks                                        *)
(* ===================================================================== *)

Lemma merge_cons (first : np.block) (rest : list np.block) :
  merge (first :: rest) =
  if np.is_ndarray first then np.concatenate (first :: rest)
  else np.hstack (first :: rest).
Proof. reflexivity. Qed.

Lemma concatenate_dense (bs : list np.block) :
  bs <> [] ->
  forallb np.is_ndarray bs = true ->
  np.same_rows (map np.payload bs) = true ->
  np.concatenate bs = Ok (np.Dense (np.hcat (map np.payload bs))).
Proof.
  intros Hne Hd Hr. unfold np.concatenate.
  destruct bs as [| b bs']; [contradiction Hne; reflexivity |].
  rewrite Hd, Hr. reflexivity.
Qed.

Lemma hstack_sparse (bs : list np.block) :
  bs <> [] ->
  np.same_rows (map np.payload bs) = true ->
  np.hstack bs = Ok (np.Sparse (np.hcat (map np.payload bs))).
Proof.
  intros Hne Hr. unfold np.hstack.
  destruct bs as [| b bs']; [contradiction Hne; reflexivity |].
  rewrite Hr. reflexivity.
Qed.

(** C4, as stated, fails: a list whose first block is dense and whose
    second block is sparse is handed to the dense concatenation, which
    refuses it; it is not merged by the sparse stacking. *)
Lemma C4_mixed_list_takes_the_dense_path :
  let blocks :=
    [np.Dense (np.array [[1%float]]); np.Sparse (np.array [[2%float]])] in
  existsb (fun b => negb (np.is_ndarray b)) blocks = true /\
  merge blocks = np.concatenate blocks /\
  merge blocks =
    Raise (ValueError "zero-dimensional arrays cannot be concatenated") /\
  merge blocks <> np.hstack blocks.
Proof.
  cbv zeta. repeat split; try reflexivity.
  intros E. vm_compute in E. discriminate E.
Qed.

(** C4 (amended): the merge looks at the first block only. A dense first
    block sends the whole list to the dense concatenation, a sparse first
    block sends it to the sparse stacking. Hence a list of dense blocks
    with equal row counts is concatenated densely, and a list whose first
    block is sparse is stacked sparsely whatever the later blocks are,
    dense ones included. *)
Theorem C4_merge_follows_the_first_block
  (first : np.block) (rest : list np.block) :
  merge (first :: rest) =
    (if np.is_ndarray first then np.concatenate (first :: rest)
     else np.hstack (first :: rest))
  /\ (forallb np.is_ndarray (first :: rest) = true ->
      np.same_rows (map np.payload (first :: rest)) = true ->
      merge (first :: rest) =
        Ok (np.Dense (np.hcat (map np.payload (first :: rest)))))
  /\ (np.is_ndarray first = false ->
      np.same_rows (map np.payload (first :: rest)) = true ->
      merge (first :: rest) =
        Ok (np.Sparse (np.hcat (map np.payload (first :: rest))))).
Proof.
  split; [apply merge_cons |]. split.
  - intros Hd Hr. rewrite merge_cons.
    assert (Hf : np.is_ndarray first = true).
    { simpl in Hd. apply andb_true_iff in Hd. apply Hd. }
    rewrite Hf. apply concatenate_dense; [discriminate | exact Hd | exact Hr].
  - intros Hs Hr. rewrite merge_cons, Hs.
    apply hstack_sparse; [discriminate | exact Hr].
Qed.

(** The amended statement at a sparse block followed by a dense one. *)
Lemma C4_merge_follows_the_first_block_witness :
  merge [np.Sparse (np.array [[1%float]]); np.Dense (np.array [[2%float]])] =
  Ok (np.Sparse (np.hcat [np.array [[1%float]]; np.array [[2%float]]])).
Proof.
  apply (C4_merge_follows_the_first_block
           (np.Sparse (np.array [[1%float]]))
           [np.Dense (np.array [[2%float]])]); reflexivity.
Defined.

(* ===================================================================== *)
(** ** The binary decision of [_predict_proba]                            *)
(* ===================================================================== *)

(** A strictly negative score is not strictly positive. *)
Lemma negative_not_positive (s : float) :
  (s <? 0)%float = true -> (0 <? s)%float = false.
Proof.
  rewrite !ltb_spec.
  change (Prim2SF 0) with (S754_zero false).
  destruct (Prim2SF s) as [sg | sg | | sg m e]; simpl;
    try destruct sg; simpl; intros E; try discriminate E; reflexivity.
Qed.

(** With two classes and one score per instance, the indices are 1 on the
    strictly positive scores and 0 elsewhere, and indexing cannot fail. *)
Lemma take_sign_test {label : Type} (c0 c1 : label) (v : list float) :
  np.take [c0; c1] (np.positive_as_int v) =
  Ok (map (fun s => if (0 <? s)%float then c1 else c0) v).
Proof.
  induction v as [| s v IH]; [reflexivity |].
  change (np.positive_as_int (s :: v))
    with ((if (0 <? s)%float then 1 else 0) :: np.positive_as_int v).
  cbn [np.take map]. rewrite IH.
  destruct (0 <? s)%float; reflexivity.
Qed.

Lemma labels_of_scores_binary {label : Type} (c0 c1 : label) (v : list float) :
  labels_of_scores [c0; c1] (np.Scores1D v) =
  Ok (map (fun s => if (0 <? s)%float then c1 else c0) v).
Proof. unfold labels_of_scores. rewrite take_sign_test. reflexivity. Qed.

Lemma all_negative_all_first {label : Type} (c0 c1 : label) (v : list float) :
  forallb (fun s => (s <? 0)%float) v = true ->
  map (fun s => if (0 <? s)%float then c1 else c0) v =
  repeat c0 (List.length v).
Proof.
  induction v as [| s v IH]; intros Hall; [reflexivity |].
  simpl in Hall. apply andb_true_iff in Hall. destruct Hall as [Hs Hv].
  simpl. rewrite (negative_not_positive s Hs), (IH Hv). reflexivity.
Qed.

(** C5: in both pipelines, when the model has two classes and the decision
    scores are a single column, [_predict_proba] returns [classes_[1]] for
    every instance whose score is strictly positive and [classes_[0]] for
    every other instance; when every score is negative, every label is
    [classes_[0]]. *)
Theorem C5_binary_decision_by_sign (N : NumPy) (C : Collaborators) :
  (forall X st bag st1 fitted v c0 c1,
     WEASEL_V2._transform_words X st = (Ok bag, st1) ->
     WEASEL_V2.clf (fst st1) = Some fitted ->
     decision_function fitted bag = Ok (np.Scores1D v) ->
     WEASEL_V2.classes_ (fst st1) = [c0; c1] ->
     WEASEL_V2._predict_proba X st =
       (Ok (map (fun s => if (0 <? s)%float then c1 else c0) v), st1)
     /\ (forallb (fun s => (s <? 0)%float) v = true ->
         WEASEL_V2._predict_proba X st =
           (Ok (repeat c0 (List.length v)), st1)))
  /\
  (forall X st bag st1 fitted v c0 c1,
     MUSE_V2._transform_words X st = (Ok bag, st1) ->
     MUSE_V2.clf (fst st1) = Some fitted ->
     decision_function fitted bag = Ok (np.Scores1D v) ->
     MUSE_V2.classes_ (fst st1) = [c0; c1] ->
     MUSE_V2._predict_proba X st =
       (Ok (map (fun s => if (0 <? s)%float then c1 else c0) v), st1)
     /\ (forallb (fun s => (s <? 0)%float) v = true ->
         MUSE_V2._predict_proba X st =
           (Ok (repeat c0 (List.length v)), st1))).
Proof.
  split.
  - intros X st bag st1 fitted v c0 c1 Ht Hclf Hs Hcl.
    assert (E : WEASEL_V2._predict_proba X st =
                (Ok (map (fun s => if (0 <? s)%float then c1 else c0) v), st1)).
    { unfold WEASEL_V2._predict_proba, bind. rewrite Ht.
      unfold self_, lift, the_clf. rewrite Hclf, Hs, Hcl.
      rewrite labels_of_scores_binary. reflexivity. }
    split; [exact E |]. intros Hneg.
    rewrite E, (all_negative_all_first c0 c1 v Hneg). reflexivity.
  - intros X st bag st1 fitted v c0 c1 Ht Hclf Hs Hcl.
    assert (E : MUSE_V2._predict_proba X st =
                (Ok (map (fun s => if (0 <? s)%float then c1 else c0) v), st1)).
    { unfold MUSE_V2._predict_proba, bind. rewrite Ht.
      unfold self_, lift, the_clf. rewrite Hclf, Hs, Hcl.
      rewrite labels_of_scores_binary. reflexivity. }
    split; [exact E |]. intros Hneg.
    rewrite E, (all_negative_all_first c0 c1 v Hneg). reflexivity.
Qed.

(** C5 on the reference implementation: two instances scored [-1] and [5]
    by a fitted univariate pipeline with classes [A] and [B]. *)
Lemma C5_binary_decision_by_sign_witness :
  WEASEL_V2._predict_proba (N := Reference.numpy) Reference.two_series
    (Reference.fitted_weasel, Reference.process_at 7) =
  (Ok ["A"; "B"]%string, (Reference.fitted_weasel, Reference.process_at 7)).
Proof.
  eapply (proj1 (proj1 (C5_binary_decision_by_sign
                          Reference.numpy Reference.collaborators)
                   _ _ _ _ _ [(-1)%float; 5%float] _ _ _ _ _ _)).
  Unshelve.
  all: try reflexivity.
Defined.

(* ===================================================================== *)
(** ** First-order differences                                            *)
(* ===================================================================== *)

(** A finite float minus itself is zero. *)
Lemma sub_diag_finite (x : float) :
  Py.isfinite x = true -> (x - x)%float = 0%float.
Proof.
  unfold Py.isfinite. intros Hx.
  apply Prim2SF_inj. rewrite sub_spec.
  destruct (Prim2SF x) as [s | s | | s m e]; try discriminate Hx.
  - destruct s; reflexivity.
  - unfold SF64sub, SFsub. rewrite Z.min_id.
    destruct s; simpl cond_Zopp; rewrite Z.sub_diag; reflexivity.
Qed.

(** The augmentation never raises, and its result has the entries of
    [augmented_item]. *)
Lemma add_first_order_differences_ok (X : np.ndarray3) :
  exists X',
    MUSE_V2._add_first_order_differences X = Ok X'
    /\ np.shape0 X' = np.shape0 X
    /\ np.shape1 X' = (np.shape1 X * 2)%nat
    /\ np.shape2 X' = np.shape2 X
    /\ (forall i j k, np.item3 X' i j k = augmented_item X i j k).
Proof.
  destruct X as [n c l f].
  unfold MUSE_V2._add_first_order_differences, np.setslice, np.zeros, np.diff.
  cbn [np.shape0 np.shape1 np.shape2 np.item3].
  rewrite !Nat.eqb_refl, !Nat.min_id, Nat.sub_0_r.
  replace (Nat.min c (c * 2)) with c by lia.
  rewrite !Nat.eqb_refl. cbn [andb].
  cbn [np.shape0 np.shape1 np.shape2 np.item3].
  rewrite !Nat.eqb_refl, !Nat.min_id.
  replace (Nat.min (l - 1) l) with (l - 1)%nat by lia.
  replace (c * 2 - c)%nat with c by lia.
  rewrite !Nat.eqb_refl. cbn [andb].
  eexists. split; [reflexivity |].
  cbn [np.shape0 np.shape1 np.shape2 np.item3].
  repeat split. intros i j k. unfold augmented_item.
  cbn [np.shape0 np.shape1 np.shape2 np.item3].
  destruct ((c <=? j) && (j <? c * 2) && (k <? l - 1))%nat; [reflexivity |].
  rewrite Nat.sub_0_r. reflexivity.
Qed.

Lemma augmented_item_original (X : np.ndarray3) (i j k : nat) :
  (j < np.shape1 X)%nat -> (k < np.shape2 X)%nat ->
  augmented_item X i j k = np.item3 X i j k.
Proof.
  intros Hj Hk. unfold augmented_item.
  destruct (Nat.leb_spec (np.shape1 X) j) as [Hle | _]; [lia |].
  cbn [andb].
  destruct (Nat.ltb_spec j (np.shape1 X)) as [_ | Hge]; [| lia].
  destruct (Nat.ltb_spec k (np.shape2 X)) as [_ | Hge]; [| lia].
  reflexivity.
Qed.

Lemma augmented_item_difference (X : np.ndarray3) (i j k : nat) :
  (j < np.shape1 X)%nat -> (k + 1 < np.shape2 X)%nat ->
  augmented_item X i (np.shape1 X + j) k =
  (np.item3 X i j (k + 1) - np.item3 X i j k)%float.
Proof.
  intros Hj Hk. unfold augmented_item.
  destruct (Nat.leb_spec (np.shape1 X) (np.shape1 X + j)) as [_ | Hlt];
    [| lia].
  destruct (Nat.ltb_spec (np.shape1 X + j) (np.shape1 X * 2)) as [_ | Hge];
    [| lia].
  destruct (Nat.ltb_spec k (np.shape2 X - 1)) as [_ | Hge]; [| lia].
  cbn [andb]. replace (np.shape1 X + j - np.shape1 X)%nat with j by lia.
  reflexivity.
Qed.

Lemma augmented_item_padding (X : np.ndarray3) (i j k : nat) :
  (j < np.shape1 X)%nat -> (np.shape2 X - 1 <= k)%nat ->
  augmented_item X i (np.shape1 X + j) k = 0%float.
Proof.
  intros Hj Hk. unfold augmented_item.
  destruct (Nat.ltb_spec k (np.shape2 X - 1)) as [Hlt | _]; [lia |].
  rewrite andb_false_r.
  destruct (Nat.ltb_spec (np.shape1 X + j) (np.shape1 X)) as [Hlt | _];
    [lia |].
  reflexivity.
Qed.

(** C6, as stated, fails: on the series [1, 2, 4] the difference channel
    is [1, 2, 0], the differences followed by the padding zero; padded on
    the left it would be [0, 1, 2]. *)
Lemma C6_difference_block_is_not_padded_on_the_left :
  exists X',
    MUSE_V2._add_first_order_differences
      (np.array3 [[[1; 2; 4]]]%float) = Ok X'
    /\ np.tolist3 X' = [[[1; 2; 4]; [1; 2; 0]]]%float
    /\ np.tolist3 X' <> [[[1; 2; 4]; [0; 1; 2]]]%float.
Proof.
  eexists. split; [reflexivity |]. split; [reflexivity |].
  intros E.
  assert (Hd : (nth 0 (nth 1 (nth 0 [[[1; 2; 4]; [1; 2; 0]]] []) []) 0
                =? 0)%float = true).
  { vm_compute in E. rewrite E. reflexivity. }
  vm_compute in Hd. discriminate Hd.
Qed.

(** C6 (amended): the augmentation always succeeds and returns an array of
    shape [instances, 2*channels, length]; its first [channels] channels
    are the input, and channel [channels + j] holds the [length - 1] first
    differences of channel [j] followed by one zero, so the padding is on
    the right. When every channel is constant (and finite), the difference
    channels are zero everywhere. The result depends on the input only. *)
Theorem C6_first_differences_padded_on_the_right (X : np.ndarray3) :
  exists X',
    MUSE_V2._add_first_order_differences X = Ok X'
    /\ np.shape0 X' = np.shape0 X
    /\ np.shape1 X' = (2 * np.shape1 X)%nat
    /\ np.shape2 X' = np.shape2 X
    /\ (forall i j k,
          (j < np.shape1 X)%nat -> (k < np.shape2 X)%nat ->
          np.item3 X' i j k = np.item3 X i j k)
    /\ (forall i j k,
          (j < np.shape1 X)%nat -> (k + 1 < np.shape2 X)%nat ->
          np.item3 X' i (np.shape1 X + j) k =
          (np.item3 X i j (k + 1) - np.item3 X i j k)%float)
    /\ (forall i j,
          (j < np.shape1 X)%nat ->
          np.item3 X' i (np.shape1 X + j) (np.shape2 X - 1) = 0%float)
    /\ ((forall i j k,
           (j < np.shape1 X)%nat -> (k < np.shape2 X)%nat ->
           Py.isfinite (np.item3 X i j k) = true
           /\ np.item3 X i j k = np.item3 X i j 0) ->
        forall i j k,
          (j < np.shape1 X)%nat -> (k < np.shape2 X)%nat ->
          np.item3 X' i (np.shape1 X + j) k = 0%float).
Proof.
  destruct (add_first_order_differences_ok X)
    as (X' & Hok & H0 & H1 & H2 & Hitem).
  exists X'. split; [exact Hok |].
  split; [exact H0 |]. split; [rewrite H1; lia |]. split; [exact H2 |].
  split; [| split; [| split]].
  - intros i j k Hj Hk. rewrite Hitem.
    apply augmented_item_original; assumption.
  - intros i j k Hj Hk. rewrite Hitem.
    apply augmented_item_difference; assumption.
  - intros i j Hj. rewrite Hitem.
    apply augmented_item_padding; [assumption | lia].
  - intros Hconst i j k Hj Hk. rewrite Hitem.
    destruct (Nat.lt_ge_cases (k + 1) (np.shape2 X)) as [Hin | Hlast].
    + rewrite augmented_item_difference by assumption.
      destruct (Hconst i j k Hj Hk) as [Hfin Hk0].
      destruct (Hconst i j (k + 1)%nat Hj Hin) as [_ Hk1].
      rewrite Hk1, <- Hk0. apply sub_diag_finite, Hfin.
    + apply augmented_item_padding; [assumption | lia].
Qed.

(** C6 (amended) on the constant series [3, 3, 3]: the difference channel
    is [0, 0, 0]. *)
Lemma C6_first_differences_padded_on_the_right_witness :
  exists X',
    MUSE_V2._add_first_order_differences
      (np.array3 [[[3; 3; 3]]]%float) = Ok X'
    /\ np.tolist3 X' = [[[3; 3; 3]; [0; 0; 0]]]%float.
Proof.
  destruct (C6_first_differences_padded_on_the_right
              (np.array3 [[[3; 3; 3]]]%float))
    as (X' & Hok & _).
  exists X'. split; [exact Hok |].
  vm_compute in Hok. inversion Hok. reflexivity.
Defined.

(* ===================================================================== *)
(** ** The draws of one ensemble member                                   *)
(* ===================================================================== *)

Section Draws.
Context {N : NumPy}.

Lemma getitem_In {A} (xs : list A) (k : Z) (x : A) :
  Py.getitem xs k = Ok x -> In x xs.
Proof.
  unfold Py.getitem. destruct (k <? 0); [discriminate |].
  destruct (nth_error xs (Z.to_nat k)) as [y |] eqn:E; [| discriminate].
  intros H. inversion H; subst. eapply nth_error_In. exact E.
Qed.

(** A value drawn by [choice] is one of the candidates. *)
Lemma choice_Ok {A} (a : list A) (g g' : RandomState) (x : A) :
  choice a g = (Ok x, g') -> In x a.
Proof.
  unfold choice. destruct a as [| a0 rest]; [discriminate |].
  destruct (randint g (Z.of_nat (List.length (a0 :: rest)))) as [k g1].
  intros H. inversion H. eapply getitem_In. eassumption.
Qed.

(** [choice] succeeds on every non-empty sequence. *)
Lemma choice_total {A} (a : list A) (g : RandomState) :
  a <> [] -> exists x g', choice a g = (Ok x, g').
Proof.
  intros Hne. unfold choice. destruct a as [| a0 rest]; [contradiction |].
  pose proof (randint_range g (Z.of_nat (List.length (a0 :: rest)))) as Hr.
  destruct (randint g (Z.of_nat (List.length (a0 :: rest)))) as [k g1].
  simpl fst in Hr.
  assert (Hk : 0 <= k < Z.of_nat (List.length (a0 :: rest))).
  { apply Hr. simpl List.length. lia. }
  unfold Py.getitem.
  destruct (Z.ltb_spec k 0) as [Hneg | _]; [lia |].
  destruct (nth_error (a0 :: rest) (Z.to_nat k)) as [x |] eqn:E.
  - exists x, g1. reflexivity.
  - apply nth_error_None in E. lia.
Qed.

(** A draw from a sequence of equal values is that value. *)
Lemma choice_singleton {A} (v x : A) (g g' : RandomState) :
  choice [v] g = (Ok x, g') -> x = v.
Proof.
  intros H. apply choice_Ok in H. destruct H as [H | []]. symmetry. exact H.
Qed.

(** What a successful run of the univariate sampler has drawn. *)
Lemma weasel_sample_Ok window_sizes alphabet_sizes word_lengths series_length
  norm_options binning_strategies (g g' : RandomState) c :
  WEASEL_V2.sample window_sizes alphabet_sizes word_lengths series_length
    norm_options binning_strategies g = (Ok c, g') ->
  exists g1 u g2 drawn,
    choice window_sizes g = (Ok (WEASEL_V2.window_size c), g1)
    /\ WEASEL_V2.dilation_exponent series_length (WEASEL_V2.window_size c) g1
       = (Ok u, g2)
    /\ WEASEL_V2.dilation c = Z.max 1 (int32 (power2 u))
    /\ In (WEASEL_V2.alphabet_size c) alphabet_sizes
    /\ In drawn word_lengths
    /\ WEASEL_V2.word_length c = Z.min (WEASEL_V2.window_size c - 2) drawn
    /\ In (WEASEL_V2.norm c) norm_options
    /\ In (WEASEL_V2.binning_strategy c) binning_strategies.
Proof.
  unfold WEASEL_V2.sample. intros H.
  apply bind_Ok in H. destruct H as (w & g1 & Hw & H).
  apply bind_Ok in H. destruct H as (u & g2 & Hu & H).
  apply bind_Ok in H. destruct H as (a & g3 & Ha & H).
  apply bind_Ok in H. destruct H as (d & g4 & Hd & H).
  apply bind_Ok in H. destruct H as (n & g5 & Hn & H).
  apply bind_Ok in H. destruct H as (b & g6 & Hb & H).
  inversion H; subst; clear H. cbn.
  exists g1, u, g2, d. repeat split; try assumption.
  - eapply choice_Ok; eassumption.
  - eapply choice_Ok; eassumption.
  - eapply choice_Ok; eassumption.
  - eapply choice_Ok; eassumption.
Qed.

(** What a successful run of the multivariate sampler has drawn. *)
Lemma muse_sample_Ok X window_sizes alphabet_sizes word_lengths
  norm_options binning_strategies (g g' : RandomState) c :
  MUSE_V2.sample X window_sizes alphabet_sizes word_lengths
    norm_options binning_strategies g = (Ok c, g') ->
  exists g0 g1 u drawn,
    choice window_sizes g = (Ok (MUSE_V2.window_size c), g0)
    /\ MUSE_V2.dilation_exponent (Z.of_nat (np.shape2 X))
         (MUSE_V2.window_size c) g1 = (Ok u, g')
    /\ MUSE_V2.dilation c = Z.max 1 (int32 (power2 u))
    /\ In (MUSE_V2.alphabet_size c) alphabet_sizes
    /\ In drawn word_lengths
    /\ MUSE_V2.word_length c = Z.min (MUSE_V2.window_size c - 2) drawn
    /\ In (MUSE_V2.norm c) norm_options
    /\ MUSE_V2.first_difference c = false
    /\ In (MUSE_V2.binning_strategy c) binning_strategies.
Proof.
  unfold MUSE_V2.sample. intros H.
  apply bind_Ok in H. destruct H as (w & g1 & Hw & H).
  apply bind_Ok in H. destruct H as (a & g2 & Ha & H).
  apply bind_Ok in H. destruct H as (d & g3 & Hd & H).
  apply bind_Ok in H. destruct H as (n & g4 & Hn & H).
  apply bind_Ok in H. destruct H as (fd & g5 & Hfd & H).
  apply bind_Ok in H. destruct H as (b & g6 & Hb & H).
  apply bind_Ok in H. destruct H as (u & g7 & Hu & H).
  inversion H; subst; clear H. cbn.
  exists g1, g6, u, d. repeat split; try assumption.
  - eapply choice_Ok; eassumption.
  - eapply choice_Ok; eassumption.
  - eapply choice_Ok; eassumption.
  - eapply choice_singleton; eassumption.
  - eapply choice_Ok; eassumption.
Qed.

End Draws.



(* ===================================================================== *)
(** ** What the steps of a fit leave unchanged                            *)
(* ===================================================================== *)

Section Frames.
Context {N : NumPy} {S : Type}.

Lemma preserves_self_ (I : S * process -> Prop) : preserves I self_.
Proof. intros sp H. exact H. Qed.

(** A property of [self] alone is kept by everything that touches the
    process only. *)
Lemma preserves_setattr_self (J : S -> Prop) (f : S -> S) :
  (forall s, J s -> J (f s)) ->
  preserves (fun sp : S * process => J (fst sp)) (setattr f).
Proof. intros Hf sp H. simpl. apply Hf, H. Qed.

Lemma preserves_warn_self (J : S -> Prop) (msg : string) :
  preserves (fun sp : S * process => J (fst sp)) (warn msg).
Proof. intros sp H. exact H. Qed.

Lemma preserves_run_task_self {A} (J : S -> Prop) i (task : M RandomState A) :
  preserves (fun sp : S * process => J (fst sp)) (run_task i task).
Proof.
  intros sp H. unfold run_task.
  destruct (task (np_random (snd sp))) as [r g]. exact H.
Qed.

Lemma preserves_Parallel_self {A} (J : S -> Prop) indices
  (task : Z -> M RandomState A) :
  preserves (fun sp : S * process => J (fst sp)) (Parallel indices task).
Proof.
  unfold Parallel. apply preserves_for_each. intros i.
  apply preserves_run_task_self.
Qed.

(** A property of the process alone is kept by every attribute write. *)
Lemma preserves_setattr_process (K : process -> Prop) (f : S -> S) :
  preserves (fun sp : S * process => K (snd sp)) (setattr f).
Proof. intros sp H. exact H. Qed.

(** Tasks issue no warning. *)
Lemma preserves_run_task_warnings {A} (ws : list string) i
  (task : M RandomState A) :
  preserves (fun sp : S * process => warnings (snd sp) = ws)
    (run_task i task).
Proof.
  intros sp H. unfold run_task.
  destruct (task (np_random (snd sp))) as [r g]. exact H.
Qed.

Lemma preserves_Parallel_warnings {A} (ws : list string) indices
  (task : Z -> M RandomState A) :
  preserves (fun sp : S * process => warnings (snd sp) = ws)
    (Parallel indices task).
Proof.
  unfold Parallel. apply preserves_for_each. intros i.
  apply preserves_run_task_warnings.
Qed.

Lemma preserves_run_task_submitted {A} (pre : list Z) i
  (task : M RandomState A) :
  preserves (submitted_from (S := S) pre) (run_task i task).
Proof.
  intros sp [rest H]. unfold run_task, submitted_from.
  destruct (task (np_random (snd sp))) as [r g]. simpl.
  exists (rest ++ [i])%list. rewrite H, app_assoc. reflexivity.
Qed.

Lemma preserves_Parallel_submitted {A} (pre : list Z) indices
  (task : Z -> M RandomState A) :
  preserves (submitted_from (S := S) pre) (Parallel indices task).
Proof.
  unfold Parallel. apply preserves_for_each. intros i.
  apply preserves_run_task_submitted.
Qed.

Lemma preserves_setattr_submitted (pre : list Z) (f : S -> S) :
  preserves (submitted_from (S := S) pre) (setattr f).
Proof. intros sp H. exact H. Qed.

Lemma preserves_warn_submitted (pre : list Z) (msg : string) :
  preserves (submitted_from (S := S) pre) (warn (S := S) msg).
Proof. intros sp H. exact H. Qed.



End Frames.

(* ===================================================================== *)
(** ** The univariate pipeline's fit                                      *)
(* ===================================================================== *)

Section WeaselFit.
Context {N : NumPy} {C : Collaborators}.

Lemma weasel_choose_band (self : WEASEL_V2.instance) (p : process) :
  WEASEL_V2.choose_band (self, p) =
  (Ok tt,
   (WEASEL_V2.set_ensemble_size
      (fst (band (WEASEL_V2.n_instances self) (WEASEL_V2.series_length self)))
      (WEASEL_V2.set_max_window
         (snd (band (WEASEL_V2.n_instances self)
                 (WEASEL_V2.series_length self)))
         self),
    p)).
Proof.
  unfold WEASEL_V2.choose_band, band, bind, self_, setattr, modify.
  cbn [fst snd].
  destruct (WEASEL_V2.n_instances self <? 250); [reflexivity |].
  destruct (WEASEL_V2.series_length self <? 100); reflexivity.
Qed.

Lemma weasel_check_windows (self : WEASEL_V2.instance) (p : process) :
  let mw := Z.min (WEASEL_V2.series_length self) (WEASEL_V2.max_window self) in
  WEASEL_V2.check_windows (self, p) =
  ((if WEASEL_V2.min_window (WEASEL_V2.hp self) >? mw
    then Raise (ValueError
                  (window_error_message
                     (WEASEL_V2.min_window (WEASEL_V2.hp self)) mw
                     (WEASEL_V2.series_length self)))
    else Ok tt),
   (WEASEL_V2.set_max_window mw self, p)).
Proof.
  unfold WEASEL_V2.check_windows, bind, self_, setattr, modify, raise, ret.
  cbn. destruct (_ >? _); reflexivity.
Qed.

(** [_fit] on a univariate set, run up to the window check. *)
Lemma weasel_fit_prelude (X : np.ndarray3) (y : list label)
  (self : WEASEL_V2.instance) (p : process) :
  np.shape1 X = 1%nat ->
  let n := Z.of_nat (np.shape0 X) in
  let L := Z.of_nat (np.shape2 X) in
  let mw := Z.min L (snd (band n L)) in
  WEASEL_V2._fit X y (self, p) =
  if WEASEL_V2.min_window (WEASEL_V2.hp self) >? mw
  then (Raise (ValueError
                 (window_error_message
                    (WEASEL_V2.min_window (WEASEL_V2.hp self)) mw L)),
        (weasel_checked X self, p))
  else bind (WEASEL_V2.fit_members (np.channel X 0) y)
         (fun parallel_res => WEASEL_V2.fit_classifier parallel_res y)
         (weasel_checked X self, p).
Proof.
  intros H1 n L mw. unfold WEASEL_V2._fit.
  unfold bind at 1. unfold setattr at 1. unfold modify at 1.
  unfold bind at 1. unfold setattr at 1. unfold modify at 1.
  unfold bind at 1. unfold lift at 1. unfold np.squeeze1. rewrite H1.
  cbn [Nat.eqb fst snd].
  unfold bind at 1. rewrite weasel_choose_band.
  unfold bind at 1. rewrite weasel_check_windows.
  cbn [WEASEL_V2.hp WEASEL_V2.set_ensemble_size WEASEL_V2.set_max_window
       WEASEL_V2.set_series_length WEASEL_V2.set_n_instances
       WEASEL_V2.series_length WEASEL_V2.n_instances WEASEL_V2.max_window].
  fold n L. fold mw.
  destruct (WEASEL_V2.min_window (WEASEL_V2.hp self) >? mw); reflexivity.
Qed.

(** Whatever becomes of the members and of the classifier, the ensemble
    size and the largest window stay as the check left them. *)
Lemma weasel_fit_members_keeps (J : WEASEL_V2.instance -> Prop) XX y :
  (forall v s, J s -> J (WEASEL_V2.set_window_sizes v s)) ->
  preserves (fun sp : WEASEL_V2.instance * process => J (fst sp))
    (WEASEL_V2.fit_members XX y).
Proof.
  intros Hw. unfold WEASEL_V2.fit_members.
  apply preserves_bind; [apply preserves_self_ | intros s1].
  apply preserves_bind;
    [apply preserves_setattr_self; intros s; apply Hw | intros _].
  apply preserves_bind; [apply preserves_self_ | intros s2].
  apply preserves_Parallel_self.
Qed.

Lemma weasel_fit_classifier_keeps (J : WEASEL_V2.instance -> Prop) res y :
  (forall v s, J s -> J (WEASEL_V2.set_SFA_transformers v s)) ->
  (forall v s, J s -> J (WEASEL_V2.set_clf v s)) ->
  (forall v s, J s -> J (WEASEL_V2.set_total_features_count v s)) ->
  (forall v s, J s -> J (WEASEL_V2.set_cross_val_score v s)) ->
  preserves (fun sp : WEASEL_V2.instance * process => J (fst sp))
    (WEASEL_V2.fit_classifier res y).
Proof.
  intros Ht Hc Hn Hs. unfold WEASEL_V2.fit_classifier.
  apply preserves_bind;
    [apply preserves_setattr_self; intros s; apply Ht | intros _].
  apply preserves_bind; [apply preserves_lift | intros all_words].
  apply preserves_bind; [apply preserves_lift | intros fitted].
  apply preserves_bind;
    [apply preserves_setattr_self; intros s; apply Hc | intros _].
  apply preserves_bind;
    [apply preserves_setattr_self; intros s; apply Hn | intros _].
  destruct (best_score_ fitted).
  - apply preserves_setattr_self; intros s; apply Hs.
  - apply preserves_ret.
Qed.

Lemma weasel_fit_members_submitted pre XX y :
  preserves (submitted_from (S := WEASEL_V2.instance) pre) (WEASEL_V2.fit_members XX y).
Proof.
  unfold WEASEL_V2.fit_members.
  apply preserves_bind; [apply preserves_self_ | intros s1].
  apply preserves_bind; [apply preserves_setattr_submitted | intros _].
  apply preserves_bind; [apply preserves_self_ | intros s2].
  apply preserves_Parallel_submitted.
Qed.


End WeaselFit.

Lemma band_cases (n L : Z) :
  fst (band n L) = (if n <? 250 then 50 else if L <? 100 then 100 else 150)
  /\ snd (band n L) = (if n <? 250 then 24 else if L <? 100 then 44 else 84).
Proof.
  unfold band. destruct (n <? 250); [split; reflexivity |].
  destruct (L <? 100); split; reflexivity.
Qed.

(** What [_fit] of the univariate pipeline leaves in [ensemble_size] and
    [max_window], whether it returns or raises after the shape is read. *)
Lemma weasel_fit_sizes {N : NumPy} {C : Collaborators}
  (X : np.ndarray3) (y : list label) (self : WEASEL_V2.instance)
  (p : process) :
  np.shape1 X = 1%nat ->
  let n := Z.of_nat (np.shape0 X) in
  let L := Z.of_nat (np.shape2 X) in
  let after := fst (snd (WEASEL_V2._fit X y (self, p))) in
  WEASEL_V2.ensemble_size after = fst (band n L)
  /\ WEASEL_V2.max_window after = Z.min L (snd (band n L)).
Proof.
  intros H1 n L after. unfold after.
  rewrite (weasel_fit_prelude X y self p H1). fold n L.
  destruct (WEASEL_V2.min_window (WEASEL_V2.hp self) >? _).
  - split; reflexivity.
  - apply (preserves_bind
             (fun sp : WEASEL_V2.instance * process =>
                WEASEL_V2.ensemble_size (fst sp) = fst (band n L)
                /\ WEASEL_V2.max_window (fst sp) = Z.min L (snd (band n L)))).
    + apply (weasel_fit_members_keeps
               (fun s => WEASEL_V2.ensemble_size s = fst (band n L)
                         /\ WEASEL_V2.max_window s = Z.min L (snd (band n L)))).
      intros v s H. exact H.
    + intros res.
      apply (weasel_fit_classifier_keeps
               (fun s => WEASEL_V2.ensemble_size s = fst (band n L)
                         /\ WEASEL_V2.max_window s = Z.min L (snd (band n L))));
        intros v s H; exact H.
    + split; reflexivity.
Qed.

(** C7: in [_fit] of the univariate pipeline the band statements set
    [ensemble_size] and [max_window] to 50 and 24 when there are fewer than
    250 training instances, otherwise to 100 and 44 when the series are
    shorter than 100, otherwise to 150 and 84. At the end of [_fit] the
    ensemble size is the band's, and [max_window] is the band's value
    bounded by the series length. *)
Theorem C7_band_by_instances_then_length (N : NumPy) (C : Collaborators)
  (X : np.ndarray3) (y : list label) (self : WEASEL_V2.instance)
  (p : process) :
  np.shape1 X = 1%nat ->
  let n := Z.of_nat (np.shape0 X) in
  let L := Z.of_nat (np.shape2 X) in
  let read :=
    WEASEL_V2.set_series_length L (WEASEL_V2.set_n_instances n self) in
  let after := fst (snd (WEASEL_V2._fit X y (self, p))) in
  WEASEL_V2.choose_band (read, p) =
    (Ok tt,
     (WEASEL_V2.set_ensemble_size
        (if n <? 250 then 50 else if L <? 100 then 100 else 150)
        (WEASEL_V2.set_max_window
           (if n <? 250 then 24 else if L <? 100 then 44 else 84) read),
      p))
  /\ WEASEL_V2.ensemble_size after =
       (if n <? 250 then 50 else if L <? 100 then 100 else 150)
  /\ WEASEL_V2.max_window after =
       Z.min L (if n <? 250 then 24 else if L <? 100 then 44 else 84).
Proof.
  intros H1 n L read after.
  destruct (band_cases n L) as [He Hw]. rewrite <- He, <- Hw.
  split.
  - unfold read. rewrite weasel_choose_band. reflexivity.
  - apply (weasel_fit_sizes X y self p H1).
Qed.

(** C7 on the reference implementation: one training series of length
    eight falls in the first band. *)
Lemma C7_band_by_instances_then_length_witness :
  let after :=
    fst (snd (WEASEL_V2._fit (N := Reference.numpy)
                (C := Reference.collaborators) Reference.one_series
                ["A"%string] (WEASEL_V2.default, Reference.process_at 7))) in
  WEASEL_V2.ensemble_size after = 50 /\ WEASEL_V2.max_window after = 8.
Proof.
  cbv zeta.
  exact (proj2 (C7_band_by_instances_then_length Reference.numpy
                  Reference.collaborators Reference.one_series ["A"%string]
                  WEASEL_V2.default (Reference.process_at 7) eq_refl)).
Defined.

(* ===================================================================== *)
(** ** The multivariate pipeline's fit                                    *)
(* ===================================================================== *)

Section MuseFit.
Context {N : NumPy} {C : Collaborators}.

Lemma preserves_Parallel_process {S A} (K : process -> Prop) indices
  (task : Z -> M RandomState A) :
  task_stable K ->
  preserves (fun sp : S * process => K (snd sp)) (Parallel indices task).
Proof.
  intros HK. unfold Parallel. apply preserves_for_each. intros i sp H.
  unfold run_task. destruct (task i (np_random (snd sp))) as [r g].
  simpl. apply HK, H.
Qed.

Lemma warnings_task_stable (ws : list string) :
  task_stable (fun p => warnings p = ws).
Proof. intros p g i H. exact H. Qed.

Lemma submitted_task_stable (pre : list Z) :
  task_stable (fun p => exists rest, submitted p = (pre ++ rest)%list).
Proof.
  intros p g i [rest H]. exists (rest ++ [i])%list. simpl.
  rewrite H, app_assoc. reflexivity.
Qed.

(** The optional augmentation never raises; it doubles the channels when
    it is applied and keeps the other two dimensions. *)
Lemma muse_with_first_differences (ufd : bool) (X : np.ndarray3) :
  exists X',
    MUSE_V2.with_first_differences ufd X = Ok X'
    /\ np.shape0 X' = np.shape0 X
    /\ np.shape1 X' = (if ufd then 2 * np.shape1 X else np.shape1 X)%nat
    /\ np.shape2 X' = np.shape2 X.
Proof.
  destruct ufd; simpl.
  - destruct (add_first_order_differences_ok X)
      as (X' & Hok & H0 & H1 & H2 & _).
    exists X'. repeat split; try assumption. rewrite H1. lia.
  - exists X. repeat split.
Qed.

Lemma muse_check_windows (X : np.ndarray3) (self : MUSE_V2.instance)
  (p : process) :
  let L := Z.of_nat (np.shape2 X) in
  let mw := Z.min L (MUSE_V2.max_window self) in
  MUSE_V2.check_windows X (self, p) =
  ((if MUSE_V2.min_window (MUSE_V2.hp self) >? mw
    then Raise (ValueError
                  (window_error_message
                     (MUSE_V2.min_window (MUSE_V2.hp self)) mw L))
    else Ok tt),
   (MUSE_V2.set_max_window mw (MUSE_V2.set_series_length (Some L) self), p)).
Proof.
  unfold MUSE_V2.check_windows, bind, self_, setattr, modify, raise, ret.
  cbn. destruct (_ >? _); reflexivity.
Qed.

Lemma muse_read_dimensions (X : np.ndarray3) (self : MUSE_V2.instance)
  (p : process) :
  (1 <= np.shape1 X)%nat ->
  MUSE_V2.variance (MUSE_V2.hp self) && MUSE_V2.anova (MUSE_V2.hp self)
    = false ->
  MUSE_V2.read_dimensions X (self, p) =
  (Ok tt,
   (muse_dimensions X self,
    if Z.of_nat (np.shape1 X) =? 1 then warned MUSE_V2.univariate_warning p
    else p)).
Proof.
  intros Hd Hva.
  unfold MUSE_V2.read_dimensions, bind, self_, setattr, modify, lift,
    MUSE_V2.ceil_log2, warn, raise, ret.
  cbn [fst snd].
  destruct (Z.leb_spec (Z.of_nat (np.shape1 X)) 0) as [Hle | _]; [lia |].
  rewrite Hva.
  destruct (Z.of_nat (np.shape1 X) =? 1); reflexivity.
Qed.

(** [_fit] run up to the window check. *)
Lemma muse_fit_prelude (X X' : np.ndarray3) (y : list label)
  (self : MUSE_V2.instance) (p : process) :
  MUSE_V2.with_first_differences
    (MUSE_V2.use_first_differences (MUSE_V2.hp self)) X = Ok X' ->
  (1 <= np.shape1 X')%nat ->
  MUSE_V2.variance (MUSE_V2.hp self) && MUSE_V2.anova (MUSE_V2.hp self)
    = false ->
  let L := Z.of_nat (np.shape2 X') in
  let mw := Z.min L (MUSE_V2.max_window self) in
  let p1 :=
    if Z.of_nat (np.shape1 X') =? 1
    then warned MUSE_V2.univariate_warning p else p in
  MUSE_V2._fit X y (self, p) =
  if MUSE_V2.min_window (MUSE_V2.hp self) >? mw
  then (Raise (ValueError
                 (window_error_message
                    (MUSE_V2.min_window (MUSE_V2.hp self)) mw L)),
        (muse_checked X' self, p1))
  else bind (MUSE_V2.fit_members X' y)
         (fun parallel_res => MUSE_V2.fit_classifier parallel_res y)
         (muse_checked X' self, p1).
Proof.
  intros HX Hd Hva L mw p1. unfold MUSE_V2._fit.
  unfold bind at 1. unfold self_ at 1. cbn [fst].
  unfold bind at 1. unfold lift at 1. rewrite HX.
  unfold bind at 1. rewrite (muse_read_dimensions X' self p Hd Hva).
  fold p1.
  unfold bind at 1. rewrite muse_check_windows.
  cbn [MUSE_V2.hp MUSE_V2.max_window muse_dimensions
       MUSE_V2.set_highest_dim_bit MUSE_V2.set_n_dims].
  fold L. fold mw.
  destruct (MUSE_V2.min_window (MUSE_V2.hp self) >? mw); reflexivity.
Qed.

(** The members and the classifier keep every property of the process
    that tasks cannot break. *)
Lemma muse_fit_members_process (K : process -> Prop) X y :
  task_stable K ->
  preserves (fun sp : MUSE_V2.instance * process => K (snd sp))
    (MUSE_V2.fit_members X y).
Proof.
  intros HK. unfold MUSE_V2.fit_members.
  apply preserves_bind; [apply preserves_self_ | intros s1].
  apply preserves_bind; [apply preserves_setattr_process | intros _].
  apply preserves_bind; [apply preserves_self_ | intros s2].
  apply preserves_Parallel_process, HK.
Qed.

Lemma muse_fit_classifier_process (K : process -> Prop) res y :
  preserves (fun sp : MUSE_V2.instance * process => K (snd sp))
    (MUSE_V2.fit_classifier res y).
Proof.
  unfold MUSE_V2.fit_classifier.
  apply preserves_bind; [apply preserves_setattr_process | intros _].
  apply preserves_bind; [apply preserves_lift | intros all_words].
  apply preserves_bind; [apply preserves_lift | intros fitted].
  apply preserves_bind; [apply preserves_setattr_process | intros _].
  apply preserves_bind; [apply preserves_setattr_process | intros _].
  destruct (best_score_ fitted).
  - apply preserves_setattr_process.
  - apply preserves_ret.
Qed.

(** With more than one channel, [read_dimensions] issues no warning. *)
Lemma muse_read_dimensions_silent (X : np.ndarray3) (ws : list string) :
  np.shape1 X <> 1%nat ->
  preserves (fun sp : MUSE_V2.instance * process => warnings (snd sp) = ws)
    (MUSE_V2.read_dimensions X).
Proof.
  intros Hd. unfold MUSE_V2.read_dimensions.
  apply preserves_bind; [apply preserves_self_ | intros s1].
  apply preserves_bind;
    [apply (preserves_setattr_process (fun p => warnings p = ws)) | intros _].
  apply preserves_bind; [apply preserves_lift | intros bits].
  apply preserves_bind;
    [apply (preserves_setattr_process (fun p => warnings p = ws)) | intros _].
  apply preserves_bind.
  - destruct (Z.eqb_spec (Z.of_nat (np.shape1 X)) 1) as [E | _]; [lia |].
    apply preserves_ret.
  - intros _. destruct (_ && _); [apply preserves_raise | apply preserves_ret].
Qed.

Lemma muse_check_windows_process (K : process -> Prop) (X : np.ndarray3) :
  preserves (fun sp : MUSE_V2.instance * process => K (snd sp))
    (MUSE_V2.check_windows X).
Proof.
  intros [self p] H. rewrite muse_check_windows. exact H.
Qed.

End MuseFit.

(* ===================================================================== *)
(** ** The window check                                                   *)
(* ===================================================================== *)



Lemma range_nonpos (n : Z) : n <= 0 -> Py.range n = [].
Proof.
  intros Hn. unfold Py.range. replace (Z.to_nat n) with 0%nat by lia.
  reflexivity.
Qed.


Section WindowCheck.
Context {N : NumPy} {C : Collaborators}.




End WindowCheck.



(* ===================================================================== *)
(** ** The transformers a member builds                                   *)
(* ===================================================================== *)

Lemma Forall2_map_snd {A B B' : Type} (Q : A -> B' -> Prop) (xs : list A)
  (bs : list (B * B')) :
  Forall2 (fun x b => Q x (snd b)) xs bs -> Forall2 Q xs (map snd bs).
Proof. induction 1; simpl; constructor; assumption. Qed.

Lemma Forall2_Forall_r {A B : Type} (Q : B -> Prop) (xs : list A)
  (bs : list B) :
  Forall2 (fun _ b => Q b) xs bs -> Forall Q bs.
Proof. induction 1; constructor; assumption. Qed.

(** What a [getSFADilated] call that returns has passed on. *)
Lemma weasel_getSFADilated_Ok alphabet_size alphabet_sizes anova bigrams
  binning_strategy dilation ensemble_size feature_selection first_difference
  i lower_bounding max_feature_count n_jobs norm remove_repeat_words sections
  variance window_size word_length tr :
  WEASEL_V2.getSFADilated alphabet_size alphabet_sizes anova bigrams
    binning_strategy dilation ensemble_size feature_selection
    first_difference i lower_bounding max_feature_count n_jobs norm
    remove_repeat_words sections variance window_size word_length = Ok tr ->
  SFA.max_feature_count tr = max_feature_count / ensemble_size
  /\ SFA.window_size tr = window_size
  /\ SFA.dilation tr = dilation
  /\ SFA.alphabet_size tr = alphabet_size
  /\ SFA.word_length tr = word_length
  /\ SFA.norm tr = norm
  /\ SFA.binning_method tr = binning_strategy
  /\ SFA.first_difference tr = first_difference.
Proof.
  unfold WEASEL_V2.getSFADilated, Py.floordiv.
  destruct (ensemble_size =? 0); [discriminate |].
  intros H. inversion H; subst. cbn. repeat split.
Qed.

Section Members.
Context {N : NumPy} {C : Collaborators}.

(** A task that returns has run its body on some generator. *)
Lemma weasel_parallel_fit_Ok i X y ws azs wls L nos ufd bss v a b lb nj mfc
  es fs rrw sec random_state (g g' : RandomState) r :
  WEASEL_V2._parallel_fit i X y ws azs wls L nos ufd bss v a b lb nj mfc es
    fs rrw sec random_state g = (Ok r, g') ->
  exists rng rng',
    WEASEL_V2._parallel_fit_with_rng i X y ws azs wls L nos ufd bss v a b lb
      nj mfc es fs rrw sec rng = (Ok r, rng').
Proof.
  unfold WEASEL_V2._parallel_fit. intros H.
  destruct random_state as [s |].
  - destruct (check_random_state (Some (s + i)) g) as [rng | e];
      [| discriminate H].
    destruct (WEASEL_V2._parallel_fit_with_rng i X y ws azs wls L nos ufd bss
                v a b lb nj mfc es fs rrw sec rng) as [r' rng'] eqn:E.
    simpl in H. inversion H; subst. exists rng, rng'. exact E.
  - simpl in H. exists g, g'. exact H.
Qed.

(** The transformers of a task that returns: one per first-difference
    option, each built by [getSFADilated] from the configuration drawn. *)
Lemma weasel_parallel_fit_with_rng_Ok i X y ws azs wls L nos ufd bss v a b lb
  nj mfc es fs rrw sec (g g' : RandomState) words ts :
  WEASEL_V2._parallel_fit_with_rng i X y ws azs wls L nos ufd bss v a b lb
    nj mfc es fs rrw sec g = (Ok (words, ts), g') ->
  exists c g1,
    WEASEL_V2.sample ws azs wls L nos bss g = (Ok c, g1)
    /\ Forall2 (fun first_difference t =>
         WEASEL_V2.getSFADilated (WEASEL_V2.alphabet_size c) azs a b
           (WEASEL_V2.binning_strategy c) (WEASEL_V2.dilation c) es fs
           first_difference i lb mfc nj (WEASEL_V2.norm c) rrw sec v
           (WEASEL_V2.window_size c) (WEASEL_V2.word_length c)
         = Ok (params t))
         ufd ts.
Proof.
  unfold WEASEL_V2._parallel_fit_with_rng. intros H.
  apply bind_Ok in H. destruct H as (c & g1 & Hc & H).
  apply bind_Ok in H. destruct H as (fitted & g2 & Hf & H).
  inversion H; subst; clear H.
  exists c, g1. split; [exact Hc |].
  apply Forall2_map_snd. apply for_each_Ok in Hf.
  eapply Forall2_impl; [| exact Hf].
  intros fd [w t] (s1 & s2 & Hb).
  apply bind_Ok in Hb. destruct Hb as (tr & s3 & Htr & Hb).
  apply lift_Ok in Htr. destruct Htr as [Htr _].
  apply bind_Ok in Hb. destruct Hb as ([w' v'] & s4 & _ & Hb).
  inversion Hb; subst. exact Htr.
Qed.

Lemma muse_parallel_fit_Ok ind X y ws azs wls nos ufd bss v a b nj mfc es fs
  random_state (g g' : RandomState) r :
  MUSE_V2._parallel_fit ind X y ws azs wls nos ufd bss v a b nj mfc es fs
    random_state g = (Ok r, g') ->
  exists rng rng',
    MUSE_V2._parallel_fit_with_rng ind X y ws azs wls nos ufd bss v a b nj
      mfc es fs rng = (Ok r, rng').
Proof.
  unfold MUSE_V2._parallel_fit. intros H.
  destruct random_state as [s |].
  - destruct (check_random_state (Some (s + ind)) g) as [rng | e];
      [| discriminate H].
    destruct (MUSE_V2._parallel_fit_with_rng ind X y ws azs wls nos ufd bss v
                a b nj mfc es fs rng) as [r' rng'] eqn:E.
    simpl in H. inversion H; subst. exists rng, rng'. exact E.
  - simpl in H. exists g, g'. exact H.
Qed.

(** The transformers of a task that returns: one per channel, each built
    by the [SFADilation(...)] call from the configuration drawn. *)
Lemma muse_parallel_fit_with_rng_Ok ind X y ws azs wls nos ufd bss v a b nj
  mfc es fs (g g' : RandomState) words ts :
  MUSE_V2._parallel_fit_with_rng ind X y ws azs wls nos ufd bss v a b nj mfc
    es fs g = (Ok (words, ts), g') ->
  exists c g1,
    MUSE_V2.sample X ws azs wls nos bss g = (Ok c, g1)
    /\ List.length ts = np.shape1 X
    /\ Forall (fun t =>
         MUSE_V2.new_transformer ind X c v a b nj mfc es fs = Ok (params t))
         ts.
Proof.
  unfold MUSE_V2._parallel_fit_with_rng. intros H.
  apply bind_Ok in H. destruct H as (c & g1 & Hc & H).
  apply bind_Ok in H. destruct H as (fitted & g2 & Hf & H).
  inversion H; subst; clear H.
  exists c, g1. split; [exact Hc |].
  apply for_each_Ok in Hf. split.
  - rewrite length_map. apply Forall2_length in Hf.
    rewrite length_seq in Hf. symmetry. exact Hf.
  - apply (Forall2_Forall_r _ (seq 0 (np.shape1 X))).
    apply Forall2_map_snd.
    eapply Forall2_impl; [| exact Hf].
    intros dim [w t] (s1 & s2 & Hb).
    apply bind_Ok in Hb. destruct Hb as (tr & s3 & Htr & Hb).
    apply lift_Ok in Htr. destruct Htr as [Htr _].
    apply bind_Ok in Hb. destruct Hb as ([w' v'] & s4 & _ & Hb).
    inversion Hb; subst. exact Htr.
Qed.

End Members.

(* ===================================================================== *)
(** ** The transformers a fit keeps                                       *)
(* ===================================================================== *)

Section Pool.
Context {N : NumPy} {S : Type}.

(** When the pool returns, every task has returned on some generator, in
    the order of the indices, and [self] is untouched. *)
Lemma Parallel_Ok {A} (indices : list Z) (task : Z -> M RandomState A)
  (sp sp' : S * process) (rs : list A) :
  Parallel indices task sp = (Ok rs, sp') ->
  Forall2 (fun i r => exists g g', task i g = (Ok r, g')) indices rs
  /\ fst sp' = fst sp.
Proof.
  intros H. split.
  - unfold Parallel in H. apply for_each_Ok in H.
    eapply Forall2_impl; [| exact H].
    intros i r (s1 & s2 & Hr). unfold run_task in Hr.
    destruct (task i (np_random (snd s1))) as [r' g'] eqn:E.
    inversion Hr; subst. exists (np_random (snd s1)), g'. exact E.
  - pose proof (preserves_Parallel_self (fun s => s = fst sp) indices task
                  sp eq_refl) as Hs.
    rewrite H in Hs. exact Hs.
Qed.

End Pool.

Section Kept.
Context {N : NumPy} {C : Collaborators}.

(** A successful univariate fit had a univariate training set. *)
Lemma weasel_fit_Ok_univariate X y (self : WEASEL_V2.instance) p st' :
  WEASEL_V2._fit X y (self, p) = (Ok tt, st') -> np.shape1 X = 1%nat.
Proof.
  unfold WEASEL_V2._fit. intros H.
  apply bind_Ok in H. destruct H as (u1 & s1 & _ & H).
  apply bind_Ok in H. destruct H as (u2 & s2 & _ & H).
  apply bind_Ok in H. destruct H as (XX & s3 & HX & _).
  apply lift_Ok in HX. destruct HX as [HX _].
  unfold np.squeeze1 in HX.
  destruct (Nat.eqb_spec (np.shape1 X) 1) as [E | _];
    [exact E | discriminate HX].
Qed.

(** The members of a univariate fit that returns. *)
Lemma weasel_fit_members_Ok XX y (self : WEASEL_V2.instance) p res sp1 :
  WEASEL_V2.fit_members XX y (self, p) = (Ok res, sp1) ->
  fst sp1 =
    WEASEL_V2.set_window_sizes
      (np.arange (WEASEL_V2.min_window (WEASEL_V2.hp self))
         (WEASEL_V2.max_window self + 1)) self
  /\ Forall (fun r =>
       Forall (fun t =>
         SFA.max_feature_count (params t) =
         WEASEL_V2.max_feature_count (WEASEL_V2.hp self)
         / WEASEL_V2.ensemble_size self) (snd r)) res.
Proof.
  unfold WEASEL_V2.fit_members, bind, self_, setattr, modify.
  cbn [fst snd]. intros H. apply Parallel_Ok in H. destruct H as [Hr Hs].
  split; [exact Hs |].
  apply (Forall2_Forall_r _ (Py.range (WEASEL_V2.ensemble_size self))).
  eapply Forall2_impl; [| exact Hr].
  intros i [words ts] (g & g' & Ht).
  apply weasel_parallel_fit_Ok in Ht. destruct Ht as (rng & rng' & Ht).
  apply weasel_parallel_fit_with_rng_Ok in Ht.
  destruct Ht as (c & g1 & _ & Hts).
  apply (Forall2_Forall_r _ (WEASEL_V2.use_first_differences
                               (WEASEL_V2.hp self))).
  eapply Forall2_impl; [| exact Hts].
  intros fd t Hp. apply weasel_getSFADilated_Ok in Hp. apply Hp.
Qed.

(** The transformers a classifier step that returns has stored. *)
Lemma weasel_fit_classifier_Ok res y (self : WEASEL_V2.instance) p self' p' :
  WEASEL_V2.fit_classifier res y (self, p) = (Ok tt, (self', p')) ->
  WEASEL_V2.SFA_transformers self' =
    (WEASEL_V2.SFA_transformers self ++ List.concat (map snd res))%list
  /\ WEASEL_V2.hp self' = WEASEL_V2.hp self
  /\ WEASEL_V2.ensemble_size self' = WEASEL_V2.ensemble_size self.
Proof.
  unfold WEASEL_V2.fit_classifier, bind, setattr, modify, lift.
  cbn [fst snd].
  destruct (merge (List.concat (map fst res))) as [all_words | e];
    [| discriminate].
  destruct (RidgeClassifierCV_fit (logspace (-1) 5 10) all_words y)
    as [fitted | e]; [| discriminate].
  destruct (best_score_ fitted); intros H; inversion H; subst;
    repeat split; reflexivity.
Qed.

(** The transformers a multivariate fit keeps when its members return. *)
Lemma muse_fit_members_Ok X y (self : MUSE_V2.instance) p res sp1 :
  MUSE_V2.fit_members X y (self, p) = (Ok res, sp1) ->
  fst sp1 =
    MUSE_V2.set_window_sizes
      (np.arange (MUSE_V2.min_window (MUSE_V2.hp self))
         (MUSE_V2.max_window self + 1)) self
  /\ Forall (fun r =>
    List.length (snd r) = np.shape1 X
    /\ Forall (fun t =>
         exists ind c g g1,
           MUSE_V2.sample X
             (np.arange (MUSE_V2.min_window (MUSE_V2.hp self))
                (MUSE_V2.max_window self + 1))
             (MUSE_V2.alphabet_sizes (MUSE_V2.hp self))
             (MUSE_V2.word_lengths (MUSE_V2.hp self))
             (MUSE_V2.norm_options (MUSE_V2.hp self))
             (MUSE_V2.binning_strategies (MUSE_V2.hp self)) g = (Ok c, g1)
           /\ MUSE_V2.new_transformer ind X c
                (MUSE_V2.variance (MUSE_V2.hp self))
                (MUSE_V2.anova (MUSE_V2.hp self))
                (MUSE_V2.bigrams (MUSE_V2.hp self))
                (MUSE_V2.n_jobs (MUSE_V2.hp self))
                (MUSE_V2.max_feature_count (MUSE_V2.hp self))
                (MUSE_V2.ensemble_size (MUSE_V2.hp self))
                (MUSE_V2.feature_selection (MUSE_V2.hp self))
              = Ok (params t)) (snd r)) res.
Proof.
  unfold MUSE_V2.fit_members, bind, self_, setattr, modify.
  cbn [fst snd]. intros H. apply Parallel_Ok in H. destruct H as [Hr Hs].
  split; [exact Hs |].
  apply (Forall2_Forall_r _
           (Py.range (MUSE_V2.ensemble_size (MUSE_V2.hp self)))).
  eapply Forall2_impl; [| exact Hr].
  intros ind [words ts] (g & g' & Ht).
  apply muse_parallel_fit_Ok in Ht. destruct Ht as (rng & rng' & Ht).
  apply muse_parallel_fit_with_rng_Ok in Ht.
  destruct Ht as (c & g1 & Hc & Hlen & Hts).
  split; [exact Hlen |].
  eapply Forall_impl; [| exact Hts].
  intros t Hp. exists ind, c, rng, g1. split; [exact Hc | exact Hp].
Qed.

Lemma muse_fit_classifier_Ok res y (self : MUSE_V2.instance) p self' p' :
  MUSE_V2.fit_classifier res y (self, p) = (Ok tt, (self', p')) ->
  MUSE_V2.SFA_transformers self' = map snd res
  /\ MUSE_V2.hp self' = MUSE_V2.hp self
  /\ MUSE_V2.n_dims self' = MUSE_V2.n_dims self.
Proof.
  unfold MUSE_V2.fit_classifier, bind, setattr, modify, lift.
  cbn [fst snd].
  destruct (merge (List.concat (map fst res))) as [all_words | e];
    [| discriminate].
  destruct (RidgeClassifierCV_fit (logspace (-3) 3 10) all_words y)
    as [fitted | e]; [| discriminate].
  destruct (best_score_ fitted); intros H; inversion H; subst;
    repeat split; reflexivity.
Qed.

(** What the [SFADilation(...)] call of the multivariate pipeline passes
    on: the feature cap is [int(max_feature_count / (ensemble_size *
    channels))] and the first-difference flag is the configuration's. *)
Lemma muse_new_transformer_Ok ind X c v a b nj mfc es fs tr :
  MUSE_V2.new_transformer ind X c v a b nj mfc es fs = Ok tr ->
  (exists q,
     Py.truediv mfc (es * Z.of_nat (np.shape1 X)) = Ok q
     /\ Py.int q = Ok (SFA.max_feature_count tr))
  /\ SFA.first_difference tr = MUSE_V2.first_difference c.
Proof.
  unfold MUSE_V2.new_transformer.
  destruct (Py.truediv mfc (es * Z.of_nat (np.shape1 X))) as [q | e];
    [| discriminate].
  destruct (Py.int q) as [cap | e] eqn:Hq; [| discriminate].
  intros H. inversion H; subst. cbn. split; [| reflexivity].
  exists q. split; [reflexivity | exact Hq].
Qed.

Lemma muse_read_dimensions_Ok X (self : MUSE_V2.instance) p s1 p1 :
  MUSE_V2.read_dimensions X (self, p) = (Ok tt, (s1, p1)) ->
  MUSE_V2.hp s1 = MUSE_V2.hp self
  /\ MUSE_V2.n_dims s1 = Some (Z.of_nat (np.shape1 X)).
Proof.
  unfold MUSE_V2.read_dimensions, bind, self_, setattr, modify, lift, warn,
    raise, ret.
  cbn [fst snd].
  destruct (MUSE_V2.ceil_log2 (Z.of_nat (np.shape1 X))) as [bits | e];
    [| discriminate].
  destruct (Z.of_nat (np.shape1 X) =? 1);
    destruct (MUSE_V2.variance (MUSE_V2.hp self)
              && MUSE_V2.anova (MUSE_V2.hp self));
    cbn [fst snd]; intros H; inversion H; subst; split; reflexivity.
Qed.

(** A multivariate fit that returns: the channel count it recorded, and,
    member by member, the transformers it keeps, one per channel of the
    series as augmented, each built from a sampled configuration. *)
Lemma muse_fit_Ok X y (self : MUSE_V2.instance) p self' p' :
  MUSE_V2._fit X y (self, p) = (Ok tt, (self', p')) ->
  let channels :=
    (if MUSE_V2.use_first_differences (MUSE_V2.hp self)
     then 2 * np.shape1 X else np.shape1 X)%nat in
  MUSE_V2.n_dims self' = Some (Z.of_nat channels)
  /\ MUSE_V2.hp self' = MUSE_V2.hp self
  /\ Forall (fun member =>
       List.length member = channels
       /\ Forall (fun t =>
            exists ind X' c ws g g1,
              np.shape1 X' = channels
              /\ MUSE_V2.sample X' ws
                   (MUSE_V2.alphabet_sizes (MUSE_V2.hp self))
                   (MUSE_V2.word_lengths (MUSE_V2.hp self))
                   (MUSE_V2.norm_options (MUSE_V2.hp self))
                   (MUSE_V2.binning_strategies (MUSE_V2.hp self)) g
                 = (Ok c, g1)
              /\ MUSE_V2.new_transformer ind X' c
                   (MUSE_V2.variance (MUSE_V2.hp self))
                   (MUSE_V2.anova (MUSE_V2.hp self))
                   (MUSE_V2.bigrams (MUSE_V2.hp self))
                   (MUSE_V2.n_jobs (MUSE_V2.hp self))
                   (MUSE_V2.max_feature_count (MUSE_V2.hp self))
                   (MUSE_V2.ensemble_size (MUSE_V2.hp self))
                   (MUSE_V2.feature_selection (MUSE_V2.hp self))
                 = Ok (params t)) member)
       (MUSE_V2.SFA_transformers self').
Proof.
  intros H channels. unfold MUSE_V2._fit in H.
  apply bind_Ok in H. destruct H as (s0 & sp0 & H0 & H).
  unfold self_ in H0. inversion H0; subst s0 sp0; clear H0. cbn [fst] in H.
  apply bind_Ok in H. destruct H as (X' & sp1 & HX & H).
  apply lift_Ok in HX. destruct HX as [HX ->].
  apply bind_Ok in H. destruct H as ([] & [s2 p2] & Hrd & H).
  apply bind_Ok in H. destruct H as ([] & [s3 p3] & Hcw & H).
  apply bind_Ok in H. destruct H as (res & [s4 p4] & Hm & H).
  destruct (muse_with_first_differences
              (MUSE_V2.use_first_differences (MUSE_V2.hp self)) X)
    as (X'' & HX'' & _ & Hc & _).
  rewrite HX in HX''. inversion HX''; subst X''. fold channels in Hc.
  apply muse_read_dimensions_Ok in Hrd. destruct Hrd as [Hhp2 Hn2].
  rewrite muse_check_windows in Hcw. inversion Hcw; subst s3 p3; clear Hcw.
  apply muse_fit_members_Ok in Hm. destruct Hm as [Hs4 Hres].
  cbn [fst] in Hs4. subst s4.
  apply muse_fit_classifier_Ok in H. destruct H as (Ht & Hhp & Hn).
  cbn in Hhp, Hn. split; [rewrite Hn, Hn2, Hc; reflexivity |].
  split; [rewrite Hhp; exact Hhp2 |].
  rewrite Ht. apply Forall_map.
  eapply Forall_impl; [| exact Hres].
  intros [words ts] [Hlen Hts]. cbn [snd] in *.
  split; [rewrite Hlen; exact Hc |].
  eapply Forall_impl; [| exact Hts].
  intros t (ind & c & g & g1 & Hsample & Hnew).
  cbn [MUSE_V2.hp MUSE_V2.set_max_window MUSE_V2.set_series_length]
    in Hsample, Hnew.
  rewrite Hhp2 in Hsample, Hnew.
  exists ind, X', c. eexists. exists g, g1.
  split; [exact Hc |]. split; [exact Hsample | exact Hnew].
Qed.

End Kept.

(* ===================================================================== *)
(** ** The feature cap and the first-difference flag of the transformers  *)
(* ===================================================================== *)



(** C10: the multivariate sampler always draws [False] for the
    first-difference flag, the constructor call passes the drawn flag on,
    and so every transformer a multivariate fit keeps has
    [first_difference = False]. Differencing enters only through the
    channels: the fit records [2 * channels] channels when
    [use_first_differences] is set and [channels] otherwise, and keeps one
    transformer per recorded channel in every member. *)
Theorem C10_extractors_never_difference (N : NumPy) (C : Collaborators) :
  (forall X window_sizes alphabet_sizes word_lengths norm_options
          binning_strategies g c g',
     MUSE_V2.sample X window_sizes alphabet_sizes word_lengths norm_options
       binning_strategies g = (Ok c, g') ->
     MUSE_V2.first_difference c = false)
  /\
  (forall ind X c variance anova bigrams n_jobs max_feature_count
          ensemble_size feature_selection tr,
     MUSE_V2.new_transformer ind X c variance anova bigrams n_jobs
       max_feature_count ensemble_size feature_selection = Ok tr ->
     SFA.first_difference tr = MUSE_V2.first_difference c)
  /\
  (forall X y (self : MUSE_V2.instance) p self' p',
     MUSE_V2._fit X y (self, p) = (Ok tt, (self', p')) ->
     let channels :=
       (if MUSE_V2.use_first_differences (MUSE_V2.hp self)
        then 2 * np.shape1 X else np.shape1 X)%nat in
     MUSE_V2.n_dims self' = Some (Z.of_nat channels)
     /\ Forall (fun member =>
          List.length member = channels
          /\ Forall (fun t => SFA.first_difference (params t) = false)
               member)
          (MUSE_V2.SFA_transformers self')).
Proof.
  split; [| split].
  - intros X ws azs wls nos bss g c g' H.
    apply muse_sample_Ok in H.
    destruct H as (g0 & g1 & u & d & _ & _ & _ & _ & _ & _ & _ & Hfd & _).
    exact Hfd.
  - intros ind X c v a b nj mfc es fs tr H.
    apply muse_new_transformer_Ok in H. apply H.
  - intros X y self p self' p' H channels.
    destruct (muse_fit_Ok X y self p self' p' H) as (Hn & _ & Hts).
    split; [exact Hn |].
    eapply Forall_impl; [| exact Hts].
    intros member [Hlen Hm]. split; [exact Hlen |].
    eapply Forall_impl; [| exact Hm].
    intros t (ind & X' & c & ws & g & g1 & _ & Hsample & Hnew).
    apply muse_new_transformer_Ok in Hnew. destruct Hnew as [_ Hfd].
    rewrite Hfd. apply muse_sample_Ok in Hsample.
    destruct Hsample
      as (g0 & g2 & u & d & _ & _ & _ & _ & _ & _ & _ & Hf & _).
    exact Hf.
Qed.

(** C10 on the reference implementation: the default multivariate
    pipeline on one univariate series records two channels and keeps
    transformers that never difference. *)
Lemma C10_extractors_never_difference_witness :
  let after :=
    fst (snd (MUSE_V2._fit (N := Reference.numpy)
                (C := Reference.collaborators) Reference.one_series
                ["A"%string] (MUSE_V2.default, Reference.process_at 7))) in
  MUSE_V2.n_dims after = Some 2
  /\ Forall (fun member =>
       List.length member = 2%nat
       /\ Forall (fun t => SFA.first_difference (params t) = false) member)
       (MUSE_V2.SFA_transformers after).
Proof.
  cbv zeta.
  assert (Hok : fst (MUSE_V2._fit (N := Reference.numpy)
                       (C := Reference.collaborators) Reference.one_series
                       ["A"%string]
                       (MUSE_V2.default, Reference.process_at 7)) = Ok tt)
    by (vm_compute; reflexivity).
  revert Hok.
  destruct (MUSE_V2._fit (N := Reference.numpy)
              (C := Reference.collaborators) Reference.one_series
              ["A"%string] (MUSE_V2.default, Reference.process_at 7))
    as [[[] | e] [self' p']] eqn:E; intros Hok; [| discriminate Hok].
  exact (proj2 (proj2 (C10_extractors_never_difference Reference.numpy
                         Reference.collaborators)) _ _ _ _ _ _ E).
Defined.

(* ===================================================================== *)
(** ** The univariate warning of the multivariate pipeline                *)
(* ===================================================================== *)

(** C9, on the code: the channel count that decides the warning is read
    after the augmentation. A univariate training set is therefore warned
    about only when [use_first_differences] is off; when it is on (the
    default) the set has two channels by the time the count is read, and
    [_fit] issues no warning at all. *)
Theorem C9_warning_follows_the_augmented_channels
  (N : NumPy) (C : Collaborators) (X : np.ndarray3) (y : list label)
  (self : MUSE_V2.instance) (p : process) :
  np.shape1 X = 1%nat ->
  let after := snd (snd (MUSE_V2._fit X y (self, p))) in
  (MUSE_V2.use_first_differences (MUSE_V2.hp self) = true ->
   warnings after = warnings p)
  /\ (MUSE_V2.use_first_differences (MUSE_V2.hp self) = false ->
      MUSE_V2.variance (MUSE_V2.hp self) && MUSE_V2.anova (MUSE_V2.hp self)
        = false ->
      warnings after = (warnings p ++ [MUSE_V2.univariate_warning])%list).
Proof.
  intros H1 after. unfold after. split.
  - intros Hufd.
    destruct (muse_with_first_differences true X) as (X' & HX & _ & Hc & _).
    rewrite H1 in Hc. unfold MUSE_V2._fit.
    unfold bind at 1. unfold self_ at 1. cbn [fst].
    unfold bind at 1. unfold lift at 1. rewrite Hufd, HX.
    apply (preserves_bind
             (fun sp : MUSE_V2.instance * process =>
                warnings (snd sp) = warnings p));
      [| | reflexivity].
    + apply muse_read_dimensions_silent. rewrite Hc. discriminate.
    + intros _. apply preserves_bind.
      * apply (muse_check_windows_process (fun q => warnings q = warnings p)).
      * intros _. apply preserves_bind.
        -- apply (muse_fit_members_process
                    (fun q => warnings q = warnings p)).
           apply warnings_task_stable.
        -- intros res.
           apply (muse_fit_classifier_process
                    (fun q => warnings q = warnings p)).
  - intros Hufd Hva.
    assert (HX : MUSE_V2.with_first_differences
                   (MUSE_V2.use_first_differences (MUSE_V2.hp self)) X
                 = Ok X) by (rewrite Hufd; reflexivity).
    assert (Hd : (1 <= np.shape1 X)%nat) by lia.
    rewrite (muse_fit_prelude X X y self p HX Hd Hva).
    rewrite H1. cbn [Z.of_nat Pos.of_succ_nat Z.eqb Pos.eqb].
    destruct (_ >? _); [reflexivity |].
    apply (preserves_bind
             (fun sp : MUSE_V2.instance * process =>
                warnings (snd sp) =
                (warnings p ++ [MUSE_V2.univariate_warning])%list));
      [| | reflexivity].
    + apply (muse_fit_members_process
               (fun q => warnings q =
                         (warnings p ++ [MUSE_V2.univariate_warning])%list)).
      apply warnings_task_stable.
    + intros res.
      apply (muse_fit_classifier_process
               (fun q => warnings q =
                         (warnings p ++ [MUSE_V2.univariate_warning])%list)).
Qed.

(** C9 at the failing input: the default multivariate pipeline fitted on
    one univariate series issues no warning. *)
Lemma C9_warning_follows_the_augmented_channels_witness :
  warnings
    (snd (snd (MUSE_V2._fit (N := Reference.numpy)
                 (C := Reference.collaborators) Reference.one_series
                 ["A"%string] (MUSE_V2.default, Reference.process_at 7))))
  = [].
Proof.
  exact (proj1 (C9_warning_follows_the_augmented_channels Reference.numpy
                  Reference.collaborators Reference.one_series ["A"%string]
                  MUSE_V2.default (Reference.process_at 7) eq_refl)
           eq_refl).
Defined.

(* ===================================================================== *)
(** ** Reproducible sampling                                              *)
(* ===================================================================== *)

(** A seeded generator does not depend on the process-wide one. *)
Lemma check_random_state_seeded {N : NumPy} (z : Z) (g1 g2 : RandomState) :
  check_random_state (Some z) g1 = check_random_state (Some z) g2.
Proof. reflexivity. Qed.

Lemma check_random_state_in_range {N : NumPy} (z : Z) (g : RandomState) :
  0 <= z < 2 ^ 32 -> check_random_state (Some z) g = Ok (RandomState_seed z).
Proof.
  intros Hz. unfold check_random_state.
  destruct (Z.leb_spec 0 z) as [_ | Hneg]; [| lia].
  destruct (Z.ltb_spec z (2 ^ 32)) as [_ | Hbig]; [| lia].
  reflexivity.
Qed.

(** C1: with a seed [s], member [i] of either pipeline draws from a
    generator seeded with [s + i], private to the task: the result of the
    task, and with it the configuration carried by its transformers, is the
    same whatever the state of the process-wide generator, which the task
    leaves untouched. Without a seed the task draws from the process-wide
    generator and advances it, so a repeated run can sample differently
    (as it does on the reference generator). *)
Theorem C1_sampling_determined_by_seed_and_index :
  (forall (N : NumPy) (C : Collaborators) i X y window_sizes alphabet_sizes
          word_lengths series_length norm_options use_first_differences
          binning_strategies variance anova bigrams lower_bounding n_jobs
          max_feature_count ensemble_size feature_selection
          remove_repeat_words sections s g1 g2,
     let run :=
       WEASEL_V2._parallel_fit i X y window_sizes alphabet_sizes word_lengths
         series_length norm_options use_first_differences binning_strategies
         variance anova bigrams lower_bounding n_jobs max_feature_count
         ensemble_size feature_selection remove_repeat_words sections
         (Some s) in
     fst (run g1) = fst (run g2)
     /\ snd (run g1) = g1
     /\ (0 <= s + i < 2 ^ 32 ->
         fst (run g1) =
           fst (WEASEL_V2._parallel_fit_with_rng i X y window_sizes
                  alphabet_sizes word_lengths series_length norm_options
                  use_first_differences binning_strategies variance anova
                  bigrams lower_bounding n_jobs max_feature_count
                  ensemble_size feature_selection remove_repeat_words
                  sections (RandomState_seed (s + i)))
         /\ forall words ts,
              fst (run g1) = Ok (words, ts) ->
              exists c g',
                WEASEL_V2.sample window_sizes alphabet_sizes word_lengths
                  series_length norm_options binning_strategies
                  (RandomState_seed (s + i)) = (Ok c, g')
                /\ Forall (fun t =>
                     SFA.window_size (params t) = WEASEL_V2.window_size c
                     /\ SFA.dilation (params t) = WEASEL_V2.dilation c
                     /\ SFA.alphabet_size (params t)
                        = WEASEL_V2.alphabet_size c
                     /\ SFA.word_length (params t) = WEASEL_V2.word_length c
                     /\ SFA.norm (params t) = WEASEL_V2.norm c
                     /\ SFA.binning_method (params t)
                        = WEASEL_V2.binning_strategy c) ts))
  /\
  (forall (N : NumPy) (C : Collaborators) ind X y window_sizes alphabet_sizes
          word_lengths norm_options use_first_differences binning_strategies
          variance anova bigrams n_jobs max_feature_count ensemble_size
          feature_selection s g1 g2,
     let run :=
       MUSE_V2._parallel_fit ind X y window_sizes alphabet_sizes word_lengths
         norm_options use_first_differences binning_strategies variance anova
         bigrams n_jobs max_feature_count ensemble_size feature_selection
         (Some s) in
     fst (run g1) = fst (run g2)
     /\ snd (run g1) = g1
     /\ (0 <= s + ind < 2 ^ 32 ->
         fst (run g1) =
           fst (MUSE_V2._parallel_fit_with_rng ind X y window_sizes
                  alphabet_sizes word_lengths norm_options
                  use_first_differences binning_strategies variance anova
                  bigrams n_jobs max_feature_count ensemble_size
                  feature_selection (RandomState_seed (s + ind)))
         /\ forall words ts,
              fst (run g1) = Ok (words, ts) ->
              exists c g',
                MUSE_V2.sample X window_sizes alphabet_sizes word_lengths
                  norm_options binning_strategies
                  (RandomState_seed (s + ind)) = (Ok c, g')
                /\ Forall (fun t =>
                     SFA.window_size (params t) = MUSE_V2.window_size c
                     /\ SFA.dilation (params t) = MUSE_V2.dilation c
                     /\ SFA.alphabet_size (params t) = MUSE_V2.alphabet_size c
                     /\ SFA.word_length (params t) = MUSE_V2.word_length c
                     /\ SFA.norm (params t) = MUSE_V2.norm c
                     /\ SFA.binning_method (params t)
                        = MUSE_V2.binning_strategy c) ts))
  /\
  (let run :=
     WEASEL_V2._parallel_fit (N := Reference.numpy)
       (C := Reference.collaborators) 0 (np.channel Reference.one_series 0)
       ["A"%string] (np.arange 4 9) [2] [7; 8] 8 [false] [true; false]
       ["equi-depth"; "equi-width"]%string true false false true 4 30000 50
       "chi2_top_k" false 1 None in
   snd (run 1) <> 1
   /\ first_window (fst (run 1)) <> first_window (fst (run (snd (run 1))))).
Proof.
  split; [| split].
  - intros N C i X y ws azs wls L nos ufd bss v a b lb nj mfc es fs rrw sec
      s g1 g2 run.
    assert (Hrun : forall g,
              run g =
              (match check_random_state (Some (s + i)) g with
               | Ok rng =>
                   fst (WEASEL_V2._parallel_fit_with_rng i X y ws azs wls L
                          nos ufd bss v a b lb nj mfc es fs rrw sec rng)
               | Raise e => Raise e
               end, g)).
    { intros g. unfold run, WEASEL_V2._parallel_fit.
      destruct (check_random_state (Some (s + i)) g); reflexivity. }
    split; [| split].
    + rewrite !Hrun. cbn [fst].
      rewrite (check_random_state_seeded (s + i) g1 g2). reflexivity.
    + rewrite Hrun. reflexivity.
    + intros Hs. rewrite Hrun. cbn [fst].
      rewrite (check_random_state_in_range (s + i) g1 Hs).
      split; [reflexivity |]. intros words ts Hok.
      destruct (WEASEL_V2._parallel_fit_with_rng i X y ws azs wls L nos ufd
                  bss v a b lb nj mfc es fs rrw sec (RandomState_seed (s + i)))
        as [r rng'] eqn:E.
      cbn [fst] in Hok. subst r.
      apply weasel_parallel_fit_with_rng_Ok in E.
      destruct E as (c & g' & Hc & Hts). exists c, g'.
      split; [exact Hc |].
      apply (Forall2_Forall_r _ ufd).
      eapply Forall2_impl; [| exact Hts].
      intros fd t Hp. apply weasel_getSFADilated_Ok in Hp.
      destruct Hp as (_ & Hw & Hd & Ha & Hl & Hn & Hb & _).
      repeat split; assumption.
  - intros N C ind X y ws azs wls nos ufd bss v a b nj mfc es fs s g1 g2 run.
    assert (Hrun : forall g,
              run g =
              (match check_random_state (Some (s + ind)) g with
               | Ok rng =>
                   fst (MUSE_V2._parallel_fit_with_rng ind X y ws azs wls nos
                          ufd bss v a b nj mfc es fs rng)
               | Raise e => Raise e
               end, g)).
    { intros g. unfold run, MUSE_V2._parallel_fit.
      destruct (check_random_state (Some (s + ind)) g); reflexivity. }
    split; [| split].
    + rewrite !Hrun. cbn [fst].
      rewrite (check_random_state_seeded (s + ind) g1 g2). reflexivity.
    + rewrite Hrun. reflexivity.
    + intros Hs. rewrite Hrun. cbn [fst].
      rewrite (check_random_state_in_range (s + ind) g1 Hs).
      split; [reflexivity |]. intros words ts Hok.
      destruct (MUSE_V2._parallel_fit_with_rng ind X y ws azs wls nos ufd bss
                  v a b nj mfc es fs (RandomState_seed (s + ind)))
        as [r rng'] eqn:E.
      cbn [fst] in Hok. subst r.
      apply muse_parallel_fit_with_rng_Ok in E.
      destruct E as (c & g' & Hc & _ & Hts). exists c, g'.
      split; [exact Hc |].
      eapply Forall_impl; [| exact Hts].
      intros t Hnew. unfold MUSE_V2.new_transformer in Hnew.
      destruct (Py.truediv mfc (es * Z.of_nat (np.shape1 X))) as [q | e];
        [| discriminate Hnew].
      destruct (Py.int q) as [cap | e]; [| discriminate Hnew].
      inversion Hnew as [Hp]. cbn. repeat split.
  - cbv zeta. split.
    + intros E. vm_compute in E. discriminate E.
    + intros E. vm_compute in E. discriminate E.
Qed.

(** C1 on the reference implementation: member 3 with seed 10 returns the
    same result from two different states of the process-wide generator. *)
Lemma C1_sampling_determined_by_seed_and_index_witness :
  let run :=
    WEASEL_V2._parallel_fit (N := Reference.numpy)
      (C := Reference.collaborators) 3 (np.channel Reference.one_series 0)
      ["A"%string] (np.arange 4 9) [2] [7; 8] 8 [false] [true; false]
      ["equi-depth"; "equi-width"]%string true false false true 4 30000 50
      "chi2_top_k" false 1 (Some 10) in
  fst (run 1) = fst (run 2) /\ snd (run 1) = 1.
Proof.
  cbv zeta.
  destruct (proj1 C1_sampling_determined_by_seed_and_index
              Reference.numpy Reference.collaborators 3
              (np.channel Reference.one_series 0) ["A"%string]
              (np.arange 4 9) [2] [7; 8] 8 [false] [true; false]
              ["equi-depth"; "equi-width"]%string true false false true 4
              30000 50 "chi2_top_k"%string false 1 10 1 2)
    as (Hsame & Hglobal & _).
  split; [exact Hsame | exact Hglobal].
Defined.

(** The univariate sampler returns whenever every candidate list is
    non-empty and the bound of the uniform draw is finite for every
    candidate window. *)
Lemma weasel_sample_total {N : NumPy} window_sizes alphabet_sizes
  word_lengths series_length norm_options binning_strategies
  (g : RandomState) :
  window_sizes <> [] -> alphabet_sizes <> [] -> word_lengths <> [] ->
  norm_options <> [] -> binning_strategies <> [] ->
  (forall w, In w window_sizes ->
     Py.isfinite
       (log2 (np.true_divide (series_length - 1) (w - 1)) - 0)%float = true) ->
  exists c g',
    WEASEL_V2.sample window_sizes alphabet_sizes word_lengths series_length
      norm_options binning_strategies g = (Ok c, g').
Proof.
  intros Hw Ha Hl Hn Hb Hfin. unfold WEASEL_V2.sample.
  destruct (choice_total window_sizes g Hw) as (w & g1 & Ew).
  unfold bind at 1. rewrite Ew.
  assert (Eu : exists u g2,
            WEASEL_V2.dilation_exponent series_length w g1 = (Ok u, g2)).
  { unfold WEASEL_V2.dilation_exponent, uniform.
    rewrite (Hfin w (choice_Ok _ _ _ _ Ew)).
    destruct (random_sample g1) as [r g2]. eexists. eexists. reflexivity. }
  destruct Eu as (u & g2 & Eu). unfold bind at 1. rewrite Eu.
  destruct (choice_total alphabet_sizes g2 Ha) as (a & g3 & Ea).
  unfold bind at 1. rewrite Ea.
  destruct (choice_total word_lengths g3 Hl) as (d & g4 & Ed).
  unfold bind at 1. rewrite Ed.
  destruct (choice_total norm_options g4 Hn) as (n & g5 & En).
  unfold bind at 1. rewrite En.
  destruct (choice_total binning_strategies g5 Hb) as (b & g6 & Eb).
  unfold bind at 1. rewrite Eb.
  eexists. eexists. reflexivity.
Qed.

(** The multivariate sampler returns under the same conditions. *)
Lemma muse_sample_total {N : NumPy} X window_sizes alphabet_sizes
  word_lengths norm_options binning_strategies (g : RandomState) :
  window_sizes <> [] -> alphabet_sizes <> [] -> word_lengths <> [] ->
  norm_options <> [] -> binning_strategies <> [] ->
  (forall w, In w window_sizes ->
     Py.isfinite
       (log2 (np.true_divide (Z.of_nat (np.shape2 X) - 1) (w - 1)) - 0)%float
     = true) ->
  exists c g',
    MUSE_V2.sample X window_sizes alphabet_sizes word_lengths norm_options
      binning_strategies g = (Ok c, g').
Proof.
  intros Hw Ha Hl Hn Hb Hfin. unfold MUSE_V2.sample.
  destruct (choice_total window_sizes g Hw) as (w & g1 & Ew).
  unfold bind at 1. rewrite Ew.
  destruct (choice_total alphabet_sizes g1 Ha) as (a & g2 & Ea).
  unfold bind at 1. rewrite Ea.
  destruct (choice_total word_lengths g2 Hl) as (d & g3 & Ed).
  unfold bind at 1. rewrite Ed.
  destruct (choice_total norm_options g3 Hn) as (n & g4 & En).
  unfold bind at 1. rewrite En.
  destruct (choice_total [false] g4) as (fd & g5 & Ef); [discriminate |].
  unfold bind at 1. rewrite Ef.
  destruct (choice_total binning_strategies g5 Hb) as (b & g6 & Eb).
  unfold bind at 1. rewrite Eb.
  assert (Eu : exists u g7,
            MUSE_V2.dilation_exponent (Z.of_nat (np.shape2 X)) w g6
            = (Ok u, g7)).
  { unfold MUSE_V2.dilation_exponent, uniform.
    rewrite (Hfin w (choice_Ok _ _ _ _ Ew)).
    destruct (random_sample g6) as [r g7]. eexists. eexists. reflexivity. }
  destruct Eu as (u & g7 & Eu). unfold bind at 1. rewrite Eu.
  eexists. eexists. reflexivity.
Qed.

(* ===================================================================== *)
(** ** More on the merge of feature blocks                                *)
(* ===================================================================== *)

Lemma cols_hcat (bs : list np.ndarray) :
  np.cols (np.hcat bs) = list_sum (map np.cols bs).
Proof.
  unfold np.hcat. cbn [np.cols].
  induction bs as [| b bs IH]; [reflexivity |]. simpl. rewrite IH. reflexivity.
Qed.

Lemma same_rows_Forall (b : np.ndarray) (bs : list np.ndarray) :
  np.same_rows (b :: bs) = true ->
  Forall (fun a => np.rows a = np.rows b) (b :: bs).
Proof.
  unfold np.same_rows. cbn [nth]. intros H.
  apply Forall_forall. intros a Ha.
  apply Nat.eqb_eq. revert a Ha. apply forallb_forall. exact H.
Qed.

Lemma same_rows_snoc (b : np.ndarray) (bs : list np.ndarray) (c : np.ndarray) :
  np.same_rows ((b :: bs) ++ [c]) =
  np.same_rows (b :: bs) && (np.rows c =? np.rows b)%nat.
Proof.
  unfold np.same_rows. cbn [app nth]. cbn [forallb].
  rewrite forallb_app. cbn [forallb]. rewrite andb_true_r, andb_assoc.
  reflexivity.
Qed.

(** What a merge that returns has produced. *)
Lemma merge_Ok (first : np.block) (rest : list np.block) (b : np.block) :
  merge (first :: rest) = Ok b ->
  np.is_ndarray b = np.is_ndarray first
  /\ np.payload b = np.hcat (map np.payload (first :: rest))
  /\ np.same_rows (map np.payload (first :: rest)) = true
  /\ (np.is_ndarray first = true -> forallb np.is_ndarray rest = true).
Proof.
  rewrite merge_cons. destruct (np.is_ndarray first) eqn:Hk.
  - unfold np.concatenate. cbn [forallb]. rewrite Hk. cbn [andb].
    destruct (forallb np.is_ndarray rest) eqn:Hr; [| discriminate].
    cbn [negb].
    destruct (np.same_rows (map np.payload (first :: rest))) eqn:Hs;
      [| discriminate].
    intros H. inversion H; subst. repeat split; reflexivity.
  - unfold np.hstack.
    destruct (np.same_rows (map np.payload (first :: rest))) eqn:Hs;
      [| discriminate].
    intros H. inversion H; subst. repeat split; try reflexivity.
    discriminate.
Qed.

(** X1: the merge returns exactly when the blocks have equal row counts
    and, if the first block is dense, every block is dense. What it returns
    is dense exactly when the first block is, has the rows of every block
    and the sum of their columns. *)
Theorem X1_merge_returns_exactly_when
  (first : np.block) (rest : list np.block) :
  ((exists b, merge (first :: rest) = Ok b) <->
   np.same_rows (map np.payload (first :: rest)) = true
   /\ (np.is_ndarray first = true -> forallb np.is_ndarray rest = true))
  /\ (forall b,
        merge (first :: rest) = Ok b ->
        np.is_ndarray b = np.is_ndarray first
        /\ Forall (fun a => np.rows (np.payload a) = np.rows (np.payload b))
             (first :: rest)
        /\ np.cols (np.payload b) =
           list_sum (map (fun a => np.cols (np.payload a)) (first :: rest))).
Proof.
  split.
  - split.
    + intros [b Hb]. apply merge_Ok in Hb. split; apply Hb.
    + intros [Hs Hd]. rewrite merge_cons.
      destruct (np.is_ndarray first) eqn:Hk.
      * eexists. apply concatenate_dense; [discriminate | | exact Hs].
        cbn [forallb]. rewrite Hk, (Hd eq_refl). reflexivity.
      * eexists. apply hstack_sparse; [discriminate | exact Hs].
  - intros b Hb. apply merge_Ok in Hb. destruct Hb as (Hk & Hp & Hs & _).
    split; [exact Hk |]. rewrite Hp. split.
    + apply (same_rows_Forall (np.payload first) (map np.payload rest)) in Hs.
      change (np.payload first :: map np.payload rest)
        with (map np.payload (first :: rest)) in Hs.
      rewrite Forall_map in Hs. exact Hs.
    + rewrite cols_hcat, map_map. reflexivity.
Qed.

(** Column [j] of a concatenation lies in the first part when [j] is
    below its width, and in the second part, shifted, otherwise. *)
Lemma hcat_item_app (bs cs : list np.ndarray) (i j : nat) :
  np.hcat_item (bs ++ cs) i j =
  if (j <? np.cols (np.hcat bs))%nat then np.hcat_item bs i j
  else np.hcat_item cs i (j - np.cols (np.hcat bs)).
Proof.
  revert j. induction bs as [| b bs IH]; intros j.
  - cbn. rewrite Nat.sub_0_r. reflexivity.
  - cbn [app np.hcat_item]. rewrite cols_hcat in *.
    change (list_sum (map np.cols (b :: bs)))
      with (np.cols b + list_sum (map np.cols bs))%nat.
    destruct (Nat.ltb_spec j (np.cols b)) as [Hlt | Hge].
    + destruct (Nat.ltb_spec j (np.cols b + list_sum (map np.cols bs)))
        as [_ | Hbad]; [reflexivity | lia].
    + rewrite IH.
      destruct (Nat.ltb_spec (j - np.cols b) (list_sum (map np.cols bs)));
        destruct (Nat.ltb_spec j (np.cols b + list_sum (map np.cols bs)));
        try lia; try reflexivity.
      f_equal. lia.
Qed.

Lemma hcat_snoc_cols (l : list np.ndarray) (c : np.ndarray) :
  np.cols (np.hcat (l ++ [c])) = np.cols (np.hcat [np.hcat l; c]).
Proof.
  rewrite !cols_hcat, map_app, list_sum_app. cbn [map]. rewrite cols_hcat.
  reflexivity.
Qed.

Lemma hcat_snoc_item (l : list np.ndarray) (c : np.ndarray) (i j : nat) :
  np.hcat_item (l ++ [c]) i j = np.hcat_item [np.hcat l; c] i j.
Proof. rewrite hcat_item_app. reflexivity. Qed.

(** X2: the merge is associative. When a list of blocks merges into [m],
    merging the list with one more block appended gives what merging [m]
    with that block gives: the same error, or arrays of the same kind and
    shape with the same entries. *)
Theorem X2_merge_is_associative (bs : list np.block) (m c : np.block) :
  merge bs = Ok m -> same_outcome (merge (bs ++ [c])) (merge [m; c]).
Proof.
  destruct bs as [| first rest]; [discriminate |]. intros Hm.
  apply merge_Ok in Hm. destruct Hm as (Hk & Hp & Hs & Hd).
  assert (Hrows : np.rows (np.payload m) = np.rows (np.payload first)).
  { rewrite Hp. reflexivity. }
  assert (Hs1 : np.same_rows (map np.payload ((first :: rest) ++ [c])) =
                (np.rows (np.payload c) =? np.rows (np.payload first))%nat).
  { rewrite map_app. cbn [map]. rewrite same_rows_snoc.
    cbn [map] in Hs. rewrite Hs. reflexivity. }
  assert (Hs2 : np.same_rows (map np.payload [m; c]) =
                (np.rows (np.payload c) =? np.rows (np.payload first))%nat).
  { unfold np.same_rows. cbn [map nth forallb]. rewrite Hrows.
    rewrite Nat.eqb_refl, andb_true_r. reflexivity. }
  assert (Hsame :
            np.rows (np.hcat (map np.payload ((first :: rest) ++ [c]))) =
            np.rows (np.hcat (map np.payload [m; c]))
            /\ np.cols (np.hcat (map np.payload ((first :: rest) ++ [c]))) =
               np.cols (np.hcat (map np.payload [m; c]))
            /\ forall i j,
                 np.item (np.hcat (map np.payload ((first :: rest) ++ [c])))
                   i j =
                 np.item (np.hcat (map np.payload [m; c])) i j).
  { rewrite map_app. cbn [map]. rewrite Hp. cbn [map].
    split; [reflexivity |]. split.
    - apply (hcat_snoc_cols (np.payload first :: map np.payload rest)).
    - intros i j.
      apply (hcat_snoc_item (np.payload first :: map np.payload rest)). }
  change (merge ((first :: rest) ++ [c]))
    with (merge (first :: (rest ++ [c]))).
  rewrite !merge_cons, Hk.
  change (first :: (rest ++ [c])) with ((first :: rest) ++ [c]).
  destruct (np.is_ndarray first) eqn:Hf.
  - unfold np.concatenate.
    replace (forallb np.is_ndarray ((first :: rest) ++ [c]))
      with (np.is_ndarray c)
      by (rewrite forallb_app; cbn [forallb]; rewrite Hf, (Hd eq_refl);
          cbn [andb]; rewrite andb_true_r; reflexivity).
    replace (forallb np.is_ndarray [m; c]) with (np.is_ndarray c)
      by (cbn [forallb]; rewrite Hk, andb_true_r; reflexivity).
    cbn [app].
    destruct (np.is_ndarray c); cbn [negb]; [| reflexivity].
    change (first :: (rest ++ [c])) with ((first :: rest) ++ [c]).
    rewrite Hs1, Hs2.
    destruct (np.rows (np.payload c) =? np.rows (np.payload first))%nat;
      [| reflexivity].
    cbn [same_outcome np.is_ndarray np.payload].
    split; [reflexivity | exact Hsame].
  - unfold np.hstack. cbn [app].
    change (first :: (rest ++ [c])) with ((first :: rest) ++ [c]).
    rewrite Hs1, Hs2.
    destruct (np.rows (np.payload c) =? np.rows (np.payload first))%nat;
      [| reflexivity].
    cbn [same_outcome np.is_ndarray np.payload].
    split; [reflexivity | exact Hsame].
Qed.

(** X2 on three dense one-column blocks. *)
Lemma X2_merge_is_associative_witness :
  same_outcome
    (merge ([np.Dense (np.array [[1%float]]); np.Dense (np.array [[2%float]])]
            ++ [np.Dense (np.array [[3%float]])]))
    (merge [np.Dense (np.hcat [np.array [[1%float]]; np.array [[2%float]]]);
            np.Dense (np.array [[3%float]])]).
Proof.
  apply (X2_merge_is_associative
           [np.Dense (np.array [[1%float]]); np.Dense (np.array [[2%float]])]).
  reflexivity.
Defined.

(* ===================================================================== *)
(** ** Inference reads the model and the process, and writes neither      *)
(* ===================================================================== *)

Section ReadOnly.
Context {N : NumPy} {C : Collaborators}.





End ReadOnly.


(* ===================================================================== *)
(** ** A seeded fit does not see the process-wide generator               *)
(* ===================================================================== *)

Section Blind.
Context {N : NumPy} {S : Type}.
Variable J : S -> Prop.

Lemma blind_ret {A} (a : A) : generator_blind J (ret a).
Proof. intros s p g H. split; [reflexivity | exact H]. Qed.

Lemma blind_raise {A} e : generator_blind J (@raise (S * process) A e).
Proof. intros s p g H. split; [reflexivity | exact H]. Qed.

Lemma blind_lift {A} (r : result A) : generator_blind J (lift r).
Proof. intros s p g H. split; [reflexivity | exact H]. Qed.

Lemma blind_self_ : generator_blind J self_.
Proof. intros s p g H. split; [reflexivity | exact H]. Qed.

Lemma blind_setattr (f : S -> S) :
  (forall s, J s -> J (f s)) -> generator_blind J (setattr f).
Proof. intros Hf s p g H. split; [reflexivity | apply Hf, H]. Qed.

Lemma blind_warn (msg : string) : generator_blind J (warn msg).
Proof. intros s p g H. split; [reflexivity | exact H]. Qed.

Lemma blind_bind {A B} (c : M (S * process) A) (k : A -> M (S * process) B) :
  generator_blind J c -> (forall a, generator_blind J (k a)) ->
  generator_blind J (bind c k).
Proof.
  intros Hc Hk s p g H. unfold bind.
  destruct (Hc s p g H) as [Ec Hj]. rewrite Ec.
  destruct (c (s, p)) as [[a | e] [s1 p1]]; cbn [fst snd] in *.
  - apply Hk, Hj.
  - split; [reflexivity | exact Hj].
Qed.

Lemma blind_for_each {A B} (xs : list A) (body : A -> M (S * process) B) :
  (forall x, generator_blind J (body x)) ->
  generator_blind J (for_each xs body).
Proof.
  intros Hb. induction xs as [| x rest IH]; cbn [for_each].
  - apply blind_ret.
  - apply blind_bind; [apply Hb |]. intros b.
    apply blind_bind; [exact IH |]. intros bs. apply blind_ret.
Qed.

(** After [self_] the continuation runs on the model it was handed. *)
Lemma blind_bind_self_ {B} (k : S -> M (S * process) B) :
  (forall s, J s -> forall p g,
     k s (s, with_generator g p) =
       (fst (k s (s, p)),
        (fst (snd (k s (s, p))), with_generator g (snd (snd (k s (s, p))))))
     /\ J (fst (snd (k s (s, p))))) ->
  generator_blind J (bind self_ k).
Proof. intros Hk s p g H. unfold bind, self_. cbn [fst snd]. apply Hk, H. Qed.

(** A task that never touches the generator it is handed. *)
Lemma blind_run_task {A} (i : Z) (task : M RandomState A) (r : result A) :
  (forall g, task g = (r, g)) -> generator_blind J (run_task i task).
Proof.
  intros Ht s p g H. unfold run_task. cbn [fst snd with_generator np_random].
  rewrite (Ht g), (Ht (np_random p)). split; [reflexivity | exact H].
Qed.

Lemma blind_Parallel {A} (indices : list Z) (task : Z -> M RandomState A) :
  (forall i, exists r, forall g, task i g = (r, g)) ->
  generator_blind J (Parallel indices task).
Proof.
  intros Ht. unfold Parallel. apply blind_for_each. intros i.
  destruct (Ht i) as [r Hr]. apply (blind_run_task i (task i) r Hr).
Qed.

End Blind.

Section Seeded.
Context {N : NumPy} {C : Collaborators}.

(** A seeded task returns the same result from every state of the
    generator it is handed, and hands that state back. *)
Lemma weasel_parallel_fit_seeded i X y ws azs wls L nos ufd bss v a b lb nj
  mfc es fs rrw sec s :
  exists r, forall g,
    WEASEL_V2._parallel_fit i X y ws azs wls L nos ufd bss v a b lb nj mfc
      es fs rrw sec (Some s) g = (r, g).
Proof.
  unfold WEASEL_V2._parallel_fit, check_random_state.
  destruct ((0 <=? s + i) && (s + i <? 2 ^ 32)); eexists; intros g;
    reflexivity.
Qed.

Lemma muse_parallel_fit_seeded ind X y ws azs wls nos ufd bss v a b nj mfc es
  fs s :
  exists r, forall g,
    MUSE_V2._parallel_fit ind X y ws azs wls nos ufd bss v a b nj mfc es fs
      (Some s) g = (r, g).
Proof.
  unfold MUSE_V2._parallel_fit, check_random_state.
  destruct ((0 <=? s + ind) && (s + ind <? 2 ^ 32)); eexists; intros g;
    reflexivity.
Qed.

Lemma weasel_fit_blind (seed : Z) X y :
  generator_blind
    (fun self => WEASEL_V2.random_state (WEASEL_V2.hp self) = Some seed)
    (WEASEL_V2._fit X y).
Proof.
  unfold WEASEL_V2._fit.
  apply blind_bind; [apply blind_setattr; intros s H; exact H | intros _].
  apply blind_bind; [apply blind_setattr; intros s H; exact H | intros _].
  apply blind_bind; [apply blind_lift | intros XX].
  apply blind_bind.
  { unfold WEASEL_V2.choose_band.
    apply blind_bind; [apply blind_self_ | intros self].
    destruct (WEASEL_V2.n_instances self <? 250);
      [| destruct (WEASEL_V2.series_length self <? 100)];
      (apply blind_bind; [apply blind_setattr; intros s H; exact H | intros _];
       apply blind_setattr; intros s H; exact H). }
  intros _. apply blind_bind.
  { unfold WEASEL_V2.check_windows.
    apply blind_bind; [apply blind_self_ | intros self].
    apply blind_bind; [apply blind_setattr; intros s H; exact H | intros _].
    apply blind_bind; [apply blind_self_ | intros self'].
    destruct (_ >? _); [apply blind_raise | apply blind_ret]. }
  intros _. apply blind_bind.
  { unfold WEASEL_V2.fit_members.
    apply blind_bind_self_. intros self Hself p g. cbv beta.
    match goal with
    | |- ?c (self, with_generator g p) = _ /\ _ =>
        assert (Hrest : generator_blind
                          (fun s => WEASEL_V2.random_state (WEASEL_V2.hp s)
                                    = Some seed) c)
    end.
    - apply blind_bind; [apply blind_setattr; intros s H; exact H |].
      intros _. apply blind_bind_self_. intros self0 H0 p0 g0. cbv beta.
      rewrite H0.
      apply (blind_Parallel
               (fun s =>
                  WEASEL_V2.random_state (WEASEL_V2.hp s) = Some seed));
        [| exact H0].
      intros i. apply weasel_parallel_fit_seeded.
    - apply (Hrest self p g Hself). }
  intros res. unfold WEASEL_V2.fit_classifier.
  apply blind_bind; [apply blind_setattr; intros s H; exact H | intros _].
  apply blind_bind; [apply blind_lift | intros all_words].
  apply blind_bind; [apply blind_lift | intros fitted].
  apply blind_bind; [apply blind_setattr; intros s H; exact H | intros _].
  apply blind_bind; [apply blind_setattr; intros s H; exact H | intros _].
  destruct (best_score_ fitted);
    [apply blind_setattr; intros s H; exact H | apply blind_ret].
Qed.

End Seeded.

Lemma muse_fit_blind {N : NumPy} {C : Collaborators} (seed : Z) X y :
  generator_blind
    (fun self => MUSE_V2.random_state (MUSE_V2.hp self) = Some seed)
    (MUSE_V2._fit X y).
Proof.
  unfold MUSE_V2._fit.
  apply blind_bind; [apply blind_self_ | intros self].
  apply blind_bind; [apply blind_lift | intros X'].
  apply blind_bind.
  { unfold MUSE_V2.read_dimensions.
    apply blind_bind; [apply blind_self_ | intros s0].
    apply blind_bind; [apply blind_setattr; intros s H; exact H | intros _].
    apply blind_bind; [apply blind_lift | intros bits].
    apply blind_bind; [apply blind_setattr; intros s H; exact H | intros _].
    apply blind_bind.
    - destruct (_ =? _); [apply blind_warn | apply blind_ret].
    - intros _. destruct (_ && _); [apply blind_raise | apply blind_ret]. }
  intros _. apply blind_bind.
  { unfold MUSE_V2.check_windows.
    apply blind_bind; [apply blind_setattr; intros s H; exact H | intros _].
    apply blind_bind; [apply blind_self_ | intros s0].
    apply blind_bind; [apply blind_setattr; intros s H; exact H | intros _].
    apply blind_bind; [apply blind_self_ | intros s1].
    destruct (_ >? _); [apply blind_raise | apply blind_ret]. }
  intros _. apply blind_bind.
  { unfold MUSE_V2.fit_members.
    apply blind_bind_self_. intros s0 Hs0 p g. cbv beta.
    match goal with
    | |- ?c (s0, with_generator g p) = _ /\ _ =>
        assert (Hrest : generator_blind
                          (fun s => MUSE_V2.random_state (MUSE_V2.hp s)
                                    = Some seed) c)
    end.
    - apply blind_bind; [apply blind_setattr; intros s H; exact H |].
      intros _. apply blind_bind_self_. intros s1 H1 p1 g1. cbv beta.
      rewrite H1.
      apply (blind_Parallel
               (fun s => MUSE_V2.random_state (MUSE_V2.hp s) = Some seed));
        [| exact H1].
      intros i. apply muse_parallel_fit_seeded.
    - apply (Hrest s0 p g Hs0). }
  intros res. unfold MUSE_V2.fit_classifier.
  apply blind_bind; [apply blind_setattr; intros s H; exact H | intros _].
  apply blind_bind; [apply blind_lift | intros all_words].
  apply blind_bind; [apply blind_lift | intros fitted].
  apply blind_bind; [apply blind_setattr; intros s H; exact H | intros _].
  apply blind_bind; [apply blind_setattr; intros s H; exact H | intros _].
  destruct (best_score_ fitted);
    [apply blind_setattr; intros s H; exact H | apply blind_ret].
Qed.

(** X4: a fit with an integer [random_state] is reproducible at the level
    of the whole fit. Started from any state [g] of the process-wide
    generator it ends with the same result (returned or raised), the same
    fitted model, the same tasks and warnings, and it leaves the
    process-wide generator in state [g]. *)
Theorem X4_seeded_fit_is_reproducible (N : NumPy) (C : Collaborators)
  (X : np.ndarray3) (y : list label) (p : process) (g : RandomState)
  (seed : Z) :
  (forall self : WEASEL_V2.instance,
     WEASEL_V2.random_state (WEASEL_V2.hp self) = Some seed ->
     let outcome := WEASEL_V2._fit X y (self, p) in
     WEASEL_V2._fit X y (self, with_generator g p) =
     (fst outcome, (fst (snd outcome), with_generator g (snd (snd outcome)))))
  /\
  (forall self : MUSE_V2.instance,
     MUSE_V2.random_state (MUSE_V2.hp self) = Some seed ->
     let outcome := MUSE_V2._fit X y (self, p) in
     MUSE_V2._fit X y (self, with_generator g p) =
     (fst outcome, (fst (snd outcome), with_generator g (snd (snd outcome))))).
Proof.
  split; intros self Hseed outcome.
  - apply (weasel_fit_blind seed X y self p g Hseed).
  - apply (muse_fit_blind seed X y self p g Hseed).
Qed.

(** X4 on the reference implementation: the default univariate pipeline
    with [random_state=5], fitted from generator states 1 and 2. *)
Lemma X4_seeded_fit_is_reproducible_witness :
  let self :=
    WEASEL_V2.__init__ (C := Reference.collaborators) 4 [false] [7; 8]
      [true; false] "chi2_top_k" 30000 (Some 5) 4 in
  let outcome :=
    WEASEL_V2._fit (N := Reference.numpy) (C := Reference.collaborators)
      Reference.one_series ["A"%string] (self, Reference.process_at 1) in
  WEASEL_V2._fit (N := Reference.numpy) (C := Reference.collaborators)
    Reference.one_series ["A"%string] (self, Reference.process_at 2) =
  (fst outcome,
   (fst (snd outcome),
    with_generator (N := Reference.numpy) 2 (snd (snd outcome)))).
Proof.
  cbv zeta.
  exact (proj1 (X4_seeded_fit_is_reproducible Reference.numpy
                  Reference.collaborators Reference.one_series ["A"%string]
                  (Reference.process_at 1) 2 5)
           (WEASEL_V2.__init__ (C := Reference.collaborators) 4 [false]
              [7; 8] [true; false] "chi2_top_k" 30000 (Some 5) 4)
           eq_refl).
Defined.

(* ===================================================================== *)
(** ** The members of a fit that returns, in order                        *)
(* ===================================================================== *)

Lemma arange_In (start stop w : Z) :
  In w (np.arange start stop) -> start <= w < stop.
Proof.
  unfold np.arange. intros H. apply in_map_iff in H.
  destruct H as (k & Hk & Hin). apply in_seq in Hin. lia.
Qed.

Lemma range_length (n : Z) : List.length (Py.range n) = Z.to_nat n.
Proof. unfold Py.range. rewrite length_map, length_seq. reflexivity. Qed.

Section Structure.
Context {N : NumPy} {C : Collaborators}.

Lemma weasel_getSFADilated_rest alphabet_size alphabet_sizes anova bigrams
  binning_strategy dilation ensemble_size feature_selection first_difference
  i lower_bounding max_feature_count n_jobs norm remove_repeat_words sections
  variance window_size word_length tr :
  WEASEL_V2.getSFADilated alphabet_size alphabet_sizes anova bigrams
    binning_strategy dilation ensemble_size feature_selection
    first_difference i lower_bounding max_feature_count n_jobs norm
    remove_repeat_words sections variance window_size word_length = Ok tr ->
  SFA.random_state tr = i /\ SFA.return_sparse tr = false.
Proof.
  unfold WEASEL_V2.getSFADilated.
  destruct (Py.floordiv max_feature_count ensemble_size); [| discriminate].
  intros H. inversion H; subst. split; reflexivity.
Qed.

Lemma weasel_parallel_fit_with_rng_words i X y ws azs wls L nos ufd bss v a b
  lb nj mfc es fs rrw sec (g g' : RandomState) words ts :
  WEASEL_V2._parallel_fit_with_rng i X y ws azs wls L nos ufd bss v a b lb
    nj mfc es fs rrw sec g = (Ok (words, ts), g') ->
  List.length words = List.length ts.
Proof.
  unfold WEASEL_V2._parallel_fit_with_rng. intros H.
  apply bind_Ok in H. destruct H as (c & g1 & _ & H).
  apply bind_Ok in H. destruct H as (fitted & g2 & _ & H).
  inversion H; subst. rewrite !length_map. reflexivity.
Qed.

(** One task of the univariate pipeline that returns: as many feature
    blocks as transformers, one transformer per first-difference option,
    in the order of the options. *)
Lemma weasel_task_Ok i X y lo hi azs wls L nos ufd bss v a b lb nj mfc es fs
  rrw sec random_state (g g' : RandomState) r :
  WEASEL_V2._parallel_fit i X y (np.arange lo (hi + 1)) azs wls L nos ufd bss
    v a b lb nj mfc es fs rrw sec random_state g = (Ok r, g') ->
  List.length (fst r) = List.length (snd r)
  /\ Forall2 (fun fd t => weasel_built lo hi es mfc i fd (params t))
       ufd (snd r).
Proof.
  intros H. apply weasel_parallel_fit_Ok in H. destruct H as (rng & rng' & H).
  destruct r as [words ts]. cbn [fst snd].
  split; [eapply weasel_parallel_fit_with_rng_words; exact H |].
  apply weasel_parallel_fit_with_rng_Ok in H.
  destruct H as (c & g1 & Hc & Hts).
  apply weasel_sample_Ok in Hc.
  destruct Hc as (g2 & u & g3 & d & Hw & _ & Hd & _ & _ & Hwl & _).
  apply choice_Ok in Hw. apply arange_In in Hw.
  eapply Forall2_impl; [| exact Hts].
  intros fd t Hp.
  destruct (weasel_getSFADilated_rest _ _ _ _ _ _ _ _ _ _ _ _ _ _ _ _ _ _ _ _
              Hp) as (Hrs & Hsp).
  apply weasel_getSFADilated_Ok in Hp.
  destruct Hp as (Hcap & Hws & Hdil & _ & Hlen & _ & _ & Hfd).
  unfold weasel_built.
  rewrite Hrs, Hfd, Hsp, Hcap, Hws, Hdil, Hlen, Hwl, Hd.
  repeat split; lia.
Qed.

End Structure.

Section FitStructure.
Context {N : NumPy} {C : Collaborators}.

(** The members of a univariate fit that returns, member by member. *)
Lemma weasel_fit_members_full XX y (self : WEASEL_V2.instance) p res sp1 :
  WEASEL_V2.fit_members XX y (self, p) = (Ok res, sp1) ->
  Forall2 (fun i r =>
    List.length (fst r) = List.length (snd r)
    /\ Forall2 (fun fd t =>
         weasel_built (WEASEL_V2.min_window (WEASEL_V2.hp self))
           (WEASEL_V2.max_window self) (WEASEL_V2.ensemble_size self)
           (WEASEL_V2.max_feature_count (WEASEL_V2.hp self)) i fd (params t))
         (WEASEL_V2.use_first_differences (WEASEL_V2.hp self)) (snd r))
    (Py.range (WEASEL_V2.ensemble_size self)) res.
Proof.
  unfold WEASEL_V2.fit_members, bind, self_, setattr, modify.
  cbn [fst snd]. intros H. apply Parallel_Ok in H. destruct H as [Hr _].
  eapply Forall2_impl; [| exact Hr].
  intros i r (g & g' & Ht). cbn in Ht.
  apply weasel_task_Ok in Ht. exact Ht.
Qed.

(** A classifier step that returns has merged the feature blocks and
    recorded the width of the merged matrix. *)
Lemma weasel_fit_classifier_merged res y (self : WEASEL_V2.instance) p self'
  p' :
  WEASEL_V2.fit_classifier res y (self, p) = (Ok tt, (self', p')) ->
  exists all_words,
    merge (List.concat (map fst res)) = Ok all_words
    /\ WEASEL_V2.total_features_count self' =
       Some (Z.of_nat (np.cols (np.payload all_words))).
Proof.
  unfold WEASEL_V2.fit_classifier, bind, setattr, modify, lift.
  cbn [fst snd].
  destruct (merge (List.concat (map fst res))) as [all_words | e];
    [| discriminate].
  destruct (RidgeClassifierCV_fit (logspace (-1) 5 10) all_words y)
    as [fitted | e]; [| discriminate].
  destruct (best_score_ fitted); intros H; inversion H; subst;
    exists all_words; split; reflexivity.
Qed.

(** What a univariate fit that returns has stored. *)
Lemma weasel_fit_structure X y (self : WEASEL_V2.instance) p self' p' :
  WEASEL_V2._fit X y (self, p) = (Ok tt, (self', p')) ->
  let n := Z.of_nat (np.shape0 X) in
  let L := Z.of_nat (np.shape2 X) in
  exists res all_words,
    WEASEL_V2.SFA_transformers self' =
      (WEASEL_V2.SFA_transformers self ++ List.concat (map snd res))%list
    /\ WEASEL_V2.hp self' = WEASEL_V2.hp self
    /\ merge (List.concat (map fst res)) = Ok all_words
    /\ WEASEL_V2.total_features_count self' =
       Some (Z.of_nat (np.cols (np.payload all_words)))
    /\ Forall2 (fun i r =>
         List.length (fst r) = List.length (snd r)
         /\ Forall2 (fun fd t =>
              weasel_built (WEASEL_V2.min_window (WEASEL_V2.hp self))
                (Z.min L (snd (band n L))) (fst (band n L))
                (WEASEL_V2.max_feature_count (WEASEL_V2.hp self)) i fd
                (params t))
              (WEASEL_V2.use_first_differences (WEASEL_V2.hp self)) (snd r))
         (Py.range (fst (band n L))) res.
Proof.
  intros H n L.
  pose proof (weasel_fit_Ok_univariate _ _ _ _ _ H) as H1.
  rewrite (weasel_fit_prelude X y self p H1) in H. fold n L in H.
  destruct (WEASEL_V2.min_window (WEASEL_V2.hp self) >? _); [discriminate |].
  apply bind_Ok in H. destruct H as (res & [s1 p1] & Hm & Hc).
  pose proof (weasel_fit_members_Ok _ _ _ _ _ _ Hm) as [Hs1 _].
  cbn [fst] in Hs1. subst s1.
  apply weasel_fit_members_full in Hm.
  pose proof (weasel_fit_classifier_Ok _ _ _ _ _ _ Hc) as (Hts & Hhp & _).
  destruct (weasel_fit_classifier_merged _ _ _ _ _ _ Hc)
    as (all_words & Hmerge & Htot).
  exists res, all_words. repeat split; assumption.
Qed.

End FitStructure.

Section MuseStructure.
Context {N : NumPy} {C : Collaborators}.

Lemma muse_new_transformer_fields ind X c v a b nj mfc es fs tr :
  MUSE_V2.new_transformer ind X c v a b nj mfc es fs = Ok tr ->
  SFA.random_state tr = ind
  /\ SFA.window_size tr = MUSE_V2.window_size c
  /\ SFA.word_length tr = MUSE_V2.word_length c
  /\ SFA.dilation tr = MUSE_V2.dilation c
  /\ SFA.alphabet_size tr = MUSE_V2.alphabet_size c
  /\ SFA.norm tr = MUSE_V2.norm c
  /\ SFA.binning_method tr = MUSE_V2.binning_strategy c
  /\ SFA.first_difference tr = MUSE_V2.first_difference c
  /\ SFA.return_sparse tr = false.
Proof.
  unfold MUSE_V2.new_transformer.
  destruct (Py.truediv mfc (es * Z.of_nat (np.shape1 X))) as [q | e];
    [| discriminate].
  destruct (Py.int q) as [cap | e]; [| discriminate].
  intros H. inversion H; subst. cbn. repeat split; reflexivity.
Qed.

Lemma muse_parallel_fit_with_rng_words ind X y ws azs wls nos ufd bss v a b
  nj mfc es fs (g g' : RandomState) words ts :
  MUSE_V2._parallel_fit_with_rng ind X y ws azs wls nos ufd bss v a b nj mfc
    es fs g = (Ok (words, ts), g') ->
  List.length words = List.length ts.
Proof.
  unfold MUSE_V2._parallel_fit_with_rng. intros H.
  apply bind_Ok in H. destruct H as (c & g1 & _ & H).
  apply bind_Ok in H. destruct H as (fitted & g2 & _ & H).
  inversion H; subst. rewrite !length_map. reflexivity.
Qed.

(** One task of the multivariate pipeline that returns. *)
Lemma muse_task_Ok ind X y lo hi azs wls nos ufd bss v a b nj mfc es fs
  random_state (g g' : RandomState) r :
  MUSE_V2._parallel_fit ind X y (np.arange lo (hi + 1)) azs wls nos ufd bss
    v a b nj mfc es fs random_state g = (Ok r, g') ->
  List.length (fst r) = List.length (snd r)
  /\ muse_built lo hi ind (np.shape1 X) (snd r).
Proof.
  intros H. apply muse_parallel_fit_Ok in H. destruct H as (rng & rng' & H).
  destruct r as [words ts]. cbn [fst snd].
  split; [eapply muse_parallel_fit_with_rng_words; exact H |].
  apply muse_parallel_fit_with_rng_Ok in H.
  destruct H as (c & g1 & Hc & Hlen & Hts).
  apply muse_sample_Ok in Hc.
  destruct Hc as (g2 & g3 & u & d & Hw & _ & Hd & _ & _ & Hwl & _ & Hfd & _).
  apply choice_Ok in Hw. apply arange_In in Hw.
  split; [exact Hlen |]. exists c.
  split; [lia |]. split; [rewrite Hwl; lia |]. split; [rewrite Hd; lia |].
  eapply Forall_impl; [| exact Hts].
  intros t Hp. apply muse_new_transformer_fields in Hp.
  rewrite Hfd in Hp. exact Hp.
Qed.

Lemma muse_fit_members_full X y (self : MUSE_V2.instance) p res sp1 :
  MUSE_V2.fit_members X y (self, p) = (Ok res, sp1) ->
  Forall2 (fun ind r =>
    List.length (fst r) = List.length (snd r)
    /\ muse_built (MUSE_V2.min_window (MUSE_V2.hp self))
         (MUSE_V2.max_window self) ind (np.shape1 X) (snd r))
    (Py.range (MUSE_V2.ensemble_size (MUSE_V2.hp self))) res.
Proof.
  unfold MUSE_V2.fit_members, bind, self_, setattr, modify.
  cbn [fst snd]. intros H. apply Parallel_Ok in H. destruct H as [Hr _].
  eapply Forall2_impl; [| exact Hr].
  intros i r (g & g' & Ht). cbn in Ht.
  apply muse_task_Ok in Ht. exact Ht.
Qed.

Lemma muse_fit_classifier_merged res y (self : MUSE_V2.instance) p self' p' :
  MUSE_V2.fit_classifier res y (self, p) = (Ok tt, (self', p')) ->
  MUSE_V2.max_window self' = MUSE_V2.max_window self
  /\ exists all_words,
    merge (List.concat (map fst res)) = Ok all_words
    /\ MUSE_V2.total_features_count self' =
       Z.of_nat (np.cols (np.payload all_words)).
Proof.
  unfold MUSE_V2.fit_classifier, bind, setattr, modify, lift.
  cbn [fst snd].
  destruct (merge (List.concat (map fst res))) as [all_words | e];
    [| discriminate].
  destruct (RidgeClassifierCV_fit (logspace (-3) 3 10) all_words y)
    as [fitted | e]; [| discriminate].
  destruct (best_score_ fitted); intros H; inversion H; subst;
    (split; [reflexivity | exists all_words; split; reflexivity]).
Qed.

Lemma muse_read_dimensions_window X (self : MUSE_V2.instance) p s1 p1 :
  MUSE_V2.read_dimensions X (self, p) = (Ok tt, (s1, p1)) ->
  MUSE_V2.max_window s1 = MUSE_V2.max_window self.
Proof.
  unfold MUSE_V2.read_dimensions, bind, self_, setattr, modify, lift, warn,
    raise, ret.
  cbn [fst snd].
  destruct (MUSE_V2.ceil_log2 (Z.of_nat (np.shape1 X))) as [bits | e];
    [| discriminate].
  destruct (Z.of_nat (np.shape1 X) =? 1);
    destruct (MUSE_V2.variance (MUSE_V2.hp self)
              && MUSE_V2.anova (MUSE_V2.hp self));
    cbn [fst snd]; intros H; inversion H; subst; reflexivity.
Qed.

(** What a multivariate fit that returns has stored. *)
Lemma muse_fit_structure X y (self : MUSE_V2.instance) p self' p' :
  MUSE_V2._fit X y (self, p) = (Ok tt, (self', p')) ->
  let channels :=
    (if MUSE_V2.use_first_differences (MUSE_V2.hp self)
     then 2 * np.shape1 X else np.shape1 X)%nat in
  let mw := Z.min (Z.of_nat (np.shape2 X)) (MUSE_V2.max_window self) in
  MUSE_V2.hp self' = MUSE_V2.hp self
  /\ MUSE_V2.max_window self' = mw
  /\ exists res all_words,
       MUSE_V2.SFA_transformers self' = map snd res
       /\ merge (List.concat (map fst res)) = Ok all_words
       /\ MUSE_V2.total_features_count self' =
          Z.of_nat (np.cols (np.payload all_words))
       /\ Forall2 (fun ind r =>
            List.length (fst r) = List.length (snd r)
            /\ muse_built (MUSE_V2.min_window (MUSE_V2.hp self)) mw ind
                 channels (snd r))
            (Py.range (MUSE_V2.ensemble_size (MUSE_V2.hp self))) res.
Proof.
  intros H channels mw. unfold MUSE_V2._fit in H.
  apply bind_Ok in H. destruct H as (s0 & sp0 & H0 & H).
  unfold self_ in H0. inversion H0; subst s0 sp0; clear H0. cbn [fst] in H.
  apply bind_Ok in H. destruct H as (X' & sp1 & HX & H).
  apply lift_Ok in HX. destruct HX as [HX ->].
  apply bind_Ok in H. destruct H as ([] & [s2 p2] & Hrd & H).
  apply bind_Ok in H. destruct H as ([] & [s3 p3] & Hcw & H).
  apply bind_Ok in H. destruct H as (res & [s4 p4] & Hm & H).
  destruct (muse_with_first_differences
              (MUSE_V2.use_first_differences (MUSE_V2.hp self)) X)
    as (X'' & HX'' & _ & Hc & HL).
  rewrite HX in HX''. inversion HX''; subst X''. fold channels in Hc.
  pose proof (muse_read_dimensions_window _ _ _ _ _ Hrd) as Hw2.
  apply muse_read_dimensions_Ok in Hrd. destruct Hrd as [Hhp2 Hn2].
  rewrite muse_check_windows in Hcw. inversion Hcw; subst s3 p3; clear Hcw.
  pose proof (muse_fit_members_Ok _ _ _ _ _ _ Hm) as [Hs4 _].
  cbn [fst] in Hs4. subst s4.
  apply muse_fit_members_full in Hm.
  destruct (muse_fit_classifier_merged _ _ _ _ _ _ H)
    as (Hmw & all_words & Hmerge & Htot).
  apply muse_fit_classifier_Ok in H. destruct H as (Ht & Hhp & Hn).
  cbn in Hhp, Hmw, Hm. rewrite Hhp2 in Hm. rewrite Hw2, HL, Hc in Hm.
  rewrite Hw2, HL in Hmw.
  split; [rewrite Hhp; exact Hhp2 |]. split; [exact Hmw |].
  exists res, all_words. repeat split; assumption.
Qed.

End MuseStructure.

(* ===================================================================== *)
(** ** What a fit leaves in the model                                     *)
(* ===================================================================== *)

(** X5: a univariate fit that returns appends its transformers to the ones
    already stored, member after member in the order of the member index
    [0 .. ensemble_size - 1] and, within a member, one transformer per entry
    of [use_first_differences] in the order of that list. The transformer of
    member [i] for the option [fd] was built with [random_state = i],
    [first_difference = fd], [return_sparse = False], a window size between
    [min_window] and the band's [max_window] bounded by the series length,
    a word length of at most the window size less two, and a dilation of at
    least one. *)
Theorem X5_weasel_fit_appends_members_in_order (N : NumPy) (C : Collaborators)
  (X : np.ndarray3) (y : list label) (self self' : WEASEL_V2.instance)
  (p p' : process) :
  WEASEL_V2._fit X y (self, p) = (Ok tt, (self', p')) ->
  let n := Z.of_nat (np.shape0 X) in
  let L := Z.of_nat (np.shape2 X) in
  exists groups : list (list transformer),
    WEASEL_V2.SFA_transformers self' =
      (WEASEL_V2.SFA_transformers self ++ List.concat groups)%list
    /\ Forall2 (fun i group =>
         Forall2 (fun fd t =>
           weasel_built (WEASEL_V2.min_window (WEASEL_V2.hp self))
             (Z.min L (snd (band n L))) (fst (band n L))
             (WEASEL_V2.max_feature_count (WEASEL_V2.hp self)) i fd
             (params t))
           (WEASEL_V2.use_first_differences (WEASEL_V2.hp self)) group)
         (Py.range (fst (band n L))) groups.
Proof.
  intros H n L.
  destruct (weasel_fit_structure X y self p self' p' H)
    as (res & all_words & Hts & _ & _ & _ & Hres).
  exists (map snd res). split; [exact Hts |].
  apply Forall2_map_snd.
  eapply Forall2_impl; [| exact Hres].
  intros i r [_ Hr]. exact Hr.
Qed.

(** X5 on the reference implementation: the default univariate pipeline
    fitted on one series of length eight stores fifty groups with windows
    between 4 and 8. *)
Lemma X5_weasel_fit_appends_members_in_order_witness :
  let after :=
    fst (snd (WEASEL_V2._fit (N := Reference.numpy)
                (C := Reference.collaborators) Reference.one_series
                ["A"%string] (WEASEL_V2.default, Reference.process_at 7))) in
  exists groups : list (list transformer),
    WEASEL_V2.SFA_transformers after = List.concat groups
    /\ Forall2 (fun i group =>
         Forall2 (fun fd t => weasel_built 4 8 50 30000 i fd (params t))
           [true; false] group)
         (Py.range 50) groups.
Proof.
  cbv zeta.
  assert (Hok : fst (WEASEL_V2._fit (N := Reference.numpy)
                       (C := Reference.collaborators) Reference.one_series
                       ["A"%string]
                       (WEASEL_V2.default, Reference.process_at 7)) = Ok tt)
    by (vm_compute; reflexivity).
  revert Hok.
  destruct (WEASEL_V2._fit (N := Reference.numpy)
              (C := Reference.collaborators) Reference.one_series
              ["A"%string] (WEASEL_V2.default, Reference.process_at 7))
    as [[[] | e] [self' p']] eqn:E; intros Hok; [| discriminate Hok].
  exact (X5_weasel_fit_appends_members_in_order Reference.numpy
           Reference.collaborators _ _ _ _ _ _ E).
Defined.

(** X6: a multivariate fit that returns replaces the stored transformers by
    one member per index [0 .. ensemble_size - 1], in that order. Member
    [ind] holds one transformer per channel of the series as augmented
    (twice the input's channels when [use_first_differences] is set), all
    built from one sampled configuration: the same window size, between
    [min_window] and [max_window] bounded by the series length, the same
    word length, at most the window size less two, the same dilation, at
    least one, [random_state = ind], no differencing and dense output. *)
Theorem X6_muse_fit_keeps_one_member_per_index (N : NumPy) (C : Collaborators)
  (X : np.ndarray3) (y : list label) (self self' : MUSE_V2.instance)
  (p p' : process) :
  MUSE_V2._fit X y (self, p) = (Ok tt, (self', p')) ->
  let channels :=
    (if MUSE_V2.use_first_differences (MUSE_V2.hp self)
     then 2 * np.shape1 X else np.shape1 X)%nat in
  let mw := Z.min (Z.of_nat (np.shape2 X)) (MUSE_V2.max_window self) in
  Forall2 (fun ind member =>
    muse_built (MUSE_V2.min_window (MUSE_V2.hp self)) mw ind channels member)
    (Py.range (MUSE_V2.ensemble_size (MUSE_V2.hp self)))
    (MUSE_V2.SFA_transformers self').
Proof.
  intros H channels mw.
  destruct (muse_fit_structure X y self p self' p' H)
    as (_ & _ & res & all_words & Hts & _ & _ & Hres).
  rewrite Hts. apply Forall2_map_snd.
  eapply Forall2_impl; [| exact Hres].
  intros i r [_ Hr]. exact Hr.
Qed.

(** X6 on the reference implementation: the default multivariate pipeline
    fitted on one univariate series keeps sixty members of two
    transformers each. *)
Lemma X6_muse_fit_keeps_one_member_per_index_witness :
  let after :=
    fst (snd (MUSE_V2._fit (N := Reference.numpy)
                (C := Reference.collaborators) Reference.one_series
                ["A"%string] (MUSE_V2.default, Reference.process_at 7))) in
  Forall2 (fun ind member => muse_built 4 8 ind 2 member)
    (Py.range 60) (MUSE_V2.SFA_transformers after).
Proof.
  cbv zeta.
  assert (Hok : fst (MUSE_V2._fit (N := Reference.numpy)
                       (C := Reference.collaborators) Reference.one_series
                       ["A"%string]
                       (MUSE_V2.default, Reference.process_at 7)) = Ok tt)
    by (vm_compute; reflexivity).
  revert Hok.
  destruct (MUSE_V2._fit (N := Reference.numpy)
              (C := Reference.collaborators) Reference.one_series
              ["A"%string] (MUSE_V2.default, Reference.process_at 7))
    as [[[] | e] [self' p']] eqn:E; intros Hok; [| discriminate Hok].
  exact (X6_muse_fit_keeps_one_member_per_index Reference.numpy
           Reference.collaborators _ _ _ _ _ _ E).
Defined.

Lemma Forall2_concat_length {A B : Type} (n : nat) (xs : list A)
  (groups : list (list B)) :
  Forall2 (fun _ group => List.length group = n) xs groups ->
  List.length (List.concat groups) = (List.length xs * n)%nat.
Proof.
  induction 1 as [| x group xs groups Hn _ IH]; [reflexivity |].
  cbn [List.concat List.length]. rewrite length_app, Hn, IH. lia.
Qed.

Lemma feature_budget_uniform {C : Collaborators} (cap : Z)
  (ts : list transformer) :
  Forall (fun t => SFA.max_feature_count (params t) = cap) ts ->
  feature_budget ts = Z.of_nat (List.length ts) * cap.
Proof.
  induction 1 as [| t ts Ht _ IH]; [reflexivity |].
  cbn [feature_budget fold_right List.length].
  fold (feature_budget ts). rewrite IH, Ht. lia.
Qed.

Section Accumulation.
Context {N : NumPy} {C : Collaborators}.

(** Whatever its outcome, the univariate [_fit] leaves the transformers
    stored before the call at the front of the list. *)
Lemma weasel_fit_keeps_prefix (old : list transformer) X y :
  preserves (fun sp : WEASEL_V2.instance * process =>
               exists extra,
                 WEASEL_V2.SFA_transformers (fst sp) = (old ++ extra)%list)
    (WEASEL_V2._fit X y).
Proof.
  set (J := fun s : WEASEL_V2.instance =>
              exists extra, WEASEL_V2.SFA_transformers s = (old ++ extra)%list).
  change (preserves (fun sp : WEASEL_V2.instance * process => J (fst sp))
            (WEASEL_V2._fit X y)).
  assert (Hsame : forall f : WEASEL_V2.instance -> WEASEL_V2.instance,
             (forall s, WEASEL_V2.SFA_transformers (f s) =
                        WEASEL_V2.SFA_transformers s) ->
             forall s, J s -> J (f s)).
  { intros f Hf s [extra Hs]. exists extra. rewrite Hf. exact Hs. }
  unfold WEASEL_V2._fit.
  apply preserves_bind;
    [apply preserves_setattr_self, Hsame; reflexivity | intros _].
  apply preserves_bind;
    [apply preserves_setattr_self, Hsame; reflexivity | intros _].
  apply preserves_bind; [apply preserves_lift | intros XX].
  apply preserves_bind.
  { intros [s q] [extra Hs]. rewrite weasel_choose_band.
    exists extra. exact Hs. }
  intros _. apply preserves_bind.
  { intros [s q] [extra Hs]. rewrite weasel_check_windows.
    exists extra. exact Hs. }
  intros _. apply preserves_bind.
  { apply weasel_fit_members_keeps. intros v. apply Hsame. reflexivity. }
  intros res. unfold WEASEL_V2.fit_classifier.
  apply preserves_bind.
  { apply preserves_setattr_self. intros s [extra Hs].
    exists (extra ++ List.concat (map snd res))%list.
    cbn. rewrite Hs, app_assoc. reflexivity. }
  intros _.
  apply preserves_bind; [apply preserves_lift | intros all_words].
  apply preserves_bind; [apply preserves_lift | intros fitted].
  apply preserves_bind;
    [apply preserves_setattr_self, Hsame; reflexivity | intros _].
  apply preserves_bind;
    [apply preserves_setattr_self, Hsame; reflexivity | intros _].
  destruct (best_score_ fitted).
  - apply preserves_setattr_self, Hsame. reflexivity.
  - apply preserves_ret.
Qed.

(** The transformers a univariate fit that returns has added: their
    number and their common feature cap. *)
Lemma weasel_fit_added X y (self : WEASEL_V2.instance) p self' p' :
  WEASEL_V2._fit X y (self, p) = (Ok tt, (self', p')) ->
  let e := fst (band (Z.of_nat (np.shape0 X)) (Z.of_nat (np.shape2 X))) in
  exists new,
    WEASEL_V2.SFA_transformers self' =
      (WEASEL_V2.SFA_transformers self ++ new)%list
    /\ List.length new =
       (Z.to_nat e
        * List.length (WEASEL_V2.use_first_differences (WEASEL_V2.hp self)))%nat
    /\ Forall (fun t =>
         SFA.max_feature_count (params t) =
         WEASEL_V2.max_feature_count (WEASEL_V2.hp self) / e) new.
Proof.
  intros H e.
  destruct (weasel_fit_structure X y self p self' p' H)
    as (res & all_words & Hts & _ & _ & _ & Hres).
  fold e in Hres.
  exists (List.concat (map snd res)). split; [exact Hts |]. split.
  - rewrite (Forall2_concat_length
               (List.length (WEASEL_V2.use_first_differences
                               (WEASEL_V2.hp self)))
               (Py.range e) (map snd res)).
    + rewrite range_length. reflexivity.
    + apply Forall2_map_snd. eapply Forall2_impl; [| exact Hres].
      intros i r [_ Hr]. symmetry. eapply Forall2_length. exact Hr.
  - apply Forall_concat. apply Forall_map.
    apply (Forall2_Forall_r _ (Py.range e)).
    eapply Forall2_impl; [| exact Hres].
    intros i r [_ Hr].
    apply (Forall2_Forall_r _ (WEASEL_V2.use_first_differences
                                 (WEASEL_V2.hp self))).
    eapply Forall2_impl; [| exact Hr].
    intros fd t Hb. apply Hb.
Qed.

End Accumulation.

(** X7: the univariate [_fit] never drops a stored transformer. Whatever
    its outcome, the transformers stored before the call are a prefix of
    the ones stored after it; when it returns, it has added exactly
    [ensemble_size * len(use_first_differences)] transformers, the ensemble
    size being the band's. Calling [_fit] again on the same object
    therefore accumulates transformers. *)
Theorem X7_weasel_fit_never_drops_transformers (N : NumPy)
  (C : Collaborators) (X : np.ndarray3) (y : list label)
  (self : WEASEL_V2.instance) (p : process) :
  let outcome := WEASEL_V2._fit X y (self, p) in
  let e := fst (band (Z.of_nat (np.shape0 X)) (Z.of_nat (np.shape2 X))) in
  exists extra,
    WEASEL_V2.SFA_transformers (fst (snd outcome)) =
      (WEASEL_V2.SFA_transformers self ++ extra)%list
    /\ (fst outcome = Ok tt ->
        List.length extra =
        (Z.to_nat e
         * List.length
             (WEASEL_V2.use_first_differences (WEASEL_V2.hp self)))%nat).
Proof.
  intros outcome e. unfold outcome.
  destruct (weasel_fit_keeps_prefix (WEASEL_V2.SFA_transformers self) X y
              (self, p)) as [extra Hextra].
  { exists []. cbn [fst]. rewrite app_nil_r. reflexivity. }
  exists extra. split; [exact Hextra |].
  destruct (WEASEL_V2._fit X y (self, p)) as [[[] | err] [self' p']] eqn:E;
    cbn [fst snd] in *; [| discriminate].
  intros _.
  destruct (weasel_fit_added X y self p self' p' E) as (new & Hnew & Hlen & _).
  rewrite Hnew in Hextra. apply app_inv_head in Hextra. subst extra.
  exact Hlen.
Qed.

(** X7 on the reference implementation: the default univariate pipeline
    leaves one hundred transformers in a fresh model. *)
Lemma X7_weasel_fit_never_drops_transformers_witness :
  let outcome :=
    WEASEL_V2._fit (N := Reference.numpy) (C := Reference.collaborators)
      Reference.one_series ["A"%string]
      (WEASEL_V2.default, Reference.process_at 7) in
  exists extra,
    WEASEL_V2.SFA_transformers (fst (snd outcome)) = extra
    /\ List.length extra = 100%nat.
Proof.
  cbv zeta.
  assert (Hok : fst (WEASEL_V2._fit (N := Reference.numpy)
                       (C := Reference.collaborators) Reference.one_series
                       ["A"%string]
                       (WEASEL_V2.default, Reference.process_at 7)) = Ok tt)
    by (vm_compute; reflexivity).
  destruct (X7_weasel_fit_never_drops_transformers Reference.numpy
              Reference.collaborators Reference.one_series ["A"%string]
              WEASEL_V2.default (Reference.process_at 7))
    as (extra & Hextra & Hlen).
  exists extra. split; [exact Hextra | exact (Hlen Hok)].
Defined.

(** X8: the feature caps of the transformers one univariate fit adds sum
    to [len(use_first_differences) * ensemble_size * (max_feature_count //
    ensemble_size)], the ensemble size being the band's. With two or more
    first-difference options (the default has two) and [max_feature_count]
    at least twice the ensemble size, the summed caps exceed
    [max_feature_count]. *)
Theorem X8_weasel_caps_sum_per_option (N : NumPy) (C : Collaborators)
  (X : np.ndarray3) (y : list label) (self self' : WEASEL_V2.instance)
  (p p' : process) :
  WEASEL_V2._fit X y (self, p) = (Ok tt, (self', p')) ->
  let e := fst (band (Z.of_nat (np.shape0 X)) (Z.of_nat (np.shape2 X))) in
  let options :=
    List.length (WEASEL_V2.use_first_differences (WEASEL_V2.hp self)) in
  let mfc := WEASEL_V2.max_feature_count (WEASEL_V2.hp self) in
  exists new,
    WEASEL_V2.SFA_transformers self' =
      (WEASEL_V2.SFA_transformers self ++ new)%list
    /\ feature_budget new = Z.of_nat options * (e * (mfc / e))
    /\ ((2 <= options)%nat -> 2 * e <= mfc -> mfc < feature_budget new).
Proof.
  intros H e options mfc.
  destruct (weasel_fit_added X y self p self' p' H)
    as (new & Hnew & Hlen & Hcap).
  fold e options mfc in Hlen, Hcap.
  exists new. split; [exact Hnew |].
  assert (He : 0 < e).
  { unfold e, band.
    destruct (_ <? 250); [cbn; lia |]. destruct (_ <? 100); cbn; lia. }
  assert (Hsum : feature_budget new = Z.of_nat options * (e * (mfc / e))).
  { rewrite (feature_budget_uniform _ _ Hcap), Hlen. nia. }
  split; [exact Hsum |].
  intros Hopt Hmfc. rewrite Hsum.
  pose proof (Z.mul_div_le mfc e He) as Hle.
  pose proof (Z.mod_pos_bound mfc e He) as Hmod.
  pose proof (Z.div_mod mfc e ltac:(lia)) as Hdm.
  nia.
Qed.

(** X8 on the reference implementation: the default univariate pipeline
    (two options, fifty members, [max_feature_count = 30000]) adds
    transformers whose caps sum to 60000. *)
Lemma X8_weasel_caps_sum_per_option_witness :
  let after :=
    fst (snd (WEASEL_V2._fit (N := Reference.numpy)
                (C := Reference.collaborators) Reference.one_series
                ["A"%string] (WEASEL_V2.default, Reference.process_at 7))) in
  exists new,
    WEASEL_V2.SFA_transformers after = new
    /\ feature_budget new = 60000
    /\ 30000 < feature_budget new.
Proof.
  cbv zeta.
  assert (Hok : fst (WEASEL_V2._fit (N := Reference.numpy)
                       (C := Reference.collaborators) Reference.one_series
                       ["A"%string]
                       (WEASEL_V2.default, Reference.process_at 7)) = Ok tt)
    by (vm_compute; reflexivity).
  revert Hok.
  destruct (WEASEL_V2._fit (N := Reference.numpy)
              (C := Reference.collaborators) Reference.one_series
              ["A"%string] (WEASEL_V2.default, Reference.process_at 7))
    as [[[] | e] [self' p']] eqn:E; intros Hok; [| discriminate Hok].
  destruct (X8_weasel_caps_sum_per_option Reference.numpy
              Reference.collaborators _ _ _ _ _ _ E)
    as (new & Hnew & Hsum & Hmore).
  exists new. split; [exact Hnew |]. split; [exact Hsum |].
  apply Hmore; [cbn; lia | cbn; lia].
Defined.

(* ===================================================================== *)
(** ** The window bound of the multivariate pipeline across fits         *)
(* ===================================================================== *)

Section MuseKeeps.
Context {N : NumPy} {C : Collaborators}.
Variable J : MUSE_V2.instance -> Prop.

Lemma muse_read_dimensions_keeps X :
  (forall v s, J s -> J (MUSE_V2.set_n_dims v s)) ->
  (forall v s, J s -> J (MUSE_V2.set_highest_dim_bit v s)) ->
  preserves (fun sp : MUSE_V2.instance * process => J (fst sp))
    (MUSE_V2.read_dimensions X).
Proof.
  intros Hn Hb. unfold MUSE_V2.read_dimensions.
  apply preserves_bind; [apply preserves_self_ | intros s1].
  apply preserves_bind;
    [apply preserves_setattr_self; intros s; apply Hn | intros _].
  apply preserves_bind; [apply preserves_lift | intros bits].
  apply preserves_bind;
    [apply preserves_setattr_self; intros s; apply Hb | intros _].
  apply preserves_bind.
  - destruct (_ =? 1); [apply preserves_warn_self | apply preserves_ret].
  - intros _. destruct (_ && _); [apply preserves_raise | apply preserves_ret].
Qed.

Lemma muse_fit_members_keeps X y :
  (forall v s, J s -> J (MUSE_V2.set_window_sizes v s)) ->
  preserves (fun sp : MUSE_V2.instance * process => J (fst sp))
    (MUSE_V2.fit_members X y).
Proof.
  intros Hw. unfold MUSE_V2.fit_members.
  apply preserves_bind; [apply preserves_self_ | intros s1].
  apply preserves_bind;
    [apply preserves_setattr_self; intros s; apply Hw | intros _].
  apply preserves_bind; [apply preserves_self_ | intros s2].
  apply preserves_Parallel_self.
Qed.

Lemma muse_fit_classifier_keeps res y :
  (forall v s, J s -> J (MUSE_V2.set_SFA_transformers v s)) ->
  (forall v s, J s -> J (MUSE_V2.set_clf v s)) ->
  (forall v s, J s -> J (MUSE_V2.set_total_features_count v s)) ->
  (forall v s, J s -> J (MUSE_V2.set_cross_val_score v s)) ->
  preserves (fun sp : MUSE_V2.instance * process => J (fst sp))
    (MUSE_V2.fit_classifier res y).
Proof.
  intros Ht Hc Hn Hs. unfold MUSE_V2.fit_classifier.
  apply preserves_bind;
    [apply preserves_setattr_self; intros s; apply Ht | intros _].
  apply preserves_bind; [apply preserves_lift | intros all_words].
  apply preserves_bind; [apply preserves_lift | intros fitted].
  apply preserves_bind;
    [apply preserves_setattr_self; intros s; apply Hc | intros _].
  apply preserves_bind;
    [apply preserves_setattr_self; intros s; apply Hn | intros _].
  destruct (best_score_ fitted).
  - apply preserves_setattr_self; intros s; apply Hs.
  - apply preserves_ret.
Qed.

End MuseKeeps.

Section MuseWindow.
Context {N : NumPy} {C : Collaborators}.

(** Whatever its outcome, the multivariate [_fit] leaves [max_window] at
    most where it was. *)
Lemma muse_fit_window_bounded (m : Z) X y :
  preserves (fun sp : MUSE_V2.instance * process =>
               MUSE_V2.max_window (fst sp) <= m)
    (MUSE_V2._fit X y).
Proof.
  set (J := fun s : MUSE_V2.instance => MUSE_V2.max_window s <= m).
  change (preserves (fun sp : MUSE_V2.instance * process => J (fst sp))
            (MUSE_V2._fit X y)).
  unfold MUSE_V2._fit.
  apply preserves_bind; [apply preserves_self_ | intros s0].
  apply preserves_bind; [apply preserves_lift | intros X'].
  apply preserves_bind.
  { apply muse_read_dimensions_keeps; intros v s Hs; exact Hs. }
  intros _. apply preserves_bind.
  { intros [s q] Hs. rewrite muse_check_windows.
    unfold J in *. cbn in *. lia. }
  intros _. apply preserves_bind.
  { apply muse_fit_members_keeps; intros v s Hs; exact Hs. }
  intros res. apply muse_fit_classifier_keeps; intros v s Hs; exact Hs.
Qed.

End MuseWindow.

(** X9: the multivariate [_fit] only ever lowers [max_window]. Whatever
    the outcome of a fit, [max_window] is afterwards at most what it was;
    after a fit that returns it is the smaller of the series length and its
    earlier value. [_fit] never resets the bound: after [_fit] on series
    of length [L1] and then [_fit] on series of length [L2], the same
    object draws its windows up to [min(L2, L1, max_window)]. *)
Theorem X9_muse_max_window_only_shrinks (N : NumPy) (C : Collaborators)
  (X : np.ndarray3) (y : list label) (self : MUSE_V2.instance)
  (p : process) :
  let outcome := MUSE_V2._fit X y (self, p) in
  let after := fst (snd outcome) in
  MUSE_V2.max_window after <= MUSE_V2.max_window self
  /\ (fst outcome = Ok tt ->
      MUSE_V2.max_window after =
        Z.min (Z.of_nat (np.shape2 X)) (MUSE_V2.max_window self)
      /\ forall X2 y2 self2 p2,
           MUSE_V2._fit X2 y2 (after, snd (snd outcome)) = (Ok tt, (self2, p2)) ->
           MUSE_V2.max_window self2 =
             Z.min (Z.of_nat (np.shape2 X2))
               (Z.min (Z.of_nat (np.shape2 X)) (MUSE_V2.max_window self))).
Proof.
  intros outcome after. split.
  - apply (muse_fit_window_bounded (MUSE_V2.max_window self) X y (self, p)).
    cbn [fst]. lia.
  - unfold after, outcome.
    destruct (MUSE_V2._fit X y (self, p)) as [[[] | err] [self1 p1]] eqn:E;
      cbn [fst snd]; [| discriminate].
    intros _.
    destruct (muse_fit_structure X y self p self1 p1 E) as (_ & Hmw & _).
    split; [exact Hmw |].
    intros X2 y2 self2 p2 E2.
    destruct (muse_fit_structure X2 y2 self1 p1 self2 p2 E2) as (_ & Hmw2 & _).
    rewrite Hmw2, Hmw. reflexivity.
Qed.

(** X9 on the reference implementation: the default multivariate pipeline
    fitted on series of length eight is left with [max_window = 8]. *)
Lemma X9_muse_max_window_only_shrinks_witness :
  MUSE_V2.max_window
    (fst (snd (MUSE_V2._fit (N := Reference.numpy)
                 (C := Reference.collaborators) Reference.one_series
                 ["A"%string] (MUSE_V2.default, Reference.process_at 7)))) = 8.
Proof.
  assert (Hok : fst (MUSE_V2._fit (N := Reference.numpy)
                       (C := Reference.collaborators) Reference.one_series
                       ["A"%string]
                       (MUSE_V2.default, Reference.process_at 7)) = Ok tt)
    by (vm_compute; reflexivity).
  exact (proj1 (proj2 (X9_muse_max_window_only_shrinks Reference.numpy
                         Reference.collaborators Reference.one_series
                         ["A"%string] MUSE_V2.default
                         (Reference.process_at 7)) Hok)).
Defined.

(* ===================================================================== *)
(** ** Channels and transformers at inference                             *)
(* ===================================================================== *)

Section Loops.
Context {S : Type}.

Lemma for_each_ext {A B} (body body' : A -> M S B) (xs : list A) (s : S) :
  (forall x s1, In x xs -> body x s1 = body' x s1) ->
  for_each xs body s = for_each xs body' s.
Proof.
  revert s. induction xs as [| x rest IH]; intros s H; [reflexivity |].
  cbn [for_each]. unfold bind.
  rewrite (H x s (or_introl eq_refl)).
  destruct (body' x s) as [[b | e] s1]; [| reflexivity].
  rewrite IH; [reflexivity |].
  intros x' s' Hin. apply H. right. exact Hin.
Qed.

(** A loop whose first iterations return without touching the store, and
    whose next iteration raises, raises that exception. *)
Lemma for_each_raises_at {A B} (body : A -> M S B) (pre post : list A)
  (x : A) (e : exn) (s : S) :
  (forall a, In a pre -> exists b, body a s = (Ok b, s)) ->
  body x s = (Raise e, s) ->
  for_each (pre ++ x :: post) body s = (Raise e, s).
Proof.
  intros Hpre Hx. induction pre as [| a pre IH]; cbn [app for_each].
  - unfold bind. rewrite Hx. reflexivity.
  - unfold bind at 1. destruct (Hpre a (or_introl eq_refl)) as [b Hb].
    rewrite Hb. unfold bind at 1. rewrite IH; [reflexivity |].
    intros a' Hin. apply Hpre. right. exact Hin.
Qed.

(** A loop with an iteration that raises from every store does not
    return. *)
Lemma for_each_not_Ok {A B} (body : A -> M S B) (xs : list A) (x : A) :
  In x xs ->
  (forall s b s', body x s <> (Ok b, s')) ->
  forall s bs s', for_each xs body s <> (Ok bs, s').
Proof.
  intros Hin Hx s bs s' E. apply for_each_Ok in E.
  revert bs E. induction xs as [| a rest IH]; intros bs E; [contradiction |].
  inversion E as [| a' b rest' bs' Ha Hrest]; subst.
  destruct Ha as (s1 & s2 & Hb).
  destruct Hin as [-> | Hin].
  - exact (Hx _ _ _ Hb).
  - exact (IH Hin _ Hrest).
Qed.

End Loops.

Section Channels.
Context {C : Collaborators}.

Lemma getitem_nth {A} (xs : list A) (k : nat) :
  Py.getitem xs (Z.of_nat k) =
  match nth_error xs k with
  | Some x => Ok x
  | None => Raise (IndexError "index out of range")
  end.
Proof.
  unfold Py.getitem.
  destruct (Z.ltb_spec (Z.of_nat k) 0) as [Hneg | _]; [lia |].
  rewrite Nat2Z.id. reflexivity.
Qed.

Lemma parallel_transform_words_Ok (X : np.ndarray3) (ts : list transformer)
  (blocks : list np.block) :
  MUSE_V2._parallel_transform_words X ts = Ok blocks ->
  Forall2 (fun dim b =>
    exists t,
      nth_error ts dim = Some t
      /\ transform (params t) (learned t) (np.channel X dim) = Ok b)
    (seq 0 (np.shape1 X)) blocks.
Proof.
  unfold MUSE_V2._parallel_transform_words. intros H.
  destruct (for_each _ _ tt) as [r []] eqn:E. cbn [fst] in H. subst r.
  apply for_each_Ok in E.
  eapply Forall2_impl; [| exact E].
  intros dim b ([] & [] & Hb).
  apply bind_Ok in Hb. destruct Hb as (t & [] & Ht & Hb).
  apply lift_Ok in Ht. destruct Ht as [Ht _].
  apply lift_Ok in Hb. destruct Hb as [Hb _].
  rewrite getitem_nth in Ht.
  destruct (nth_error ts dim) as [t' |] eqn:Hn; [| discriminate].
  inversion Ht; subst t'. exists t. split; [reflexivity | exact Hb].
Qed.

End Channels.

(** X10: [_parallel_transform_words] pairs the channels of the series with
    the transformers of one ensemble member by position. When it returns,
    it returns one block per channel, the block of channel [dim] being what
    transformer [dim] of the member makes of that channel. With fewer
    transformers than channels it never returns, and raises IndexError
    when the transformers that exist return; with more transformers than
    channels the surplus is ignored without an error. *)
Theorem X10_channels_meet_transformers_by_position (C : Collaborators)
  (X : np.ndarray3) (ts : list transformer) :
  (forall blocks,
     MUSE_V2._parallel_transform_words X ts = Ok blocks ->
     Forall2 (fun dim b =>
       exists t,
         nth_error ts dim = Some t
         /\ transform (params t) (learned t) (np.channel X dim) = Ok b)
       (seq 0 (np.shape1 X)) blocks)
  /\ ((List.length ts < np.shape1 X)%nat ->
      (forall blocks, MUSE_V2._parallel_transform_words X ts <> Ok blocks)
      /\ ((forall dim t,
             nth_error ts dim = Some t ->
             exists b,
               transform (params t) (learned t) (np.channel X dim) = Ok b) ->
          MUSE_V2._parallel_transform_words X ts =
          Raise (IndexError "index out of range")))
  /\ ((np.shape1 X <= List.length ts)%nat ->
      forall surplus,
        MUSE_V2._parallel_transform_words X (ts ++ surplus) =
        MUSE_V2._parallel_transform_words X ts).
Proof.
  split; [| split].
  - apply parallel_transform_words_Ok.
  - intros Hlt. split.
    + intros blocks H. apply parallel_transform_words_Ok in H.
      assert (Hin : In (List.length ts) (seq 0 (np.shape1 X)))
        by (apply in_seq; lia).
      revert blocks H Hin. generalize (seq 0 (np.shape1 X)) as dims.
      induction dims as [| d dims IH]; intros blocks H Hin; [contradiction |].
      inversion H as [| d' b dims' blocks' Hd Hrest]; subst.
      destruct Hd as (t & Hn & _).
      destruct Hin as [-> | Hin].
      * rewrite (proj2 (nth_error_None ts (List.length ts)) (le_n _)) in Hn.
        discriminate Hn.
      * exact (IH _ Hrest Hin).
    + intros Hall. unfold MUSE_V2._parallel_transform_words.
      replace (seq 0 (np.shape1 X))
        with (seq 0 (List.length ts)
              ++ List.length ts
                 :: seq (S (List.length ts))
                      (np.shape1 X - S (List.length ts)))%list.
      * rewrite (for_each_raises_at _ _ _ _
                   (IndexError "index out of range") tt); [reflexivity | |].
        -- intros dim Hin. apply in_seq in Hin.
           unfold bind, lift. rewrite getitem_nth.
           destruct (nth_error ts dim) as [t |] eqn:Hn.
           ++ destruct (Hall dim t Hn) as [b Hb]. rewrite Hb.
              exists b. reflexivity.
           ++ apply nth_error_None in Hn. lia.
        -- unfold bind, lift. rewrite getitem_nth.
           rewrite (proj2 (nth_error_None ts (List.length ts)) (le_n _)).
           reflexivity.
      * change (List.length ts
                :: seq (S (List.length ts))
                     (np.shape1 X - S (List.length ts)))
          with (seq (List.length ts) (S (np.shape1 X - S (List.length ts)))).
        rewrite <- (Nat.add_0_l (List.length ts)) at 2.
        rewrite <- seq_app. f_equal. lia.
  - intros Hle surplus. unfold MUSE_V2._parallel_transform_words.
    f_equal. apply for_each_ext.
    intros dim [] Hin. apply in_seq in Hin.
    unfold bind, lift. rewrite !getitem_nth.
    rewrite nth_error_app1 by lia. reflexivity.
Qed.

(** X10 on the reference implementation: two channels meet a member of
    one transformer. *)
Lemma X10_channels_meet_transformers_by_position_witness :
  MUSE_V2._parallel_transform_words (C := Reference.collaborators)
    (np.array3 [[[1; 2; 3]; [4; 5; 6]]]%float)
    [@Build_transformer Reference.collaborators Reference.one_transformer
       2%nat] =
  Raise (IndexError "index out of range").
Proof.
  apply (proj1 (proj2 (X10_channels_meet_transformers_by_position
                         Reference.collaborators
                         (np.array3 [[[1; 2; 3]; [4; 5; 6]]]%float)
                         [@Build_transformer Reference.collaborators
                            Reference.one_transformer 2%nat]))).
  - cbn. lia.
  - intros dim t _. eexists. reflexivity.
Defined.

(* ===================================================================== *)
(** ** Inference on a model without transformers, and other edge inputs  *)
(* ===================================================================== *)

Section Unfitted.
Context {N : NumPy} {C : Collaborators}.



Lemma weasel_fit_refuses_channels X y (self : WEASEL_V2.instance)
  (p : process) :
  np.shape1 X <> 1%nat ->
  WEASEL_V2._fit X y (self, p) =
  (Raise (ValueError
     "cannot select an axis to squeeze out which has size not equal to one"),
   (WEASEL_V2.set_series_length (Z.of_nat (np.shape2 X))
      (WEASEL_V2.set_n_instances (Z.of_nat (np.shape0 X)) self), p)).
Proof.
  intros H1.
  unfold WEASEL_V2._fit, np.squeeze1, bind, lift, setattr, modify.
  cbn [fst snd].
  destruct (Nat.eqb_spec (np.shape1 X) 1) as [E | _]; [contradiction |].
  reflexivity.
Qed.

Lemma weasel_transform_refuses_channels X (self : WEASEL_V2.instance)
  (p : process) :
  np.shape1 X <> 1%nat ->
  WEASEL_V2._transform_words X (self, p) =
  (Raise (ValueError
     "cannot select an axis to squeeze out which has size not equal to one"),
   (self, p)).
Proof.
  intros H1. unfold WEASEL_V2._transform_words, np.squeeze1, bind, lift.
  destruct (Nat.eqb_spec (np.shape1 X) 1) as [E | _]; [contradiction |].
  reflexivity.
Qed.

End Unfitted.



(** X12: the univariate pipeline accepts series with exactly one channel.
    On any other channel count [_fit] raises the ValueError of
    [X.squeeze(1)] after it has overwritten [n_instances] and
    [series_length] and before anything else: the band, the window bound
    and the stored transformers are as before, no task is submitted and the
    process-wide generator is not advanced. [_transform_words], [_predict]
    and [_predict_proba] raise the same error. *)
Theorem X12_univariate_pipeline_refuses_other_channel_counts
  (N : NumPy) (C : Collaborators) (X : np.ndarray3) (y : list label)
  (self : WEASEL_V2.instance) (p : process) :
  np.shape1 X <> 1%nat ->
  let refusal :=
    ValueError
      "cannot select an axis to squeeze out which has size not equal to one"
  in
  WEASEL_V2._fit X y (self, p) =
    (Raise refusal,
     (WEASEL_V2.set_series_length (Z.of_nat (np.shape2 X))
        (WEASEL_V2.set_n_instances (Z.of_nat (np.shape0 X)) self), p))
  /\ WEASEL_V2.ensemble_size (fst (snd (WEASEL_V2._fit X y (self, p)))) =
     WEASEL_V2.ensemble_size self
  /\ WEASEL_V2.max_window (fst (snd (WEASEL_V2._fit X y (self, p)))) =
     WEASEL_V2.max_window self
  /\ WEASEL_V2.SFA_transformers (fst (snd (WEASEL_V2._fit X y (self, p)))) =
     WEASEL_V2.SFA_transformers self
  /\ fst (WEASEL_V2._transform_words X (self, p)) = Raise refusal
  /\ fst (WEASEL_V2._predict X (self, p)) = Raise refusal
  /\ fst (WEASEL_V2._predict_proba X (self, p)) = Raise refusal.
Proof.
  intros H1 refusal.
  rewrite (weasel_fit_refuses_channels X y self p H1).
  pose proof (weasel_transform_refuses_channels X self p H1) as H.
  unfold WEASEL_V2._predict, WEASEL_V2._predict_proba, bind.
  rewrite H. repeat split; reflexivity.
Qed.

(** X12 on a training set with two channels. *)
Lemma X12_univariate_pipeline_refuses_other_channel_counts_witness :
  let X := np.array3 [[[1; 2; 3]; [4; 5; 6]]]%float in
  fst (WEASEL_V2._fit (N := Reference.numpy) (C := Reference.collaborators)
         X ["A"%string] (WEASEL_V2.default, Reference.process_at 7)) =
  Raise (ValueError
    "cannot select an axis to squeeze out which has size not equal to one").
Proof.
  cbv zeta.
  rewrite (proj1 (X12_univariate_pipeline_refuses_other_channel_counts
                    Reference.numpy Reference.collaborators
                    (np.array3 [[[1; 2; 3]; [4; 5; 6]]]%float) ["A"%string]
                    WEASEL_V2.default (Reference.process_at 7)
                    ltac:(cbn; discriminate))).
  reflexivity.
Defined.

(** X13: a fit that returns was not degenerate. The univariate [_fit]
    returns only when [use_first_differences] lists at least one option;
    the multivariate [_fit] returns only with an ensemble of at least one
    member and series with at least one channel. Otherwise there is no
    feature block to merge and the fit raises. *)
Theorem X13_a_returning_fit_has_feature_blocks (N : NumPy)
  (C : Collaborators) (X : np.ndarray3) (y : list label) (p p' : process) :
  (forall self self' : WEASEL_V2.instance,
     WEASEL_V2._fit X y (self, p) = (Ok tt, (self', p')) ->
     WEASEL_V2.use_first_differences (WEASEL_V2.hp self) <> [])
  /\
  (forall self self' : MUSE_V2.instance,
     MUSE_V2._fit X y (self, p) = (Ok tt, (self', p')) ->
     1 <= MUSE_V2.ensemble_size (MUSE_V2.hp self)
     /\ (1 <= np.shape1 X)%nat).
Proof.
  split.
  - intros self self' H Hempty.
    destruct (weasel_fit_structure X y self p self' p' H)
      as (res & all_words & _ & _ & Hmerge & _ & Hres).
    rewrite Hempty in Hres.
    assert (Hnone : List.concat (map fst res) = []).
    { clear Hmerge. induction Hres as [| i r rest rs [Hlen Hr] _ IH];
        [reflexivity |].
      apply Forall2_length in Hr. cbn [List.length] in Hr.
      rewrite <- Hr in Hlen.
      destruct (fst r) eqn:Hf; [| discriminate Hlen].
      cbn [map List.concat]. rewrite Hf. exact IH. }
    rewrite Hnone in Hmerge. discriminate Hmerge.
  - intros self self' H.
    destruct (muse_fit_structure X y self p self' p' H)
      as (_ & _ & res & all_words & _ & Hmerge & _ & Hres).
    assert (Hsome : List.concat (map fst res) <> [])
      by (intros Hnone; rewrite Hnone in Hmerge; discriminate Hmerge).
    split.
    + destruct (Z_lt_le_dec 0 (MUSE_V2.ensemble_size (MUSE_V2.hp self)))
        as [Hpos | Hneg]; [lia |].
      rewrite (range_nonpos _ Hneg) in Hres. inversion Hres; subst.
      contradiction Hsome. reflexivity.
    + destruct (np.shape1 X) as [| k] eqn:Hk; [| lia].
      exfalso. apply Hsome. clear Hmerge Hsome.
      assert (Hzero : (if MUSE_V2.use_first_differences (MUSE_V2.hp self)
                       then 2 * 0 else 0)%nat = 0%nat)
        by (destruct (MUSE_V2.use_first_differences _); reflexivity).
      rewrite Hzero in Hres.
      induction Hres as [| i r rest rs [Hlen [Hr _]] _ IH]; [reflexivity |].
      rewrite Hr in Hlen.
      destruct (fst r) eqn:Hf; [| discriminate Hlen].
      cbn [map List.concat]. rewrite Hf. exact IH.
Qed.

(* ===================================================================== *)
(** ** The label of more than two classes                                 *)
(* ===================================================================== *)

Ltac compare_cases :=
  repeat match goal with
  | |- context [(?a ?= ?b)%Z] =>
      destruct (Z.compare_spec a b); subst
  | |- context [PosDef.Pos.compare_cont Eq ?a ?b] =>
      change (PosDef.Pos.compare_cont Eq a b) with (Pos.compare a b);
      destruct (Pos.compare_spec a b); subst
  end.

Lemma SFleb_trans (a b c : spec_float) :
  SFleb a b = true -> SFleb b c = true -> SFleb a c = true.
Proof.
  unfold SFleb, SFcompare.
  destruct a as [sa | sa | | sa ma ea], b as [sb | sb | | sb mb eb],
    c as [sc | sc | | sc mc ec];
    try destruct sa; try destruct sb; try destruct sc;
    try reflexivity; try discriminate;
    compare_cases; cbn; intros; try reflexivity; try discriminate; lia.
Qed.

Lemma SFleb_total (a b : spec_float) :
  SFleb a b = false -> SFeqb a a = true -> SFeqb b b = true ->
  SFleb b a = true.
Proof.
  unfold SFleb, SFeqb, SFcompare.
  destruct a as [sa | sa | | sa ma ea], b as [sb | sb | | sb mb eb];
    try destruct sa; try destruct sb;
    try reflexivity; try discriminate;
    compare_cases; cbn; intros; try reflexivity; try discriminate; lia.
Qed.

Lemma SFleb_ordered (a b : spec_float) :
  SFleb a b = true -> SFeqb a a = true /\ SFeqb b b = true.
Proof.
  unfold SFleb, SFeqb, SFcompare.
  destruct a as [sa | sa | | sa ma ea], b as [sb | sb | | sb mb eb];
    try destruct sa; try destruct sb;
    try discriminate; intros _; split; try reflexivity;
    rewrite Z.compare_refl;
    change (PosDef.Pos.compare_cont Eq ?a ?a) with (Pos.compare a a);
    rewrite Pos.compare_refl; reflexivity.
Qed.

Lemma is_nan_false (x : float) :
  is_nan x = false <-> SFeqb (Prim2SF x) (Prim2SF x) = true.
Proof.
  unfold is_nan. rewrite eqb_spec.
  destruct (SFeqb (Prim2SF x) (Prim2SF x)); cbn; split; congruence.
Qed.

Lemma leb_trans (x y z : float) :
  (x <=? y)%float = true -> (y <=? z)%float = true ->
  (x <=? z)%float = true.
Proof. rewrite !leb_spec. apply SFleb_trans. Qed.

Lemma leb_total (x y : float) :
  is_nan x = false -> is_nan y = false ->
  (x <=? y)%float = false -> (y <=? x)%float = true.
Proof.
  rewrite !is_nan_false, !leb_spec. intros Hx Hy H.
  apply SFleb_total; assumption.
Qed.

Lemma leb_ordered (x y : float) :
  (x <=? y)%float = true -> is_nan x = false /\ is_nan y = false.
Proof. rewrite !is_nan_false, leb_spec. apply SFleb_ordered. Qed.

Lemma leb_refl (x : float) : is_nan x = false -> (x <=? x)%float = true.
Proof.
  intros Hx. destruct (x <=? x)%float eqn:E; [reflexivity |].
  rewrite <- E. apply leb_total; assumption.
Qed.

(** The scan, from a prefix without NaN whose first largest value is at
    [mi], ends on the winning column of the whole row. *)
Lemma argmax_scan_wins (xs pre : list float) (mi : nat) (mp : float) :
  Forall (fun x => is_nan x = false) pre ->
  nth_error pre mi = Some mp ->
  (forall j x, nth_error pre j = Some x -> (x <=? mp)%float = true) ->
  (forall j x, (j < mi)%nat -> nth_error pre j = Some x ->
               (mp <=? x)%float = false) ->
  exists k,
    np.argmax_scan mp (Z.of_nat mi) (Z.of_nat (List.length pre)) xs
      = Z.of_nat k
    /\ winning_column (pre ++ xs) k.
Proof.
  revert pre mi mp.
  induction xs as [| x rest IH]; intros pre mi mp Hnan Hmi Hle Hlt.
  - exists mi. split; [reflexivity |]. rewrite app_nil_r. right.
    split; [exact Hnan |]. exists mp. repeat split; assumption.
  - cbn [np.argmax_scan].
    assert (Hmp : is_nan mp = false) by (apply (leb_ordered mp mp), (Hle mi mp Hmi)).
    assert (Hlen : Z.of_nat (List.length pre) + 1 =
                   Z.of_nat (List.length (pre ++ [x])))
      by (rewrite length_app; cbn; lia).
    assert (Happ : (pre ++ x :: rest = (pre ++ [x]) ++ rest)%list)
      by (rewrite <- app_assoc; reflexivity).
    destruct (x <=? mp)%float eqn:Hx; cbn [negb].
    + rewrite Hlen, Happ. apply IH.
      * apply Forall_app. split; [exact Hnan |].
        constructor; [apply (leb_ordered x mp Hx) | constructor].
      * rewrite nth_error_app1; [exact Hmi |].
        apply nth_error_Some. rewrite Hmi. discriminate.
      * intros j y Hj.
        destruct (Nat.lt_ge_cases j (List.length pre)) as [Hin | Hout].
        -- rewrite nth_error_app1 in Hj by exact Hin. exact (Hle j y Hj).
        -- rewrite nth_error_app2 in Hj by exact Hout.
           destruct (j - List.length pre)%nat as [| d]; cbn in Hj.
           ++ inversion Hj; subst. exact Hx.
           ++ destruct d; discriminate Hj.
      * intros j y Hjm Hj.
        assert (Hin : (mi < List.length pre)%nat)
          by (apply nth_error_Some; rewrite Hmi; discriminate).
        rewrite nth_error_app1 in Hj by lia. exact (Hlt j y Hjm Hj).
    + destruct (is_nan x) eqn:Hxn.
      * exists (List.length pre). split; [reflexivity |]. left.
        exists x. split; [| split; [exact Hxn |]].
        -- rewrite nth_error_app2 by lia. rewrite Nat.sub_diag. reflexivity.
        -- rewrite firstn_app, Nat.sub_diag, firstn_all. cbn [firstn].
           rewrite app_nil_r. exact Hnan.
      * assert (Hmx : (mp <=? x)%float = true)
          by (apply leb_total; assumption).
        rewrite Hlen, Happ.
        apply (IH (pre ++ [x])%list (List.length pre) x).
        -- apply Forall_app. split; [exact Hnan |].
           constructor; [exact Hxn | constructor].
        -- rewrite nth_error_app2 by lia. rewrite Nat.sub_diag. reflexivity.
        -- intros j y Hj.
           destruct (Nat.lt_ge_cases j (List.length pre)) as [Hin | Hout].
           ++ rewrite nth_error_app1 in Hj by exact Hin.
              exact (leb_trans y mp x (Hle j y Hj) Hmx).
           ++ rewrite nth_error_app2 in Hj by exact Hout.
              destruct (j - List.length pre)%nat as [| d]; cbn in Hj.
              ** inversion Hj; subst. apply leb_refl. exact Hxn.
              ** destruct d; discriminate Hj.
        -- intros j y Hjm Hj.
           rewrite nth_error_app1 in Hj by exact Hjm.
           destruct (x <=? y)%float eqn:Hxy; [| reflexivity].
           rewrite (leb_trans x y mp Hxy (Hle j y Hj)) in Hx.
           discriminate Hx.
Qed.

Lemma argmax_row_wins (row : list float) :
  row <> [] ->
  exists k, np.argmax_row row = Ok (Z.of_nat k) /\ winning_column row k.
Proof.
  destruct row as [| x rest]; [contradiction |]. intros _.
  cbn [np.argmax_row]. destruct (is_nan x) eqn:Hx.
  - exists 0%nat. split; [reflexivity |]. left. exists x.
    split; [reflexivity |]. split; [exact Hx | constructor].
  - destruct (argmax_scan_wins rest [x] 0 x) as (k & Hk & Hwin).
    + constructor; [exact Hx | constructor].
    + reflexivity.
    + intros j y Hj. destruct j as [| j]; cbn in Hj.
      * inversion Hj; subst. apply leb_refl. exact Hx.
      * destruct j; discriminate Hj.
    + intros j y Hj. lia.
    + exists k. split; [f_equal; exact Hk | exact Hwin].
Qed.

Lemma winning_column_in_row (row : list float) (k : nat) :
  winning_column row k -> (k < List.length row)%nat.
Proof.
  intros [(x & Hx & _) | [_ (top & Hx & _)]];
    apply nth_error_Some; rewrite Hx; discriminate.
Qed.

(** X14: with more than two classes, [_predict_proba] labels each instance
    by the class of the winning column of its row of decision scores: the
    first largest score or, when the row holds a NaN, the first NaN. For
    rows that are not empty and not wider than [classes_] it returns one
    label per instance, in order. *)
Theorem X14_multiclass_label_is_the_first_best_class {label : Type}
  (classes : list label) (m : list (list float)) :
  Forall (fun row => row <> [] /\ (List.length row <= List.length classes)%nat)
    m ->
  exists labels,
    labels_of_scores classes (np.Scores2D m) = Ok labels
    /\ Forall2 (fun row l =>
         exists k, winning_column row k /\ nth_error classes k = Some l)
         m labels.
Proof.
  unfold labels_of_scores. induction 1 as [| row rest [Hne Hwide] _ IH].
  - exists []. split; [reflexivity | constructor].
  - destruct IH as (labels & Hrest & Hall).
    destruct (argmax_row_wins row Hne) as (k & Hk & Hwin).
    pose proof (winning_column_in_row row k Hwin) as Hin.
    destruct (nth_error classes k) as [l |] eqn:Hl;
      [| apply nth_error_None in Hl; lia].
    exists (l :: labels). cbn [np.argmax_axis1]. rewrite Hk.
    destruct (np.argmax_axis1 rest) as [ks | e]; [| discriminate Hrest].
    cbn [np.take]. rewrite getitem_nth, Hl, Hrest.
    split; [reflexivity |].
    constructor; [| exact Hall]. exists k. split; assumption.
Qed.

(** X14 on three classes and two instances. *)
Lemma X14_multiclass_label_is_the_first_best_class_witness :
  exists labels,
    labels_of_scores ["A"; "B"; "C"]%string
      (np.Scores2D [[1; 3; 3]; [2; 0; 1]]%float) = Ok labels
    /\ Forall2 (fun row l =>
         exists k,
           winning_column row k
           /\ nth_error ["A"; "B"; "C"]%string k = Some l)
         [[1; 3; 3]; [2; 0; 1]]%float labels.
Proof.
  apply (X14_multiclass_label_is_the_first_best_class
           ["A"; "B"; "C"]%string [[1; 3; 3]; [2; 0; 1]]%float).
  repeat constructor; try discriminate; cbn; lia.
Defined.

(* ===================================================================== *)
(** ** Feature blocks and transformers, position by position             *)
(* ===================================================================== *)

Lemma Forall2_concat {A B : Type} (P : A -> B -> Prop)
  (xss : list (list A)) (yss : list (list B)) :
  Forall2 (Forall2 P) xss yss ->
  Forall2 P (List.concat xss) (List.concat yss).
Proof.
  induction 1 as [| xs ys xss yss H _ IH]; [constructor |].
  cbn [List.concat]. apply Forall2_app; assumption.
Qed.

Lemma Forall2_two_maps {A B B' : Type} (P : B' -> B -> Prop)
  (xs : list A) (l : list (B * B')) :
  Forall2 (fun _ wt => P (snd wt) (fst wt)) xs l ->
  Forall2 P (map snd l) (map fst l).
Proof. induction 1; constructor; assumption. Qed.

Section Alignment.
Context {N : NumPy} {C : Collaborators}.

(** The blocks and the transformers a univariate task returns, position
    by position: the block is what [fit_transform] of the transformer
    returned, and the transformer holds what it learned then. *)
Lemma weasel_task_aligned i X y ws azs wls L nos ufd bss v a b lb nj mfc es
  fs rrw sec random_state (g g' : RandomState) r :
  WEASEL_V2._parallel_fit i X y ws azs wls L nos ufd bss v a b lb nj mfc es
    fs rrw sec random_state g = (Ok r, g') ->
  Forall2 (fun t blk => fit_transform (params t) X y = Ok (blk, learned t))
    (snd r) (fst r).
Proof.
  intros H. apply weasel_parallel_fit_Ok in H. destruct H as (rng & rng' & H).
  unfold WEASEL_V2._parallel_fit_with_rng in H.
  apply bind_Ok in H. destruct H as (c & g1 & _ & H).
  apply bind_Ok in H. destruct H as (fitted & g2 & Hf & H).
  inversion H; subst; clear H. cbn [fst snd].
  apply (Forall2_two_maps _ ufd). apply for_each_Ok in Hf.
  eapply Forall2_impl; [| exact Hf].
  intros fd [w t] (s1 & s2 & Hb).
  apply bind_Ok in Hb. destruct Hb as (tr & s3 & _ & Hb).
  apply bind_Ok in Hb. destruct Hb as ([w' v'] & s4 & Hw & Hb).
  apply lift_Ok in Hw. destruct Hw as [Hw _].
  inversion Hb; subst. exact Hw.
Qed.

Lemma weasel_fit_members_aligned XX y (self : WEASEL_V2.instance) p res sp1 :
  WEASEL_V2.fit_members XX y (self, p) = (Ok res, sp1) ->
  Forall2 (fun t blk => fit_transform (params t) XX y = Ok (blk, learned t))
    (List.concat (map snd res)) (List.concat (map fst res)).
Proof.
  unfold WEASEL_V2.fit_members, bind, self_, setattr, modify.
  cbn [fst snd]. intros H. apply Parallel_Ok in H. destruct H as [Hr _].
  apply Forall2_concat.
  apply (Forall2_two_maps _ (Py.range (WEASEL_V2.ensemble_size self))).
  eapply Forall2_impl; [| exact Hr].
  intros i r (g & g' & Ht). cbn in Ht.
  apply weasel_task_aligned in Ht. exact Ht.
Qed.

Lemma weasel_transform_words_Ok X (self : WEASEL_V2.instance) p bag st' :
  WEASEL_V2._transform_words X (self, p) = (Ok bag, st') ->
  exists blocks,
    Forall2 (fun t blk =>
      transform (params t) (learned t) (np.channel X 0) = Ok blk)
      (WEASEL_V2.SFA_transformers self) blocks
    /\ merge blocks = Ok bag.
Proof.
  unfold WEASEL_V2._transform_words. intros H.
  apply bind_Ok in H. destruct H as (XX & s1 & HX & H).
  apply lift_Ok in HX. destruct HX as [HX ->].
  unfold np.squeeze1 in HX.
  destruct (np.shape1 X =? 1)%nat; [| discriminate HX].
  inversion HX; subst XX; clear HX.
  apply bind_Ok in H. destruct H as (s & s2 & Hs & H).
  unfold self_ in Hs. inversion Hs; subst s s2; clear Hs. cbn [fst] in H.
  apply bind_Ok in H. destruct H as (blocks & s3 & Hb & H).
  apply lift_Ok in H. destruct H as [Hm _].
  exists blocks. split; [| exact Hm].
  apply for_each_Ok in Hb.
  eapply Forall2_impl; [| exact Hb].
  intros t blk (s4 & s5 & Ht). apply lift_Ok in Ht. apply Ht.
Qed.

End Alignment.

Section Trained.
Context {N : NumPy} {C : Collaborators}.

(** What the end of a univariate fit that returns has done with the
    feature blocks. *)
Lemma weasel_fit_classifier_fitted res y (self : WEASEL_V2.instance) p self'
  p' :
  WEASEL_V2.fit_classifier res y (self, p) = (Ok tt, (self', p')) ->
  exists all_words fitted,
    merge (List.concat (map fst res)) = Ok all_words
    /\ RidgeClassifierCV_fit (logspace (-1) 5 10) all_words y = Ok fitted
    /\ WEASEL_V2.clf self' = Some fitted
    /\ WEASEL_V2.total_features_count self' =
       Some (Z.of_nat (np.cols (np.payload all_words)))
    /\ WEASEL_V2.cross_val_score self' =
       match best_score_ fitted with
       | Some score => Some score
       | None => WEASEL_V2.cross_val_score self
       end.
Proof.
  unfold WEASEL_V2.fit_classifier, bind, setattr, modify, lift.
  cbn [fst snd].
  destruct (merge (List.concat (map fst res))) as [all_words | e];
    [| discriminate].
  destruct (RidgeClassifierCV_fit (logspace (-1) 5 10) all_words y)
    as [fitted | e] eqn:Hfit; [| discriminate].
  destruct (best_score_ fitted) eqn:Hbest; intros H; inversion H; subst;
    exists all_words, fitted; rewrite Hbest; repeat split;
    try reflexivity; exact Hfit.
Qed.

Lemma merged_width (blocks : list np.block) (all_words : np.block) :
  merge blocks = Ok all_words ->
  np.cols (np.payload all_words) =
  list_sum (map (fun blk => np.cols (np.payload blk)) blocks).
Proof.
  destruct blocks as [| first rest]; [discriminate |].
  intros H. apply merge_Ok in H. destruct H as (_ & Hp & _).
  rewrite Hp, cols_hcat, map_map. reflexivity.
Qed.

Lemma weasel_fit_trained X y (self : WEASEL_V2.instance) p self' p' :
  WEASEL_V2._fit X y (self, p) = (Ok tt, (self', p')) ->
  exists new blocks all_words fitted,
    WEASEL_V2.SFA_transformers self' =
      (WEASEL_V2.SFA_transformers self ++ new)%list
    /\ Forall2 (fun t blk =>
         fit_transform (params t) (np.channel X 0) y = Ok (blk, learned t))
         new blocks
    /\ merge blocks = Ok all_words
    /\ RidgeClassifierCV_fit (logspace (-1) 5 10) all_words y = Ok fitted
    /\ WEASEL_V2.clf self' = Some fitted
    /\ WEASEL_V2.total_features_count self' =
       Some (Z.of_nat (np.cols (np.payload all_words)))
    /\ WEASEL_V2.cross_val_score self' =
       match best_score_ fitted with
       | Some score => Some score
       | None => WEASEL_V2.cross_val_score self
       end.
Proof.
  intros H.
  pose proof (weasel_fit_Ok_univariate _ _ _ _ _ H) as H1.
  rewrite (weasel_fit_prelude X y self p H1) in H.
  destruct (WEASEL_V2.min_window (WEASEL_V2.hp self) >? _); [discriminate |].
  apply bind_Ok in H. destruct H as (res & [s1 p1] & Hm & Hc).
  pose proof (weasel_fit_members_Ok _ _ _ _ _ _ Hm) as [Hs1 _].
  cbn [fst] in Hs1. subst s1.
  apply weasel_fit_members_aligned in Hm.
  pose proof (weasel_fit_classifier_Ok _ _ _ _ _ _ Hc) as (Hts & _).
  destruct (weasel_fit_classifier_fitted _ _ _ _ _ _ Hc)
    as (all_words & fitted & Hmerge & Hfit & Hclf & Htot & Hcv).
  exists (List.concat (map snd res)), (List.concat (map fst res)),
    all_words, fitted.
  repeat split; assumption.
Qed.

End Trained.

(** X15: the columns of the univariate pipeline follow the transformers.
    A fit that returns has merged, in the order of the transformers it
    added, the blocks their [fit_transform] returned on the squeezed series,
    each transformer keeping what it learned in that call; it has fitted the
    ridge classifier on the merged matrix with [alphas=np.logspace(-1, 5,
    10)], stored it in [clf], recorded the summed width of the blocks in
    [total_features_count], and set [cross_val_score] only when the
    classifier has a [best_score_]. [_transform_words] on the fitted model
    merges one block per stored transformer, in the stored order, the ones
    stored before the fit included. *)
Theorem X15_weasel_columns_follow_the_transformers (N : NumPy)
  (C : Collaborators) (X : np.ndarray3) (y : list label)
  (self self' : WEASEL_V2.instance) (p p' : process) :
  WEASEL_V2._fit X y (self, p) = (Ok tt, (self', p')) ->
  exists new blocks all_words fitted,
    WEASEL_V2.SFA_transformers self' =
      (WEASEL_V2.SFA_transformers self ++ new)%list
    /\ Forall2 (fun t blk =>
         fit_transform (params t) (np.channel X 0) y = Ok (blk, learned t))
         new blocks
    /\ merge blocks = Ok all_words
    /\ RidgeClassifierCV_fit (logspace (-1) 5 10) all_words y = Ok fitted
    /\ WEASEL_V2.clf self' = Some fitted
    /\ WEASEL_V2.total_features_count self' =
       Some (Z.of_nat
               (list_sum (map (fun blk => np.cols (np.payload blk)) blocks)))
    /\ WEASEL_V2.cross_val_score self' =
       match best_score_ fitted with
       | Some score => Some score
       | None => WEASEL_V2.cross_val_score self
       end
    /\ forall X2 q bag st',
         WEASEL_V2._transform_words X2 (self', q) = (Ok bag, st') ->
         exists blocks2,
           Forall2 (fun t blk =>
             transform (params t) (learned t) (np.channel X2 0) = Ok blk)
             (WEASEL_V2.SFA_transformers self ++ new)%list blocks2
           /\ merge blocks2 = Ok bag.
Proof.
  intros H.
  destruct (weasel_fit_trained X y self p self' p' H)
    as (new & blocks & all_words & fitted & Hts & Hal & Hmerge & Hfit & Hclf
        & Htot & Hcv).
  exists new, blocks, all_words, fitted.
  repeat split; try assumption.
  - rewrite Htot, (merged_width blocks all_words Hmerge). reflexivity.
  - intros X2 q bag st' Ht. rewrite <- Hts.
    exact (weasel_transform_words_Ok X2 self' q bag st' Ht).
Qed.

(** X15 on the reference implementation: the default univariate pipeline
    fitted on one series. *)
Lemma X15_weasel_columns_follow_the_transformers_witness :
  let X := Reference.one_series in
  let after :=
    fst (snd (WEASEL_V2._fit (N := Reference.numpy)
                (C := Reference.collaborators) X ["A"%string]
                (WEASEL_V2.default, Reference.process_at 7))) in
  exists blocks all_words,
    Forall2 (fun t blk =>
      fit_transform (Collaborators := Reference.collaborators) (params t)
        (np.channel X 0) ["A"%string] = Ok (blk, learned t))
      (WEASEL_V2.SFA_transformers after) blocks
    /\ merge blocks = Ok all_words
    /\ WEASEL_V2.total_features_count after =
       Some (Z.of_nat
               (list_sum (map (fun blk => np.cols (np.payload blk)) blocks))).
Proof.
  cbv zeta.
  assert (Hok : fst (WEASEL_V2._fit (N := Reference.numpy)
                       (C := Reference.collaborators) Reference.one_series
                       ["A"%string]
                       (WEASEL_V2.default, Reference.process_at 7)) = Ok tt)
    by (vm_compute; reflexivity).
  revert Hok.
  destruct (WEASEL_V2._fit (N := Reference.numpy)
              (C := Reference.collaborators) Reference.one_series
              ["A"%string] (WEASEL_V2.default, Reference.process_at 7))
    as [[[] | e] [self' p']] eqn:E; intros Hok; [| discriminate Hok].
  destruct (X15_weasel_columns_follow_the_transformers Reference.numpy
              Reference.collaborators _ _ _ _ _ _ E)
    as (new & blocks & all_words & fitted & Hts & Hal & Hmerge & _ & _ & Htot
        & _).
  exists blocks, all_words. cbn [fst snd]. rewrite Hts.
  repeat split; assumption.
Defined.

Lemma Forall2_seq_nth {B : Type} (P : nat -> B -> Prop) (l pre : list B) :
  Forall2 P (seq (List.length pre) (List.length l)) l ->
  Forall2 (fun d b => P d b /\ nth_error (pre ++ l) d = Some b)
    (seq (List.length pre) (List.length l)) l.
Proof.
  revert pre. induction l as [| b l IH]; intros pre H; [constructor |].
  cbn [List.length seq] in *.
  inversion H as [| d b' ds l' Hb Hrest]; subst. constructor.
  - split; [exact Hb |].
    rewrite nth_error_app2 by lia. rewrite Nat.sub_diag. reflexivity.
  - specialize (IH (pre ++ [b])%list).
    rewrite length_app, Nat.add_1_r, <- app_assoc in IH.
    apply IH. exact Hrest.
Qed.

Lemma Forall2_map_fst {A B B' : Type} (Q : A -> B -> Prop) (xs : list A)
  (bs : list (B * B')) :
  Forall2 (fun x b => Q x (fst b)) xs bs -> Forall2 Q xs (map fst bs).
Proof. induction 1; simpl; constructor; assumption. Qed.

Lemma getitem_Ok {A} (xs : list A) (k : Z) (x : A) :
  Py.getitem xs k = Ok x -> 0 <= k /\ nth_error xs (Z.to_nat k) = Some x.
Proof.
  unfold Py.getitem.
  destruct (Z.ltb_spec k 0) as [Hneg | Hpos]; [discriminate |].
  destruct (nth_error xs (Z.to_nat k)) as [x' |]; [| discriminate].
  intros H. inversion H; subst. split; [exact Hpos | reflexivity].
Qed.

Section MuseTrained.
Context {N : NumPy} {C : Collaborators}.

(** The blocks and the transformers a multivariate task returns, channel
    by channel. *)
Lemma muse_task_aligned ind X y ws azs wls nos ufd bss v a b nj mfc es fs
  random_state (g g' : RandomState) r :
  MUSE_V2._parallel_fit ind X y ws azs wls nos ufd bss v a b nj mfc es fs
    random_state g = (Ok r, g') ->
  Forall2 (fun dim blk =>
    exists t,
      nth_error (snd r) dim = Some t
      /\ fit_transform (params t) (np.channel X dim) y = Ok (blk, learned t))
    (seq 0 (np.shape1 X)) (fst r).
Proof.
  intros H. apply muse_parallel_fit_Ok in H. destruct H as (rng & rng' & H).
  unfold MUSE_V2._parallel_fit_with_rng in H.
  apply bind_Ok in H. destruct H as (c & g1 & _ & H).
  apply bind_Ok in H. destruct H as (fitted & g2 & Hf & H).
  inversion H; subst; clear H. cbn [fst snd].
  apply for_each_Ok in Hf.
  assert (Hlen : List.length fitted = np.shape1 X).
  { apply Forall2_length in Hf. rewrite length_seq in Hf. symmetry. exact Hf. }
  rewrite <- Hlen in *.
  apply (Forall2_seq_nth _ fitted []) in Hf. cbn [app List.length] in Hf.
  apply Forall2_map_fst.
  eapply Forall2_impl; [| exact Hf].
  intros dim [w t] [(s1 & s2 & Hb) Hn]. cbn [fst].
  exists t. split.
  - rewrite nth_error_map, Hn. reflexivity.
  - apply bind_Ok in Hb. destruct Hb as (tr & s3 & _ & Hb).
    apply bind_Ok in Hb. destruct Hb as ([w' v'] & s4 & Hw & Hb).
    apply lift_Ok in Hw. destruct Hw as [Hw _].
    inversion Hb; subst. exact Hw.
Qed.

Lemma muse_fit_members_aligned X y (self : MUSE_V2.instance) p res sp1 :
  MUSE_V2.fit_members X y (self, p) = (Ok res, sp1) ->
  Forall2 (fun member blocks =>
    Forall2 (fun dim blk =>
      exists t,
        nth_error member dim = Some t
        /\ fit_transform (params t) (np.channel X dim) y
           = Ok (blk, learned t))
      (seq 0 (np.shape1 X)) blocks)
    (map snd res) (map fst res).
Proof.
  unfold MUSE_V2.fit_members, bind, self_, setattr, modify.
  cbn [fst snd]. intros H. apply Parallel_Ok in H. destruct H as [Hr _].
  apply (Forall2_two_maps _
           (Py.range (MUSE_V2.ensemble_size (MUSE_V2.hp self)))).
  eapply Forall2_impl; [| exact Hr].
  intros i r (g & g' & Ht). cbn in Ht.
  apply muse_task_aligned in Ht. exact Ht.
Qed.

(** What the end of a multivariate fit that returns has done with the
    feature blocks. *)
Lemma muse_fit_classifier_fitted res y (self : MUSE_V2.instance) p self' p' :
  MUSE_V2.fit_classifier res y (self, p) = (Ok tt, (self', p')) ->
  exists all_words fitted,
    merge (List.concat (map fst res)) = Ok all_words
    /\ RidgeClassifierCV_fit (logspace (-3) 3 10) all_words y = Ok fitted
    /\ MUSE_V2.clf self' = Some fitted
    /\ MUSE_V2.total_features_count self' =
       Z.of_nat (np.cols (np.payload all_words))
    /\ MUSE_V2.cross_val_score self' =
       match best_score_ fitted with
       | Some score => Some score
       | None => MUSE_V2.cross_val_score self
       end.
Proof.
  unfold MUSE_V2.fit_classifier, bind, setattr, modify, lift.
  cbn [fst snd].
  destruct (merge (List.concat (map fst res))) as [all_words | e];
    [| discriminate].
  destruct (RidgeClassifierCV_fit (logspace (-3) 3 10) all_words y)
    as [fitted | e] eqn:Hfit; [| discriminate].
  destruct (best_score_ fitted) eqn:Hbest; intros H; inversion H; subst;
    exists all_words, fitted; rewrite Hbest; repeat split;
    try reflexivity; exact Hfit.
Qed.

Lemma muse_fit_trained X y (self : MUSE_V2.instance) p self' p' :
  MUSE_V2._fit X y (self, p) = (Ok tt, (self', p')) ->
  exists X' blocks all_words fitted,
    MUSE_V2.with_first_differences
      (MUSE_V2.use_first_differences (MUSE_V2.hp self)) X = Ok X'
    /\ Forall2 (fun member member_blocks =>
         Forall2 (fun dim blk =>
           exists t,
             nth_error member dim = Some t
             /\ fit_transform (params t) (np.channel X' dim) y
                = Ok (blk, learned t))
           (seq 0 (np.shape1 X')) member_blocks)
         (MUSE_V2.SFA_transformers self') blocks
    /\ merge (List.concat blocks) = Ok all_words
    /\ RidgeClassifierCV_fit (logspace (-3) 3 10) all_words y = Ok fitted
    /\ MUSE_V2.clf self' = Some fitted
    /\ MUSE_V2.total_features_count self' =
       Z.of_nat (np.cols (np.payload all_words))
    /\ MUSE_V2.cross_val_score self' =
       match best_score_ fitted with
       | Some score => Some score
       | None => MUSE_V2.cross_val_score self
       end.
Proof.
  intros H. unfold MUSE_V2._fit in H.
  apply bind_Ok in H. destruct H as (s0 & sp0 & H0 & H).
  unfold self_ in H0. inversion H0; subst s0 sp0; clear H0. cbn [fst] in H.
  apply bind_Ok in H. destruct H as (X' & sp1 & HX & H).
  apply lift_Ok in HX. destruct HX as [HX ->].
  apply bind_Ok in H. destruct H as ([] & [s2 p2] & Hrd & H).
  apply bind_Ok in H. destruct H as ([] & [s3 p3] & Hcw & H).
  apply bind_Ok in H. destruct H as (res & [s4 p4] & Hm & H).
  assert (Hcv2 : MUSE_V2.cross_val_score s2 = MUSE_V2.cross_val_score self).
  { revert Hrd.
    unfold MUSE_V2.read_dimensions, bind, self_, setattr, modify, lift, warn,
      raise, ret.
    cbn [fst snd].
    destruct (MUSE_V2.ceil_log2 (Z.of_nat (np.shape1 X'))) as [bits | e];
      [| discriminate].
    destruct (Z.of_nat (np.shape1 X') =? 1);
      destruct (MUSE_V2.variance (MUSE_V2.hp self)
                && MUSE_V2.anova (MUSE_V2.hp self));
      cbn [fst snd]; intros Hrd; inversion Hrd; subst; reflexivity. }
  rewrite muse_check_windows in Hcw. inversion Hcw; subst s3 p3; clear Hcw.
  pose proof (muse_fit_members_Ok _ _ _ _ _ _ Hm) as [Hs4 _].
  cbn [fst] in Hs4. subst s4.
  apply muse_fit_members_aligned in Hm.
  destruct (muse_fit_classifier_fitted _ _ _ _ _ _ H)
    as (all_words & fitted & Hmerge & Hfit & Hclf & Htot & Hcv).
  apply muse_fit_classifier_Ok in H. destruct H as (Ht & _).
  exists X', (map fst res), all_words, fitted.
  rewrite Ht. cbn in Hcv. rewrite Hcv2 in Hcv.
  repeat split; assumption.
Qed.

Lemma muse_transform_words_Ok X (self : MUSE_V2.instance) p bag st' :
  MUSE_V2._transform_words X (self, p) = (Ok bag, st') ->
  exists X' blocks,
    MUSE_V2.with_first_differences
      (MUSE_V2.use_first_differences (MUSE_V2.hp self)) X = Ok X'
    /\ Forall2 (fun ind member_blocks =>
         exists member,
           nth_error (MUSE_V2.SFA_transformers self) (Z.to_nat ind)
             = Some member
           /\ MUSE_V2._parallel_transform_words X' member = Ok member_blocks)
         (Py.range (MUSE_V2.ensemble_size (MUSE_V2.hp self))) blocks
    /\ merge (List.concat blocks) = Ok bag.
Proof.
  unfold MUSE_V2._transform_words. intros H.
  apply bind_Ok in H. destruct H as (s & s2 & Hs & H).
  unfold self_ in Hs. inversion Hs; subst s s2; clear Hs. cbn [fst] in H.
  apply bind_Ok in H. destruct H as (X' & s1 & HX & H).
  apply lift_Ok in HX. destruct HX as [HX ->].
  apply bind_Ok in H. destruct H as (blocks & s3 & Hb & H).
  apply lift_Ok in H. destruct H as [Hm _].
  exists X', blocks. split; [exact HX |]. split; [| exact Hm].
  apply for_each_Ok in Hb.
  eapply Forall2_impl; [| exact Hb].
  intros ind member_blocks (s4 & s5 & Ht).
  apply bind_Ok in Ht. destruct Ht as (member & s6 & Hg & Ht).
  apply lift_Ok in Hg. destruct Hg as [Hg _].
  apply lift_Ok in Ht. destruct Ht as [Ht _].
  apply getitem_Ok in Hg. exists member. split; [apply Hg | exact Ht].
Qed.

End MuseTrained.

(** X16: the columns of the multivariate pipeline follow the members and,
    within a member, the channels. A fit that returns has merged, member
    after member and channel after channel of the series as augmented, the
    blocks that [fit_transform] of the transformer of that member and
    channel returned on that channel; it has fitted the ridge classifier on
    the merged matrix with [alphas=np.logspace(-3, 3, 10)], stored it in
    [clf], recorded the summed width of the blocks in
    [total_features_count], and set [cross_val_score] only when the
    classifier has a [best_score_]. [_transform_words] merges the blocks in
    the same order: for each member index below [ensemble_size], what
    [_parallel_transform_words] returns for the stored member on the series
    augmented in the same way. *)
Theorem X16_muse_columns_follow_members_and_channels (N : NumPy)
  (C : Collaborators) (X : np.ndarray3) (y : list label)
  (self self' : MUSE_V2.instance) (p p' : process) :
  MUSE_V2._fit X y (self, p) = (Ok tt, (self', p')) ->
  (exists X' blocks all_words fitted,
     MUSE_V2.with_first_differences
       (MUSE_V2.use_first_differences (MUSE_V2.hp self)) X = Ok X'
     /\ Forall2 (fun member member_blocks =>
          Forall2 (fun dim blk =>
            exists t,
              nth_error member dim = Some t
              /\ fit_transform (params t) (np.channel X' dim) y
                 = Ok (blk, learned t))
            (seq 0 (np.shape1 X')) member_blocks)
          (MUSE_V2.SFA_transformers self') blocks
     /\ merge (List.concat blocks) = Ok all_words
     /\ RidgeClassifierCV_fit (logspace (-3) 3 10) all_words y = Ok fitted
     /\ MUSE_V2.clf self' = Some fitted
     /\ MUSE_V2.total_features_count self' =
        Z.of_nat
          (list_sum (map (fun blk => np.cols (np.payload blk))
                       (List.concat blocks)))
     /\ MUSE_V2.cross_val_score self' =
        match best_score_ fitted with
        | Some score => Some score
        | None => MUSE_V2.cross_val_score self
        end)
  /\ forall X2 q bag st',
       MUSE_V2._transform_words X2 (self', q) = (Ok bag, st') ->
       exists X2' blocks2,
         MUSE_V2.with_first_differences
           (MUSE_V2.use_first_differences (MUSE_V2.hp self)) X2 = Ok X2'
         /\ Forall2 (fun ind member_blocks =>
              exists member,
                nth_error (MUSE_V2.SFA_transformers self') (Z.to_nat ind)
                  = Some member
                /\ MUSE_V2._parallel_transform_words X2' member
                   = Ok member_blocks)
              (Py.range (MUSE_V2.ensemble_size (MUSE_V2.hp self))) blocks2
         /\ merge (List.concat blocks2) = Ok bag.
Proof.
  intros H. split.
  - destruct (muse_fit_trained X y self p self' p' H)
      as (X' & blocks & all_words & fitted & HX & Hal & Hmerge & Hfit & Hclf
          & Htot & Hcv).
    exists X', blocks, all_words, fitted.
    repeat split; try assumption.
    rewrite Htot, (merged_width _ all_words Hmerge). reflexivity.
  - intros X2 q bag st' Ht.
    destruct (muse_fit_structure X y self p self' p' H) as (Hhp & _).
    rewrite <- Hhp.
    exact (muse_transform_words_Ok X2 self' q bag st' Ht).
Qed.

(** X16 on the reference implementation: the default multivariate
    pipeline fitted on one univariate series, augmented to two channels. *)
Lemma X16_muse_columns_follow_members_and_channels_witness :
  let after :=
    fst (snd (MUSE_V2._fit (N := Reference.numpy)
                (C := Reference.collaborators) Reference.one_series
                ["A"%string] (MUSE_V2.default, Reference.process_at 7))) in
  exists X' blocks all_words,
    MUSE_V2.with_first_differences true Reference.one_series = Ok X'
    /\ Forall2 (fun member member_blocks =>
         Forall2 (fun dim blk =>
           exists t,
             nth_error member dim = Some t
             /\ fit_transform (Collaborators := Reference.collaborators)
                  (params t) (np.channel X' dim) ["A"%string]
                = Ok (blk, learned t))
           (seq 0 (np.shape1 X')) member_blocks)
         (MUSE_V2.SFA_transformers after) blocks
    /\ merge (List.concat blocks) = Ok all_words.
Proof.
  cbv zeta.
  assert (Hok : fst (MUSE_V2._fit (N := Reference.numpy)
                       (C := Reference.collaborators) Reference.one_series
                       ["A"%string]
                       (MUSE_V2.default, Reference.process_at 7)) = Ok tt)
    by (vm_compute; reflexivity).
  revert Hok.
  destruct (MUSE_V2._fit (N := Reference.numpy)
              (C := Reference.collaborators) Reference.one_series
              ["A"%string] (MUSE_V2.default, Reference.process_at 7))
    as [[[] | e] [self' p']] eqn:E; intros Hok; [| discriminate Hok].
  destruct (proj1 (X16_muse_columns_follow_members_and_channels
                     Reference.numpy Reference.collaborators _ _ _ _ _ _ E))
    as (X' & blocks & all_words & fitted & HX & Hal & Hmerge & _).
  exists X', blocks, all_words. cbn [fst snd].
  repeat split; assumption.
Defined.
